(** * Scalar-to-array assignment (numpy/core/src/multiarray/array_assign_scalar.c)

    A shallow embedding of [raw_array_assign_scalar],
    [raw_array_wheremasked_assign_scalar] and [PyArray_AssignRawScalar].

    The C functions run over one flat address space, a pending-error
    indicator and a handful of external collaborators (descriptor queries,
    iteration normalisers, transfer-function constructors, allocator,
    thread-state macros).  The embedding threads a [World] through every
    call; each call to a collaborator is recorded in the world's trace, in
    program order, so that statements about "what was called, with which
    arguments, and when" can be made about the code itself. *)

From Stdlib Require Import ZArith List String Bool Lia.
From Stdlib.Strings Require Import Byte.
Import ListNotations.
Local Open Scope Z_scope.

(* ===================================================================== *)
(** ** Data model *)
(* ===================================================================== *)

(** [NPY_CASTING] (ndarraytypes.h). *)
Inductive NPY_CASTING : Type :=
| NPY_NO_CASTING
| NPY_EQUIV_CASTING
| NPY_SAFE_CASTING
| NPY_SAME_KIND_CASTING
| NPY_UNSAFE_CASTING.

(** The fields of [PyArray_Descr] the file reads: [elsize], [alignment] and
    the [NPY_ITEM_REFCOUNT] flag tested by [PyDataType_REFCHK]; [type_num]
    identifies the type. *)
Record PyArray_Descr : Type := mkDescr {
  type_num  : Z;
  elsize    : Z;
  alignment : Z;
  item_refcount : bool
}.

Definition PyDataType_REFCHK (d : PyArray_Descr) : bool := item_refcount d.

(** The fields of [PyArrayObject] reached through [PyArray_NDIM],
    [PyArray_DIMS], [PyArray_STRIDES], [PyArray_DATA], [PyArray_DESCR];
    [writeable] is the [NPY_ARRAY_WRITEABLE] flag.  Pointers are addresses
    in the flat memory of the [World]. *)
Record PyArrayObject : Type := mkArray {
  PyArray_NDIM    : nat;
  PyArray_DIMS    : list Z;
  PyArray_STRIDES : list Z;
  PyArray_DATA    : Z;
  PyArray_DESCR   : PyArray_Descr;
  writeable       : bool
}.

(** Pending Python exceptions, by kind. *)
Inductive PyErr : Type :=
| NotWriteableError (name : string)
| PyExc_TypeError (msg : string)
| PyExc_MemoryError
| ExternalError (code : Z).

(** One entry per call to an external collaborator, in program order. *)
Inductive Event : Type :=
| EvFailUnlessWriteable (ok : bool)
| EvCanCastScalarTo (src_dtype : PyArray_Descr) (scalar : list byte)
                    (dst_dtype : PyArray_Descr) (casting : NPY_CASTING) (ok : bool)
| EvMalloc (size : Z) (res : option Z)
| EvFree (p : Z)
| EvCastRawArrays (src dst : Z) (src_dtype dst_dtype : PyArray_Descr) (ok : bool)
| EvBroadcastStrides (ok : bool)
| EvPrepareOneRawArrayIter (ok : bool)
| EvPrepareTwoRawArrayIter (ok : bool)
| EvGetDTypeTransferFunction (aligned : bool) (src_stride dst_stride : Z)
                             (src_dtype dst_dtype : PyArray_Descr)
                             (move_references : bool) (ok : bool)
| EvGetMaskedDTypeTransferFunction (aligned : bool)
                             (src_stride dst_stride mask_stride : Z)
                             (src_dtype dst_dtype mask_dtype : PyArray_Descr)
                             (move_references : bool) (ok : bool)
| EvBeginThreadsThresholded (nitems : Z)
| EvSaveThread
| EvRestoreThread
| EvStransfer (dst dst_stride src src_stride N src_itemsize : Z)
| EvMaskedStransfer (dst dst_stride src src_stride mask mask_stride N src_itemsize : Z)
| EvAuxdataFree.

(** The state every C function runs in: byte-addressed memory shared by the
    destination, the mask, the scalar and the staging buffer; the
    interpreter's error indicator; the trace. *)
Record World : Type := mkWorld {
  mem   : Z -> byte;
  err   : option PyErr;
  trace : list Event
}.

Definition emit (e : Event) (w : World) : World :=
  mkWorld (mem w) (err w) (trace w ++ [e]).

(** [PyErr_SetObject] and friends: the new exception replaces the indicator. *)
Definition PyErr_Set (e : PyErr) (w : World) : World :=
  mkWorld (mem w) (Some e) (trace w).

Definition PyErr_SetOpt (e : option PyErr) (w : World) : World :=
  match e with
  | Some x => PyErr_Set x w
  | None => w
  end.

(** [PyErr_Occurred() != NULL]. *)
Definition PyErr_Occurred (w : World) : bool :=
  match err w with
  | Some _ => true
  | None => false
  end.

(* ===================================================================== *)
(** ** Memory *)
(* ===================================================================== *)

Definition store_byte (m : Z -> byte) (a : Z) (b : byte) : Z -> byte :=
  fun x => if x =? a then b else m x.

Fixpoint store_bytes (m : Z -> byte) (a : Z) (bs : list byte) : Z -> byte :=
  match bs with
  | [] => m
  | b :: bs' => store_bytes (store_byte m a b) (a + 1) bs'
  end.

Fixpoint load_bytes (m : Z -> byte) (a : Z) (n : nat) : list byte :=
  match n with
  | O => []
  | S n' => m a :: load_bytes m (a + 1) n'
  end.

Definition set_mem (m : Z -> byte) (w : World) : World :=
  mkWorld m (err w) (trace w).

(** An [npy_bool] is true when its byte is not zero. *)
Definition npy_bool_true (b : byte) : bool := negb (Byte.eqb b x00).

(* ===================================================================== *)
(** ** Integer helpers *)
(* ===================================================================== *)

(** Conversion of an [int] to [size_t] (64-bit), as the comparison
    [sizeof(scalarbuffer) >= elsize] and the argument of [PyArray_malloc]
    perform it. *)
Definition to_size_t (z : Z) : Z := z mod 2 ^ 64.

(** [sizeof(npy_longlong[4])]. *)
Definition sizeof_scalarbuffer : Z := 32.

(** The extents [0 .. n-1] of a loop [for (i = 0; i < n; ++i)]. *)
Definition Zrange (n : Z) : list Z := map Z.of_nat (seq 0 (Z.to_nat n)).

(** Product of the first [ndim] entries of a shape: the loop
    [nitems = 1; for (i = 0; i < ndim; i++) nitems *= shape_it[i];] of both
    engines, and [PyArray_SIZE].  [npy_intp] is signed, so C leaves an
    overflowing product undefined; arrays keep their element count within
    [npy_intp], and the product is taken in [Z]. *)
Definition multiply_list (ndim : nat) (shape : list Z) : Z :=
  fold_left Z.mul (firstn ndim shape) 1.

Definition PyArray_SIZE (a : PyArrayObject) : Z :=
  multiply_list (PyArray_NDIM a) (PyArray_DIMS a).

Fixpoint dot (c s : list Z) : Z :=
  match c, s with
  | x :: c', y :: s' => x * y + dot c' s'
  | _, _ => 0
  end.

(* ===================================================================== *)
(** ** Collaborators modelled from the specification *)
(* ===================================================================== *)

(** Modelled from the spec: [npy_is_aligned] (common.h, not in this file).
    "aligned to its own requirement": the address is a multiple of the
    alignment. *)
Definition npy_is_aligned (p : Z) (alignment : Z) : bool :=
  p mod alignment =? 0.

(** Modelled from the spec: [raw_array_is_aligned] (array_assign.c, not in
    this file).  "the destination's per-element alignment requirement is
    satisfied at every stride step": the base pointer and each of the
    [ndim] strides are multiples of the alignment. *)
Definition raw_array_is_aligned (ndim : nat) (data : Z) (strides : list Z)
                                (alignment : Z) : bool :=
  npy_is_aligned data alignment &&
  forallb (fun s => npy_is_aligned s alignment) (firstn ndim strides).

(** Modelled from the spec: the coordinates visited by
    [NPY_RAW_ITER_START] ... [NPY_RAW_ITER_ONE_NEXT]/[_TWO_NEXT]
    (lowlevel_strided_loops.h, not in this file): "an explicit
    counter-vector loop" over every coordinate of the given extents, the
    first extent varying fastest. *)
Fixpoint raw_iter_coords (shape : list Z) : list (list Z) :=
  match shape with
  | [] => [[]]
  | n :: rest =>
      flat_map (fun c => map (fun i => i :: c) (Zrange n)) (raw_iter_coords rest)
  end.

(** What a transfer-function constructor hands back: the callback, given by
    its action on one element (the bytes it stores in the destination slot
    for given source bytes, and the exception it raises, if any), and the
    [needs_api] out-parameter. *)
Record Transfer : Type := mkTransfer {
  convert   : list byte -> list byte * option PyErr;
  needs_api : bool
}.

(** One element: read [src_itemsize] bytes at [src], store the converted
    bytes at [dst], raise what the conversion raised. *)
Definition transfer_one (t : Transfer) (dst src src_itemsize : Z) (w : World) : World :=
  let r := convert t (load_bytes (mem w) src (Z.to_nat src_itemsize)) in
  PyErr_SetOpt (snd r) (set_mem (store_bytes (mem w) dst (fst r)) w).

(** Modelled from the spec: the [PyArray_StridedUnaryOp] callback
    (lowlevel_strided_loops.c, not in this file): "writes the scalar bytes
    into [N] consecutive (by stride) destination slots", every attempted
    write being performed. *)
Fixpoint strided_loop (t : Transfer) (dst dst_stride src src_stride : Z)
                      (N : nat) (src_itemsize : Z) (w : World) : World :=
  match N with
  | O => w
  | S n =>
      strided_loop t (dst + dst_stride) dst_stride (src + src_stride) src_stride
                   n src_itemsize (transfer_one t dst src src_itemsize w)
  end.

(** Modelled from the spec: the [PyArray_MaskedStridedUnaryOp] callback:
    "for each of the [N] positions copies the scalar into the destination
    slot only where the corresponding mask byte is true; positions where
    the mask is false are left untouched". *)
Fixpoint masked_strided_loop (t : Transfer) (dst dst_stride src src_stride : Z)
                             (mask mask_stride : Z)
                             (N : nat) (src_itemsize : Z) (w : World) : World :=
  match N with
  | O => w
  | S n =>
      masked_strided_loop t (dst + dst_stride) dst_stride
                          (src + src_stride) src_stride
                          (mask + mask_stride) mask_stride n src_itemsize
                          (if npy_bool_true (mem w mask)
                           then transfer_one t dst src src_itemsize w
                           else w)
  end.

Definition stransfer (t : Transfer) (dst dst_stride src src_stride N src_itemsize : Z)
                     (w : World) : World :=
  strided_loop t dst dst_stride src src_stride (Z.to_nat N) src_itemsize
               (emit (EvStransfer dst dst_stride src src_stride N src_itemsize) w).

Definition masked_stransfer (t : Transfer) (dst dst_stride src src_stride : Z)
                            (mask mask_stride N src_itemsize : Z)
                            (w : World) : World :=
  masked_strided_loop t dst dst_stride src src_stride mask mask_stride
                      (Z.to_nat N) src_itemsize
                      (emit (EvMaskedStransfer dst dst_stride src src_stride
                                               mask mask_stride N src_itemsize) w).

(** The normalised iteration plans written by
    [PyArray_PrepareOneRawArrayIter] and [PyArray_PrepareTwoRawArrayIter]
    through their out-parameters. *)
Record OneRawArrayIter : Type := mkOneIter {
  it_ndim    : nat;
  it_shape   : list Z;
  it_data    : Z;
  it_strides : list Z
}.

Record TwoRawArrayIter : Type := mkTwoIter {
  it2_ndim     : nat;
  it2_shape    : list Z;
  it2_dataA    : Z;
  it2_stridesA : list Z;
  it2_dataB    : Z;
  it2_stridesB : list Z
}.

(* ===================================================================== *)
(** ** The three functions of array_assign_scalar.c *)
(* ===================================================================== *)

Section ArrayAssignScalar.

Set Default Proof Using "Type".

(** *** External collaborators

    Everything the file calls and does not define is a parameter of the
    development.  Fallible collaborators return the exception they raise
    ([inl]) or their out-parameters ([inr]). *)

Variable PyArray_PrepareOneRawArrayIter :
  nat -> list Z -> Z -> list Z -> PyErr + OneRawArrayIter.
Variable PyArray_PrepareTwoRawArrayIter :
  nat -> list Z -> Z -> list Z -> Z -> list Z -> PyErr + TwoRawArrayIter.
Variable PyArray_GetDTypeTransferFunction :
  bool -> Z -> Z -> PyArray_Descr -> PyArray_Descr -> bool -> PyErr + Transfer.
Variable PyArray_GetMaskedDTypeTransferFunction :
  bool -> Z -> Z -> Z -> PyArray_Descr -> PyArray_Descr -> PyArray_Descr ->
  bool -> PyErr + Transfer.
(** The "internal threshold" of [NPY_BEGIN_THREADS_THRESHOLDED]. *)
Variable threads_threshold : Z.
Variable can_cast_scalar_to :
  PyArray_Descr -> list byte -> PyArray_Descr -> NPY_CASTING -> bool.
Variable PyArray_EquivTypes : PyArray_Descr -> PyArray_Descr -> bool.
Variable PyObject_Repr : PyArray_Descr -> string.
Variable npy_casting_to_string : NPY_CASTING -> string.
(** [PyArray_malloc size]: [None] is [NULL]. *)
Variable PyArray_malloc : Z -> option Z.
(** The address of the local array [scalarbuffer]. *)
Variable scalarbuffer : Z.
(** [PyArray_CastRawArrays count src_bytes src_stride dst_stride src_dtype
    dst_dtype move_references]: the bytes left in the output buffer, and
    the exception raised when it returns [NPY_FAIL]. *)
Variable PyArray_CastRawArrays :
  Z -> list byte -> Z -> Z -> PyArray_Descr -> PyArray_Descr -> bool ->
  list byte * option PyErr.
Variable broadcast_strides :
  nat -> list Z -> nat -> list Z -> list Z -> string -> PyErr + list Z.

(** Modelled from the spec: [PyArray_FailUnlessWriteable] (not in this
    file): "destination must be writable; otherwise fails immediately
    with a not-writable error". *)
Definition PyArray_FailUnlessWriteable (a : PyArrayObject) (name : string)
                                       (w : World) : bool * World :=
  if writeable a
  then (true, emit (EvFailUnlessWriteable true) w)
  else (false, PyErr_Set (NotWriteableError name)
                         (emit (EvFailUnlessWriteable false) w)).

(** Modelled from the spec: [NPY_BEGIN_THREADS_THRESHOLDED] and
    [NPY_END_THREADS] (ndarraytypes.h, not in this file): the lock is
    released "only when the total element count exceeds an internal
    threshold" and "reacquired afterward".  The boolean is the local
    [_save] of [NPY_BEGIN_THREADS_DEF], non-[NULL] once the thread state
    has been saved. *)
Definition NPY_BEGIN_THREADS_THRESHOLDED (loop_size : Z) (w : World)
  : bool * World :=
  let w := emit (EvBeginThreadsThresholded loop_size) w in
  if loop_size >? threads_threshold
  then (true, emit EvSaveThread w)
  else (false, w).

Definition NPY_END_THREADS (_save : bool) (w : World) : World :=
  if _save then emit EvRestoreThread w else w.

Definition NPY_AUXDATA_FREE (w : World) : World := emit EvAuxdataFree w.

(** The body between [NPY_RAW_ITER_START] and [NPY_RAW_ITER_ONE_NEXT]:
    one [stransfer] call per coordinate of the dimensions [1 .. ndim-1],
    on the innermost run of [shape_it[0]] slots. *)
Definition raw_iter_one (t : Transfer) (it : OneRawArrayIter)
                        (src_data src_itemsize : Z) (w : World) : World :=
  fold_left
    (fun w c =>
       stransfer t (it_data it + dot c (skipn 1 (it_strides it)))
                 (nth 0 (it_strides it) 0) src_data 0
                 (nth 0 (it_shape it) 0) src_itemsize w)
    (raw_iter_coords (skipn 1 (firstn (it_ndim it) (it_shape it)))) w.

Definition raw_iter_two (t : Transfer) (it : TwoRawArrayIter)
                        (src_data src_itemsize : Z) (w : World) : World :=
  fold_left
    (fun w c =>
       masked_stransfer t (it2_dataA it + dot c (skipn 1 (it2_stridesA it)))
                        (nth 0 (it2_stridesA it) 0) src_data 0
                        (it2_dataB it + dot c (skipn 1 (it2_stridesB it)))
                        (nth 0 (it2_stridesB it) 0)
                        (nth 0 (it2_shape it) 0) src_itemsize w)
    (raw_iter_coords (skipn 1 (firstn (it2_ndim it) (it2_shape it)))) w.

(** The flag computed under the comment "Check alignment" in both
    engines. *)
Definition check_alignment (ndim : nat) (dst_dtype : PyArray_Descr)
                           (dst_data : Z) (dst_strides : list Z)
                           (src_dtype : PyArray_Descr) (src_data : Z) : bool :=
  let aligned :=
    raw_array_is_aligned ndim dst_data dst_strides (alignment dst_dtype) in
  if negb (npy_is_aligned src_data (alignment src_dtype)) then false
  else aligned.

(** [raw_array_assign_scalar]: 0 on success, -1 on failure. *)
Definition raw_array_assign_scalar
           (ndim : nat) (shape : list Z)
           (dst_dtype : PyArray_Descr) (dst_data : Z) (dst_strides : list Z)
           (src_dtype : PyArray_Descr) (src_data : Z)
           (w : World) : Z * World :=
  let src_itemsize := elsize src_dtype in
  let aligned :=
    check_alignment ndim dst_dtype dst_data dst_strides src_dtype src_data in
  match PyArray_PrepareOneRawArrayIter ndim shape dst_data dst_strides with
  | inl e => (-1, PyErr_Set e (emit (EvPrepareOneRawArrayIter false) w))
  | inr it =>
    let w := emit (EvPrepareOneRawArrayIter true) w in
    let dst_stride0 := nth 0 (it_strides it) 0 in
    match PyArray_GetDTypeTransferFunction
            aligned 0 dst_stride0 src_dtype dst_dtype false with
    | inl e =>
      (-1, PyErr_Set e (emit (EvGetDTypeTransferFunction
                                aligned 0 dst_stride0 src_dtype dst_dtype
                                false false) w))
    | inr t =>
      let w := emit (EvGetDTypeTransferFunction
                       aligned 0 dst_stride0 src_dtype dst_dtype
                       false true) w in
      let '(_save, w) :=
        if negb (needs_api t)
        then NPY_BEGIN_THREADS_THRESHOLDED
               (multiply_list (it_ndim it) (it_shape it)) w
        else (false, w) in
      let w := raw_iter_one t it src_data src_itemsize w in
      let w := NPY_END_THREADS _save w in
      let w := NPY_AUXDATA_FREE w in
      (if needs_api t && PyErr_Occurred w then -1 else 0, w)
    end
  end.

(** [raw_array_wheremasked_assign_scalar]: 0 on success, -1 on failure. *)
Definition raw_array_wheremasked_assign_scalar
           (ndim : nat) (shape : list Z)
           (dst_dtype : PyArray_Descr) (dst_data : Z) (dst_strides : list Z)
           (src_dtype : PyArray_Descr) (src_data : Z)
           (wheremask_dtype : PyArray_Descr) (wheremask_data : Z)
           (wheremask_strides : list Z)
           (w : World) : Z * World :=
  let src_itemsize := elsize src_dtype in
  let aligned :=
    check_alignment ndim dst_dtype dst_data dst_strides src_dtype src_data in
  match PyArray_PrepareTwoRawArrayIter ndim shape dst_data dst_strides
                                       wheremask_data wheremask_strides with
  | inl e => (-1, PyErr_Set e (emit (EvPrepareTwoRawArrayIter false) w))
  | inr it =>
    let w := emit (EvPrepareTwoRawArrayIter true) w in
    let dst_stride0 := nth 0 (it2_stridesA it) 0 in
    let wheremask_stride0 := nth 0 (it2_stridesB it) 0 in
    match PyArray_GetMaskedDTypeTransferFunction
            aligned 0 dst_stride0 wheremask_stride0
            src_dtype dst_dtype wheremask_dtype false with
    | inl e =>
      (-1, PyErr_Set e (emit (EvGetMaskedDTypeTransferFunction
                                aligned 0 dst_stride0 wheremask_stride0
                                src_dtype dst_dtype wheremask_dtype
                                false false) w))
    | inr t =>
      let w := emit (EvGetMaskedDTypeTransferFunction
                       aligned 0 dst_stride0 wheremask_stride0
                       src_dtype dst_dtype wheremask_dtype
                       false true) w in
      let '(_save, w) :=
        if negb (needs_api t)
        then NPY_BEGIN_THREADS_THRESHOLDED
               (multiply_list (it2_ndim it) (it2_shape it)) w
        else (false, w) in
      let w := raw_iter_two t it src_data src_itemsize w in
      let w := NPY_END_THREADS _save w in
      let w := NPY_AUXDATA_FREE w in
      (if needs_api t && PyErr_Occurred w then -1 else 0, w)
    end
  end.

(** The message built by the [PyUString_ConcatAndDel] chain. *)
Definition cast_errmsg (src_dtype dst_dtype : PyArray_Descr)
                       (casting : NPY_CASTING) : string :=
  ("Cannot cast scalar from " ++ PyObject_Repr src_dtype ++ " to " ++
   PyObject_Repr dst_dtype ++ " according to the rule " ++
   npy_casting_to_string casting)%string.

Definition PyArray_free (p : Z) (w : World) : World := emit (EvFree p) w.

(** The two exits of [PyArray_AssignRawScalar]: both free [src_data] when
    [allocated_src_data] is set. *)
Definition exit_ok (allocated_src_data : bool) (src_data : Z) (w : World)
  : Z * World :=
  (0, if allocated_src_data then PyArray_free src_data w else w).

Definition exit_fail (allocated_src_data : bool) (src_data : Z) (w : World)
  : Z * World :=
  (-1, if allocated_src_data then PyArray_free src_data w else w).

(** From [if (wheremask == NULL)] to the end of the function, with the
    values the locals [allocated_src_data], [src_dtype], [src_data] have
    at that point. *)
Definition assign_iterate (dst : PyArrayObject)
           (allocated_src_data : bool)
           (src_dtype : PyArray_Descr) (src_data : Z)
           (wheremask : option PyArrayObject) (w : World) : Z * World :=
  match wheremask with
  | None =>
    let '(r, w) :=
      raw_array_assign_scalar (PyArray_NDIM dst) (PyArray_DIMS dst)
        (PyArray_DESCR dst) (PyArray_DATA dst) (PyArray_STRIDES dst)
        src_dtype src_data w in
    if r <? 0 then exit_fail allocated_src_data src_data w
    else exit_ok allocated_src_data src_data w
  | Some wm =>
    match broadcast_strides (PyArray_NDIM dst) (PyArray_DIMS dst)
                            (PyArray_NDIM wm) (PyArray_DIMS wm)
                            (PyArray_STRIDES wm) "where mask" with
    | inl e =>
      exit_fail allocated_src_data src_data
                (PyErr_Set e (emit (EvBroadcastStrides false) w))
    | inr wheremask_strides =>
      let w := emit (EvBroadcastStrides true) w in
      let '(r, w) :=
        raw_array_wheremasked_assign_scalar
          (PyArray_NDIM dst) (PyArray_DIMS dst)
          (PyArray_DESCR dst) (PyArray_DATA dst) (PyArray_STRIDES dst)
          src_dtype src_data
          (PyArray_DESCR wm) (PyArray_DATA wm) wheremask_strides w in
      if r <? 0 then exit_fail allocated_src_data src_data w
      else exit_ok allocated_src_data src_data w
    end
  end.

(** The condition of the [if] that guards the staging block. *)
Definition needs_staging (dst : PyArrayObject) (src_dtype : PyArray_Descr)
                         (src_data : Z) : bool :=
  (negb (PyArray_EquivTypes (PyArray_DESCR dst) src_dtype) ||
   negb (npy_is_aligned src_data (alignment src_dtype))) &&
  (PyArray_SIZE dst >? 1) &&
  negb (PyDataType_REFCHK (PyArray_DESCR dst)).

(** The call [PyArray_CastRawArrays(1, src_data, tmp_src_data, 0, 0,
    src_dtype, PyArray_DESCR(dst), 0)]. *)
Definition cast_scalar_into (tmp_src_data : Z) (dst_dtype : PyArray_Descr)
           (src_dtype : PyArray_Descr) (src_data : Z) (w : World)
  : bool * World :=
  let r := PyArray_CastRawArrays 1
             (load_bytes (mem w) src_data (Z.to_nat (elsize src_dtype)))
             0 0 src_dtype dst_dtype false in
  let ok := match snd r with Some _ => false | None => true end in
  (ok, PyErr_SetOpt (snd r)
         (set_mem (store_bytes (mem w) tmp_src_data (fst r))
            (emit (EvCastRawArrays src_data tmp_src_data
                                   src_dtype dst_dtype ok) w))).

(** The choice of [tmp_src_data] at the head of the staging block: the
    local array when the destination element fits in it, a fresh
    allocation otherwise.  Returns [tmp_src_data] ([None] after
    [PyErr_NoMemory()]) and the value of [allocated_src_data]. *)
Definition staging_buffer (dst_elsize : Z) (w : World)
  : option Z * bool * World :=
  if sizeof_scalarbuffer >=? to_size_t dst_elsize
  then (Some scalarbuffer, false, w)
  else
    match PyArray_malloc (to_size_t dst_elsize) with
    | None =>
      (None, false,
       PyErr_Set PyExc_MemoryError
                 (emit (EvMalloc (to_size_t dst_elsize) None) w))
    | Some p =>
      (Some p, true, emit (EvMalloc (to_size_t dst_elsize) (Some p)) w)
    end.

(** [PyArray_AssignRawScalar]: 0 on success, -1 on failure. *)
Definition PyArray_AssignRawScalar
           (dst : PyArrayObject)
           (src_dtype : PyArray_Descr) (src_data : Z)
           (wheremask : option PyArrayObject)
           (casting : NPY_CASTING) (w : World) : Z * World :=
  let '(writeable_ok, w) :=
    PyArray_FailUnlessWriteable dst "assignment destination" w in
  if negb writeable_ok then (-1, w)
  else
    let scalar := load_bytes (mem w) src_data (Z.to_nat (elsize src_dtype)) in
    let castable :=
      can_cast_scalar_to src_dtype scalar (PyArray_DESCR dst) casting in
    let w := emit (EvCanCastScalarTo src_dtype scalar (PyArray_DESCR dst)
                                     casting castable) w in
    if negb castable
    then (-1, PyErr_Set (PyExc_TypeError
                           (cast_errmsg src_dtype (PyArray_DESCR dst) casting))
                        w)
    else if needs_staging dst src_dtype src_data
    then
      match staging_buffer (elsize (PyArray_DESCR dst)) w with
      | (None, allocated_src_data, w) =>
        exit_fail allocated_src_data src_data w
      | (Some tmp_src_data, allocated_src_data, w) =>
        let '(ok, w) := cast_scalar_into tmp_src_data (PyArray_DESCR dst)
                                         src_dtype src_data w in
        if ok
        then assign_iterate dst allocated_src_data
                            (PyArray_DESCR dst) tmp_src_data wheremask w
        else exit_fail allocated_src_data tmp_src_data w
      end
    else assign_iterate dst false src_dtype src_data wheremask w.

(* =================================================================== *)
(** *** Vocabulary of the statements *)
(* =================================================================== *)

(** Memory and error indicator: what a transfer can change. *)
Definition State : Type := ((Z -> byte) * option PyErr)%type.

Definition state_of (w : World) : State := (mem w, err w).

(** One element transfer, on a [State]. *)
Definition write_elem (t : Transfer) (src src_itemsize : Z)
                      (s : State) (dst : Z) : State :=
  let r := convert t (load_bytes (fst s) src (Z.to_nat src_itemsize)) in
  (store_bytes (fst s) dst (fst r),
   match snd r with Some e => Some e | None => snd s end).

Definition write_all (t : Transfer) (src src_itemsize : Z)
                     (addrs : list Z) (s : State) : State :=
  fold_left (write_elem t src src_itemsize) addrs s.

Definition masked_write_elem (t : Transfer) (src src_itemsize : Z)
                             (s : State) (am : Z * Z) : State :=
  if npy_bool_true (fst s (snd am))
  then write_elem t src src_itemsize s (fst am)
  else s.

Definition masked_write_all (t : Transfer) (src src_itemsize : Z)
                            (addrs : list (Z * Z)) (s : State) : State :=
  fold_left (masked_write_elem t src src_itemsize) addrs s.

(** The addresses of a run of [N] slots, [stride] bytes apart. *)
Fixpoint run_addrs (base stride : Z) (N : nat) : list Z :=
  match N with
  | O => []
  | S n => base :: run_addrs (base + stride) stride n
  end.

Definition outer_coords (ndim : nat) (shape : list Z) : list (list Z) :=
  raw_iter_coords (skipn 1 (firstn ndim shape)).

(** Element addresses visited under a normalised plan, in visiting
    order. *)
Definition iter_one_addrs (it : OneRawArrayIter) : list Z :=
  flat_map
    (fun c => run_addrs (it_data it + dot c (skipn 1 (it_strides it)))
                        (nth 0 (it_strides it) 0)
                        (Z.to_nat (nth 0 (it_shape it) 0)))
    (outer_coords (it_ndim it) (it_shape it)).

Definition iter_two_addrs (it : TwoRawArrayIter) : list (Z * Z) :=
  flat_map
    (fun c =>
       combine
         (run_addrs (it2_dataA it + dot c (skipn 1 (it2_stridesA it)))
                    (nth 0 (it2_stridesA it) 0)
                    (Z.to_nat (nth 0 (it2_shape it) 0)))
         (run_addrs (it2_dataB it + dot c (skipn 1 (it2_stridesB it)))
                    (nth 0 (it2_stridesB it) 0)
                    (Z.to_nat (nth 0 (it2_shape it) 0))))
    (outer_coords (it2_ndim it) (it2_shape it)).

(** The positions of an array of the given shape, and the address of
    each in a buffer with the given base and strides. *)
Definition array_positions (ndim : nat) (shape : list Z) : list (list Z) :=
  raw_iter_coords (firstn ndim shape).

Definition array_addrs (ndim : nat) (shape : list Z)
                       (data : Z) (strides : list Z) : list Z :=
  map (fun c => data + dot c strides) (array_positions ndim shape).

Definition array_addr_pairs (ndim : nat) (shape : list Z)
                            (dataA : Z) (stridesA : list Z)
                            (dataB : Z) (stridesB : list Z) : list (Z * Z) :=
  map (fun c => (dataA + dot c stridesA, dataB + dot c stridesB))
      (array_positions ndim shape).

(** Contract of the iteration normalisers (spec, 4.1): the plan walks
    positions of the array it was given, nothing else. *)
Definition one_iter_sound (ndim : nat) (shape : list Z)
                          (data : Z) (strides : list Z)
                          (it : OneRawArrayIter) : Prop :=
  incl (iter_one_addrs it) (array_addrs ndim shape data strides).

Definition two_iter_sound (ndim : nat) (shape : list Z)
                          (dataA : Z) (stridesA : list Z)
                          (dataB : Z) (stridesB : list Z)
                          (it : TwoRawArrayIter) : Prop :=
  incl (iter_two_addrs it)
       (array_addr_pairs ndim shape dataA stridesA dataB stridesB).

(** The value of the mask at every position of the destination shape. *)
Definition mask_everywhere (v : bool) (m : Z -> byte)
                           (ndim : nat) (shape : list Z)
                           (mask_data : Z) (mask_strides : list Z) : Prop :=
  forall a, In a (array_addrs ndim shape mask_data mask_strides) ->
            npy_bool_true (m a) = v.

(** The mask is read-only (spec, 2 and 5): no byte stored by a transfer
    of a [src_itemsize]-byte scalar into a destination element is a byte
    of the mask. *)
Definition mask_read_only (t : Transfer) (src_itemsize : Z)
                          (ndim : nat) (shape : list Z)
                          (dst_data : Z) (dst_strides : list Z)
                          (mask_data : Z) (mask_strides : list Z) : Prop :=
  forall a m bs k,
    In a (array_addrs ndim shape dst_data dst_strides) ->
    In m (array_addrs ndim shape mask_data mask_strides) ->
    List.length bs = Z.to_nat src_itemsize ->
    0 <= k < Z.of_nat (List.length (fst (convert t bs))) ->
    a + k <> m.

(** Pointers released by [PyArray_free], and pointers obtained from
    [PyArray_malloc], in trace order. *)
Definition frees (tr : list Event) : list Z :=
  flat_map (fun e => match e with EvFree p => [p] | _ => [] end) tr.

Definition heap_allocs (tr : list Event) : list Z :=
  flat_map (fun e => match e with EvMalloc _ (Some p) => [p] | _ => [] end) tr.

(** Events of the staging block. *)
Definition staging_event (e : Event) : bool :=
  match e with
  | EvMalloc _ _ | EvCastRawArrays _ _ _ _ _ => true
  | _ => false
  end.

(** Events of the write loop. *)
Definition write_event (e : Event) : bool :=
  match e with
  | EvStransfer _ _ _ _ _ _ | EvMaskedStransfer _ _ _ _ _ _ _ _ => true
  | _ => false
  end.

(** Events by which a collaborator reported failure. *)
Definition failure_event (e : Event) : bool :=
  match e with
  | EvFailUnlessWriteable ok | EvCanCastScalarTo _ _ _ _ ok
  | EvCastRawArrays _ _ _ _ ok | EvBroadcastStrides ok
  | EvPrepareOneRawArrayIter ok | EvPrepareTwoRawArrayIter ok
  | EvGetDTypeTransferFunction _ _ _ _ _ _ ok
  | EvGetMaskedDTypeTransferFunction _ _ _ _ _ _ _ _ ok => negb ok
  | EvMalloc _ None => true
  | _ => false
  end.

(** An event of the iterate step (mask broadcasting, then one of the
    engines) when it works from the scalar [(src_dtype, src_data)]. *)
Definition iterate_event (src_dtype : PyArray_Descr) (src_data : Z)
                         (e : Event) : Prop :=
  match e with
  | EvBroadcastStrides _
  | EvPrepareOneRawArrayIter _ | EvPrepareTwoRawArrayIter _
  | EvBeginThreadsThresholded _ | EvSaveThread | EvRestoreThread
  | EvAuxdataFree => True
  | EvGetDTypeTransferFunction _ _ _ sd _ _ _ => sd = src_dtype
  | EvGetMaskedDTypeTransferFunction _ _ _ _ sd _ _ _ _ => sd = src_dtype
  | EvStransfer _ _ s _ _ _ => s = src_data
  | EvMaskedStransfer _ _ s _ _ _ _ _ => s = src_data
  | _ => False
  end.

(** The [stransfer] call made for the outer coordinate [c]. *)
Definition one_row_event (it : OneRawArrayIter) (src_data src_itemsize : Z)
                         (c : list Z) : Event :=
  EvStransfer (it_data it + dot c (skipn 1 (it_strides it)))
              (nth 0 (it_strides it) 0) src_data 0
              (nth 0 (it_shape it) 0) src_itemsize.

Definition two_row_event (it : TwoRawArrayIter) (src_data src_itemsize : Z)
                         (c : list Z) : Event :=
  EvMaskedStransfer (it2_dataA it + dot c (skipn 1 (it2_stridesA it)))
                    (nth 0 (it2_stridesA it) 0) src_data 0
                    (it2_dataB it + dot c (skipn 1 (it2_stridesB it)))
                    (nth 0 (it2_stridesB it) 0)
                    (nth 0 (it2_shape it) 0) src_itemsize.

(** The thread-state events around the write loop. *)
Definition begin_threads_events (needs_api : bool) (nitems : Z) : list Event :=
  if needs_api then []
  else EvBeginThreadsThresholded nitems ::
       (if nitems >? threads_threshold then [EvSaveThread] else []).

Definition end_threads_events (needs_api : bool) (nitems : Z) : list Event :=
  if negb needs_api && (nitems >? threads_threshold)
  then [EvRestoreThread] else [].

(** A transfer with the same stores and no exception. *)
Definition quiet (t : Transfer) : Transfer :=
  mkTransfer (fun bs => (fst (convert t bs), None)) (needs_api t).

(** A transfer that needs no guarded execution raises nothing. *)
Definition unguarded_is_quiet (t : Transfer) : Prop :=
  needs_api t = false -> forall bs, snd (convert t bs) = None.

(** An exception is raised by one of the element writes of the loop: the
    conversion of the scalar, as it reads when the loop gets to that
    element, raises. *)
Definition raised_in_loop (t : Transfer) (src src_itemsize : Z)
                          (addrs : list Z) (s : State) : Prop :=
  exists l1 a l2,
    addrs = l1 ++ a :: l2 /\
    snd (convert t (load_bytes (fst (write_all t src src_itemsize l1 s)) src
                               (Z.to_nat src_itemsize))) <> None.

Definition raised_in_masked_loop (t : Transfer) (src src_itemsize : Z)
                                 (addrs : list (Z * Z)) (s : State) : Prop :=
  exists l1 am l2,
    addrs = l1 ++ am :: l2 /\
    npy_bool_true (fst (masked_write_all t src src_itemsize l1 s) (snd am)) = true /\
    snd (convert t (load_bytes (fst (masked_write_all t src src_itemsize l1 s))
                               src (Z.to_nat src_itemsize))) <> None.

(** Events of the thread-state macros. *)
Definition thread_event (e : Event) : bool :=
  match e with
  | EvBeginThreadsThresholded _ | EvSaveThread | EvRestoreThread => true
  | _ => false
  end.

(** Calls to a transfer-function selector. *)
Definition selector_event (e : Event) : bool :=
  match e with
  | EvGetDTypeTransferFunction _ _ _ _ _ _ _
  | EvGetMaskedDTypeTransferFunction _ _ _ _ _ _ _ _ _ => true
  | _ => false
  end.

(** The alignment requirement, arithmetically. *)
Definition is_multiple (alignment p : Z) : Prop := p mod alignment = 0.

(** The total element count in the spec's words, "product of all
    normalized shape extents", written independently of the engines' own
    [nitems] loop so that the two can be compared. *)
Fixpoint extent_product (extents : list Z) : Z :=
  match extents with
  | [] => 1
  | n :: rest => n * extent_product rest
  end.

(** The [n] bytes of the slot at [a] do not contain [x]. *)
Definition outside_slot (n : nat) (a x : Z) : Prop :=
  x < a \/ a + Z.of_nat n <= x.

Definition outside_slots (n : nat) (l : list Z) (x : Z) : Prop :=
  forall a, In a l -> outside_slot n a x.

(** The callback stores exactly [n] bytes per element (the destination
    item size) for a source element of [src_itemsize] bytes. *)
Definition fixed_width (t : Transfer) (src_itemsize : Z) (n : nat) : Prop :=
  forall bs, List.length bs = Z.to_nat src_itemsize ->
             List.length (fst (convert t bs)) = n.

(** Two visited slots are the same slot or do not overlap. *)
Definition slots_apart (n : nat) (l : list Z) : Prop :=
  forall a a', In a l -> In a' l ->
               a = a' \/ a + Z.of_nat n <= a' \/ a' + Z.of_nat n <= a.

(** The scalar's bytes lie outside every visited slot. *)
Definition source_apart (src src_itemsize : Z) (n : nat) (l : list Z) : Prop :=
  forall a, In a l ->
            a + Z.of_nat n <= src \/
            src + Z.of_nat (Z.to_nat src_itemsize) <= a.

(** The same two conditions for the (destination, mask) pairs of the
    masked engine, and: no mask byte lies inside a visited slot. *)
Definition pairs_apart (n : nat) (l : list (Z * Z)) : Prop :=
  forall p p', In p l -> In p' l ->
               p = p' \/ fst p + Z.of_nat n <= fst p' \/
               fst p' + Z.of_nat n <= fst p.

Definition mask_apart (n : nat) (l : list (Z * Z)) : Prop :=
  forall p p', In p l -> In p' l -> outside_slot n (fst p) (snd p').

(** Events of the two validation steps. *)
Definition check_event (e : Event) : bool :=
  match e with
  | EvFailUnlessWriteable _ | EvCanCastScalarTo _ _ _ _ _ => true
  | _ => false
  end.

(** Events of the steps before iteration: validation and staging, and the
    release of the staging buffer. *)
Definition setup_event (e : Event) : bool :=
  match e with
  | EvFailUnlessWriteable _ | EvCanCastScalarTo _ _ _ _ _
  | EvMalloc _ _ | EvCastRawArrays _ _ _ _ _ | EvFree _ => true
  | _ => false
  end.

(** Calls that only the unconditional path makes, and calls that only the
    masked path makes. *)
Definition unmasked_only_event (e : Event) : bool :=
  match e with
  | EvPrepareOneRawArrayIter _
  | EvGetDTypeTransferFunction _ _ _ _ _ _ _
  | EvStransfer _ _ _ _ _ _ => true
  | _ => false
  end.

Definition masked_only_event (e : Event) : bool :=
  match e with
  | EvBroadcastStrides _
  | EvPrepareTwoRawArrayIter _
  | EvGetMaskedDTypeTransferFunction _ _ _ _ _ _ _ _ _
  | EvMaskedStransfer _ _ _ _ _ _ _ _ => true
  | _ => false
  end.

(** Calls into a normaliser, a selector or a transfer callback. *)
Definition engine_call_event (e : Event) : bool :=
  match e with
  | EvPrepareOneRawArrayIter _ | EvPrepareTwoRawArrayIter _
  | EvGetDTypeTransferFunction _ _ _ _ _ _ _
  | EvGetMaskedDTypeTransferFunction _ _ _ _ _ _ _ _ _
  | EvStransfer _ _ _ _ _ _ | EvMaskedStransfer _ _ _ _ _ _ _ _ => true
  | _ => false
  end.

(** Number of lock releases and of lock reacquisitions in a trace. *)
Definition save_count (tr : list Event) : nat :=
  List.length
    (filter (fun e => match e with EvSaveThread => true | _ => false end) tr).

Definition restore_count (tr : list Event) : nat :=
  List.length
    (filter (fun e => match e with EvRestoreThread => true | _ => false end) tr).

(** Every transfer function a selector can return keeps to the rule that
    only transfers needing guarded execution raise. *)
Definition selectors_well_behaved : Prop :=
  (forall al ss ds sd dd mv t,
      PyArray_GetDTypeTransferFunction al ss ds sd dd mv = inr t ->
      unguarded_is_quiet t) /\
  (forall al ss ds ms sd dd md mv t,
      PyArray_GetMaskedDTypeTransferFunction al ss ds ms sd dd md mv = inr t ->
      unguarded_is_quiet t).

(** The plan leaves out no position of the array it was given. *)
Definition one_iter_complete (ndim : nat) (shape : list Z)
                             (data : Z) (strides : list Z)
                             (it : OneRawArrayIter) : Prop :=
  incl (array_addrs ndim shape data strides) (iter_one_addrs it).

Definition two_iter_complete (ndim : nat) (shape : list Z)
                             (dataA : Z) (stridesA : list Z)
                             (dataB : Z) (stridesB : list Z)
                             (it : TwoRawArrayIter) : Prop :=
  incl (array_addr_pairs ndim shape dataA stridesA dataB stridesB)
       (iter_two_addrs it).

(** Where the staging block puts the converted scalar, and whether it
    owns the buffer: the local array when the destination element fits,
    the allocation otherwise. *)
Definition staging_target (dst_elsize : Z) (tmp : Z) (allocated : bool) : Prop :=
  ((sizeof_scalarbuffer >=? to_size_t dst_elsize) = true /\
   tmp = scalarbuffer /\ allocated = false)
  \/
  ((sizeof_scalarbuffer >=? to_size_t dst_elsize) = false /\
   PyArray_malloc (to_size_t dst_elsize) = Some tmp /\ allocated = true).

(* =================================================================== *)
(** *** A concrete set of collaborators

    A small, executable stand-in for each collaborator, on which the
    functions above can be run: one-byte and two-byte integer types, an
    object type whose transfers need guarded execution, and a 40-byte
    record type that does not fit the local array. *)
(* =================================================================== *)

Definition demo_int8   : PyArray_Descr := mkDescr 1 1 1 false.
Definition demo_uint8  : PyArray_Descr := mkDescr 2 1 1 false.
Definition demo_int16  : PyArray_Descr := mkDescr 3 2 2 false.
Definition demo_bool   : PyArray_Descr := mkDescr 0 1 1 false.
Definition demo_object : PyArray_Descr := mkDescr 17 8 8 true.
Definition demo_void40 : PyArray_Descr := mkDescr 20 40 1 false.

(** Plans keep the extents and strides they are given, in the order
    given; a 0-dimensional array becomes a run of length 1. *)
Definition demo_prepare_one (ndim : nat) (shape : list Z) (data : Z)
                            (strides : list Z) : PyErr + OneRawArrayIter :=
  match ndim with
  | O => inr (mkOneIter 1 [1] data [0])
  | _ => inr (mkOneIter ndim (firstn ndim shape) data (firstn ndim strides))
  end.

Definition demo_prepare_two (ndim : nat) (shape : list Z)
                            (dataA : Z) (stridesA : list Z)
                            (dataB : Z) (stridesB : list Z)
  : PyErr + TwoRawArrayIter :=
  match ndim with
  | O => inr (mkTwoIter 1 [1] dataA [0] dataB [0])
  | _ => inr (mkTwoIter ndim (firstn ndim shape) dataA (firstn ndim stridesA)
                        dataB (firstn ndim stridesB))
  end.

(** Same-type copy of a one-byte element. *)
Definition demo_copy1 : Transfer :=
  mkTransfer (fun bs => ([hd x00 bs], None)) false.

(** Sign-extension of a one-byte integer to two bytes (little-endian). *)
Definition demo_widen : Transfer :=
  mkTransfer
    (fun bs =>
       ([hd x00 bs;
         if (Byte.to_N (hd x00 bs) <? 128)%N then x00 else xff], None))
    false.

(** A guarded transfer into object slots: stores a marker byte and raises. *)
Definition demo_guarded : Transfer :=
  mkTransfer (fun _ => ([x2a], Some (ExternalError 2))) true.

(** The ordinary guarded transfer between object slots: it copies the
    reference and raises nothing. *)
Definition demo_object_copy : Transfer :=
  mkTransfer (fun bs => (bs, None)) true.

(** A transfer that did not ask for guarded execution and raises all the
    same. *)
Definition demo_unguarded_raising : Transfer :=
  mkTransfer (fun bs => ([hd x00 bs], Some (ExternalError 4))) false.

(** Copy of the first byte into a 40-byte record, the rest zeroed. *)
Definition demo_fill40 : Transfer :=
  mkTransfer (fun bs => (hd x00 bs :: repeat x00 39, None)) false.

(** Same-type copy of a two-byte element. *)
Definition demo_copy2 : Transfer :=
  mkTransfer (fun bs => ([nth 0 bs x00; nth 1 bs x00], None)) false.

(** The selector: guarded transfers into object slots, no conversion out
    of the record type, truncation to one byte otherwise. *)
Definition demo_get_transfer (aligned : bool) (src_stride dst_stride : Z)
           (src_dtype dst_dtype : PyArray_Descr) (move_references : bool)
  : PyErr + Transfer :=
  if item_refcount dst_dtype then inr demo_guarded
  else if type_num dst_dtype =? 20 then inr demo_fill40
  else if type_num src_dtype =? type_num dst_dtype then
    (if elsize dst_dtype =? 1 then inr demo_copy1 else inr demo_copy2)
  else if (type_num src_dtype =? 1) && (type_num dst_dtype =? 3)
       then inr demo_widen
  else if type_num src_dtype =? 20 then inl (ExternalError 1)
  else if elsize dst_dtype =? 1 then inr demo_copy1
  else inl (ExternalError 1).

Definition demo_get_masked_transfer (aligned : bool)
           (src_stride dst_stride mask_stride : Z)
           (src_dtype dst_dtype mask_dtype : PyArray_Descr)
           (move_references : bool) : PyErr + Transfer :=
  demo_get_transfer aligned src_stride dst_stride src_dtype dst_dtype
                    move_references.

Definition demo_threshold : Z := 500.

(** Value-aware: under any rule but [unsafe], a scalar of another type is
    accepted only when it is not negative; [no] casting wants the same
    type. *)
Definition demo_can_cast (src_dtype : PyArray_Descr) (scalar : list byte)
           (dst_dtype : PyArray_Descr) (casting : NPY_CASTING) : bool :=
  match casting with
  | NPY_UNSAFE_CASTING => true
  | NPY_NO_CASTING => type_num src_dtype =? type_num dst_dtype
  | _ => (type_num src_dtype =? type_num dst_dtype) ||
         (Byte.to_N (last scalar x00) <? 128)%N
  end.

Definition demo_equiv_types (a b : PyArray_Descr) : bool :=
  type_num a =? type_num b.

Definition demo_repr (d : PyArray_Descr) : string :=
  if type_num d =? 1 then "dtype('int8')"
  else if type_num d =? 2 then "dtype('uint8')"
  else if type_num d =? 3 then "dtype('int16')"
  else if type_num d =? 0 then "dtype('bool')"
  else if type_num d =? 17 then "dtype('O')"
  else "dtype('V40')".

Definition demo_casting_to_string (c : NPY_CASTING) : string :=
  match c with
  | NPY_NO_CASTING => "'no'"
  | NPY_EQUIV_CASTING => "'equiv'"
  | NPY_SAFE_CASTING => "'safe'"
  | NPY_SAME_KIND_CASTING => "'same_kind'"
  | NPY_UNSAFE_CASTING => "'unsafe'"
  end.

Definition demo_malloc (size : Z) : option Z := Some 4096.
Definition demo_malloc_null (size : Z) : option Z := None.
Definition demo_scalarbuffer : Z := 8192.

Definition demo_cast_raw (count : Z) (bs : list byte) (src_stride dst_stride : Z)
           (src_dtype dst_dtype : PyArray_Descr) (move_references : bool)
  : list byte * option PyErr :=
  match demo_get_transfer true src_stride dst_stride src_dtype dst_dtype
                          move_references with
  | inr t => convert t bs
  | inl e => ([], Some e)
  end.

(** Masks of the destination's dimensionality only; extent 1 broadcasts
    with stride 0. *)
Definition demo_broadcast_strides (ndim : nat) (shape : list Z)
           (strides_ndim : nat) (strides_shape strides : list Z)
           (strides_name : string) : PyErr + list Z :=
  if Nat.eqb ndim strides_ndim &&
     forallb (fun p => (snd p =? 1) || (snd p =? fst p))
             (combine (firstn ndim shape) strides_shape)
  then inr (map (fun p => if fst p =? 1 then 0 else snd p)
                (combine strides_shape strides))
  else inl (ExternalError 3).

(** Memories: the scalar lives at address 100, the mask bytes from 200
    on, destinations at 300; everything else is zero. *)
Definition demo_mem (scalar : byte) (mask : list byte) : Z -> byte :=
  fun a => if a =? 100 then scalar
           else if (200 <=? a) && (a <? 200 + Z.of_nat (List.length mask))
                then nth (Z.to_nat (a - 200)) mask x00
           else x00.

Definition demo_world (scalar : byte) (mask : list byte) : World :=
  mkWorld (demo_mem scalar mask) None [].

(** A memory in which a mask overlaps its destination: a 2 x 2 int8
    destination at 300 .. 303 (rows at 300 and 302), and a mask whose
    first row is at 200, 201 and whose second row is the destination's
    first row, 300, 301.  The scalar at 100 is 0. *)
Definition demo_overlap_mem : Z -> byte :=
  fun a => if (a =? 200) || (a =? 201) || (a =? 300) || (a =? 301) then x01
           else if (a =? 302) || (a =? 303) then x09
           else x00.

Definition demo_overlap_world : World := mkWorld demo_overlap_mem None [].

Definition demo_array (dtype : PyArray_Descr) (n : Z) (data : Z)
                      (writeable : bool) : PyArrayObject :=
  mkArray 1 [n] [elsize dtype] data dtype writeable.

(** Section variables that a statement does not mention play no part in
    its proof. *)
Ltac drop_unused := repeat match goal with f : _ |- _ => clear f end.

(* =================================================================== *)
(** *** The transfer callbacks *)
(* =================================================================== *)

Lemma state_of_emit (e : Event) (w : World) :
  state_of (emit e w) = state_of w.
Proof. reflexivity. Qed.

Lemma transfer_one_state (t : Transfer) (dst src sz : Z) (w : World) :
  state_of (transfer_one t dst src sz w) = write_elem t src sz (state_of w) dst.
Proof.
  unfold transfer_one, write_elem, state_of; simpl.
  destruct (snd (convert t (load_bytes (mem w) src (Z.to_nat sz)))); reflexivity.
Qed.

Lemma transfer_one_trace (t : Transfer) (dst src sz : Z) (w : World) :
  trace (transfer_one t dst src sz w) = trace w.
Proof.
  unfold transfer_one.
  destruct (snd (convert t (load_bytes (mem w) src (Z.to_nat sz)))); reflexivity.
Qed.

Lemma strided_loop_trace (t : Transfer) (N : nat) :
  forall dst ds src ss sz w,
    trace (strided_loop t dst ds src ss N sz w) = trace w.
Proof.
  induction N as [|n IH]; intros; simpl; [reflexivity|].
  rewrite IH. apply transfer_one_trace.
Qed.

Lemma masked_strided_loop_trace (t : Transfer) (N : nat) :
  forall dst ds src ss mask ms sz w,
    trace (masked_strided_loop t dst ds src ss mask ms N sz w) = trace w.
Proof.
  induction N as [|n IH]; intros; simpl; [reflexivity|].
  rewrite IH. destruct (npy_bool_true (mem w mask)); [|reflexivity].
  apply transfer_one_trace.
Qed.

(** With source stride 0 the callback performs one element write per
    slot of the run, in order. *)
Lemma strided_loop_state (t : Transfer) (N : nat) :
  forall dst ds src sz w,
    state_of (strided_loop t dst ds src 0 N sz w) =
    write_all t src sz (run_addrs dst ds N) (state_of w).
Proof.
  induction N as [|n IH]; intros; simpl; [reflexivity|].
  rewrite Z.add_0_r, IH, transfer_one_state. reflexivity.
Qed.

Lemma masked_strided_loop_state (t : Transfer) (N : nat) :
  forall dst ds src mask ms sz w,
    state_of (masked_strided_loop t dst ds src 0 mask ms N sz w) =
    masked_write_all t src sz
      (combine (run_addrs dst ds N) (run_addrs mask ms N)) (state_of w).
Proof.
  induction N as [|n IH]; intros; simpl; [reflexivity|].
  rewrite Z.add_0_r, IH. f_equal.
  unfold masked_write_elem; simpl.
  destruct (npy_bool_true (mem w mask)); [|reflexivity].
  apply transfer_one_state.
Qed.

Lemma stransfer_state (t : Transfer) (dst ds src N sz : Z) (w : World) :
  state_of (stransfer t dst ds src 0 N sz w) =
  write_all t src sz (run_addrs dst ds (Z.to_nat N)) (state_of w).
Proof. unfold stransfer. now rewrite strided_loop_state. Qed.

Lemma stransfer_trace (t : Transfer) (dst ds src ss N sz : Z) (w : World) :
  trace (stransfer t dst ds src ss N sz w) =
  trace w ++ [EvStransfer dst ds src ss N sz].
Proof. unfold stransfer. now rewrite strided_loop_trace. Qed.

Lemma masked_stransfer_state (t : Transfer) (dst ds src mask ms N sz : Z)
                             (w : World) :
  state_of (masked_stransfer t dst ds src 0 mask ms N sz w) =
  masked_write_all t src sz
    (combine (run_addrs dst ds (Z.to_nat N)) (run_addrs mask ms (Z.to_nat N)))
    (state_of w).
Proof. unfold masked_stransfer. now rewrite masked_strided_loop_state. Qed.

Lemma masked_stransfer_trace (t : Transfer) (dst ds src ss mask ms N sz : Z)
                             (w : World) :
  trace (masked_stransfer t dst ds src ss mask ms N sz w) =
  trace w ++ [EvMaskedStransfer dst ds src ss mask ms N sz].
Proof. unfold masked_stransfer. now rewrite masked_strided_loop_trace. Qed.

(* =================================================================== *)
(** *** The raw iteration loops *)
(* =================================================================== *)

Lemma write_all_app (t : Transfer) (src sz : Z) (l1 l2 : list Z) (s : State) :
  write_all t src sz (l1 ++ l2) s =
  write_all t src sz l2 (write_all t src sz l1 s).
Proof. apply fold_left_app. Qed.

Lemma masked_write_all_app (t : Transfer) (src sz : Z)
                           (l1 l2 : list (Z * Z)) (s : State) :
  masked_write_all t src sz (l1 ++ l2) s =
  masked_write_all t src sz l2 (masked_write_all t src sz l1 s).
Proof. apply fold_left_app. Qed.

Lemma raw_iter_one_state (t : Transfer) (it : OneRawArrayIter)
                         (src sz : Z) (w : World) :
  state_of (raw_iter_one t it src sz w) =
  write_all t src sz (iter_one_addrs it) (state_of w).
Proof.
  unfold raw_iter_one, iter_one_addrs, outer_coords.
  generalize (raw_iter_coords (skipn 1 (firstn (it_ndim it) (it_shape it)))).
  intros cs; revert w.
  induction cs as [|c cs IH]; intros w; simpl; [reflexivity|].
  rewrite IH, write_all_app, stransfer_state. reflexivity.
Qed.

Lemma raw_iter_one_trace (t : Transfer) (it : OneRawArrayIter)
                         (src sz : Z) (w : World) :
  trace (raw_iter_one t it src sz w) =
  trace w ++ map (one_row_event it src sz)
                 (outer_coords (it_ndim it) (it_shape it)).
Proof.
  unfold raw_iter_one, outer_coords.
  generalize (raw_iter_coords (skipn 1 (firstn (it_ndim it) (it_shape it)))).
  intros cs; revert w.
  induction cs as [|c cs IH]; intros w; simpl.
  - now rewrite app_nil_r.
  - rewrite IH, stransfer_trace, <- app_assoc. reflexivity.
Qed.

Lemma raw_iter_two_state (t : Transfer) (it : TwoRawArrayIter)
                         (src sz : Z) (w : World) :
  state_of (raw_iter_two t it src sz w) =
  masked_write_all t src sz (iter_two_addrs it) (state_of w).
Proof.
  unfold raw_iter_two, iter_two_addrs, outer_coords.
  generalize (raw_iter_coords (skipn 1 (firstn (it2_ndim it) (it2_shape it)))).
  intros cs; revert w.
  induction cs as [|c cs IH]; intros w; simpl; [reflexivity|].
  rewrite IH, masked_write_all_app, masked_stransfer_state. reflexivity.
Qed.

Lemma raw_iter_two_trace (t : Transfer) (it : TwoRawArrayIter)
                         (src sz : Z) (w : World) :
  trace (raw_iter_two t it src sz w) =
  trace w ++ map (two_row_event it src sz)
                 (outer_coords (it2_ndim it) (it2_shape it)).
Proof.
  unfold raw_iter_two, outer_coords.
  generalize (raw_iter_coords (skipn 1 (firstn (it2_ndim it) (it2_shape it)))).
  intros cs; revert w.
  induction cs as [|c cs IH]; intros w; simpl.
  - now rewrite app_nil_r.
  - rewrite IH, masked_stransfer_trace, <- app_assoc. reflexivity.
Qed.

(* =================================================================== *)
(** *** The two broadcast engines, case by case *)
(* =================================================================== *)

Lemma PyErr_Occurred_state (w w' : World) :
  state_of w = state_of w' -> PyErr_Occurred w = PyErr_Occurred w'.
Proof. unfold state_of, PyErr_Occurred. intros H. now inversion H. Qed.

Section Unmasked.
Variables (ndim : nat) (shape : list Z)
          (dst_dtype : PyArray_Descr) (dst_data : Z) (dst_strides : list Z)
          (src_dtype : PyArray_Descr) (src_data : Z) (w : World).

Let aligned :=
  check_alignment ndim dst_dtype dst_data dst_strides src_dtype src_data.
Let run :=
  raw_array_assign_scalar ndim shape dst_dtype dst_data dst_strides
                          src_dtype src_data w.

Lemma unmasked_prepare_fails (e : PyErr) :
  PyArray_PrepareOneRawArrayIter ndim shape dst_data dst_strides = inl e ->
  run = (-1, PyErr_Set e (emit (EvPrepareOneRawArrayIter false) w)).
Proof.
  intros HP. unfold run, raw_array_assign_scalar. now rewrite HP.
Qed.

Lemma unmasked_ctor_fails (it : OneRawArrayIter) (e : PyErr) :
  PyArray_PrepareOneRawArrayIter ndim shape dst_data dst_strides = inr it ->
  PyArray_GetDTypeTransferFunction
    aligned 0 (nth 0 (it_strides it) 0) src_dtype dst_dtype false = inl e ->
  run = (-1, PyErr_Set e
               (emit (EvGetDTypeTransferFunction
                        aligned 0 (nth 0 (it_strides it) 0)
                        src_dtype dst_dtype false false)
                  (emit (EvPrepareOneRawArrayIter true) w))).
Proof.
  intros HP HG. unfold run, raw_array_assign_scalar.
  rewrite HP. fold aligned. now rewrite HG.
Qed.

Lemma unmasked_loop_runs (it : OneRawArrayIter) (t : Transfer) :
  PyArray_PrepareOneRawArrayIter ndim shape dst_data dst_strides = inr it ->
  PyArray_GetDTypeTransferFunction
    aligned 0 (nth 0 (it_strides it) 0) src_dtype dst_dtype false = inr t ->
  state_of (snd run) =
    write_all t src_data (elsize src_dtype) (iter_one_addrs it) (state_of w)
  /\ trace (snd run) =
     trace w ++
     [EvPrepareOneRawArrayIter true;
      EvGetDTypeTransferFunction aligned 0 (nth 0 (it_strides it) 0)
                                 src_dtype dst_dtype false true] ++
     begin_threads_events (needs_api t)
                          (multiply_list (it_ndim it) (it_shape it)) ++
     map (one_row_event it src_data (elsize src_dtype))
         (outer_coords (it_ndim it) (it_shape it)) ++
     end_threads_events (needs_api t)
                        (multiply_list (it_ndim it) (it_shape it)) ++
     [EvAuxdataFree]
  /\ fst run = if needs_api t && PyErr_Occurred (snd run) then -1 else 0.
Proof.
  intros HP HG. unfold run, raw_array_assign_scalar.
  rewrite HP. fold aligned. rewrite HG.
  unfold begin_threads_events, end_threads_events,
         NPY_BEGIN_THREADS_THRESHOLDED, NPY_END_THREADS, NPY_AUXDATA_FREE.
  destruct (needs_api t); simpl;
    [| destruct (multiply_list (it_ndim it) (it_shape it) >? threads_threshold);
       simpl ];
    rewrite ?state_of_emit, raw_iter_one_state, ?state_of_emit;
    rewrite ?raw_iter_one_trace; simpl;
    repeat rewrite <- app_assoc; simpl; auto.
Qed.
End Unmasked.

Section Masked.
Variables (ndim : nat) (shape : list Z)
          (dst_dtype : PyArray_Descr) (dst_data : Z) (dst_strides : list Z)
          (src_dtype : PyArray_Descr) (src_data : Z)
          (wheremask_dtype : PyArray_Descr) (wheremask_data : Z)
          (wheremask_strides : list Z) (w : World).

Let aligned :=
  check_alignment ndim dst_dtype dst_data dst_strides src_dtype src_data.
Let run :=
  raw_array_wheremasked_assign_scalar
    ndim shape dst_dtype dst_data dst_strides src_dtype src_data
    wheremask_dtype wheremask_data wheremask_strides w.

Lemma masked_prepare_fails (e : PyErr) :
  PyArray_PrepareTwoRawArrayIter ndim shape dst_data dst_strides
                                 wheremask_data wheremask_strides = inl e ->
  run = (-1, PyErr_Set e (emit (EvPrepareTwoRawArrayIter false) w)).
Proof.
  intros HP. unfold run, raw_array_wheremasked_assign_scalar. now rewrite HP.
Qed.

Lemma masked_ctor_fails (it : TwoRawArrayIter) (e : PyErr) :
  PyArray_PrepareTwoRawArrayIter ndim shape dst_data dst_strides
                                 wheremask_data wheremask_strides = inr it ->
  PyArray_GetMaskedDTypeTransferFunction
    aligned 0 (nth 0 (it2_stridesA it) 0) (nth 0 (it2_stridesB it) 0)
    src_dtype dst_dtype wheremask_dtype false = inl e ->
  run = (-1, PyErr_Set e
               (emit (EvGetMaskedDTypeTransferFunction
                        aligned 0 (nth 0 (it2_stridesA it) 0)
                        (nth 0 (it2_stridesB it) 0)
                        src_dtype dst_dtype wheremask_dtype false false)
                  (emit (EvPrepareTwoRawArrayIter true) w))).
Proof.
  intros HP HG. unfold run, raw_array_wheremasked_assign_scalar.
  rewrite HP. fold aligned. now rewrite HG.
Qed.

Lemma masked_loop_runs (it : TwoRawArrayIter) (t : Transfer) :
  PyArray_PrepareTwoRawArrayIter ndim shape dst_data dst_strides
                                 wheremask_data wheremask_strides = inr it ->
  PyArray_GetMaskedDTypeTransferFunction
    aligned 0 (nth 0 (it2_stridesA it) 0) (nth 0 (it2_stridesB it) 0)
    src_dtype dst_dtype wheremask_dtype false = inr t ->
  state_of (snd run) =
    masked_write_all t src_data (elsize src_dtype) (iter_two_addrs it)
                     (state_of w)
  /\ trace (snd run) =
     trace w ++
     [EvPrepareTwoRawArrayIter true;
      EvGetMaskedDTypeTransferFunction
        aligned 0 (nth 0 (it2_stridesA it) 0) (nth 0 (it2_stridesB it) 0)
        src_dtype dst_dtype wheremask_dtype false true] ++
     begin_threads_events (needs_api t)
                          (multiply_list (it2_ndim it) (it2_shape it)) ++
     map (two_row_event it src_data (elsize src_dtype))
         (outer_coords (it2_ndim it) (it2_shape it)) ++
     end_threads_events (needs_api t)
                        (multiply_list (it2_ndim it) (it2_shape it)) ++
     [EvAuxdataFree]
  /\ fst run = if needs_api t && PyErr_Occurred (snd run) then -1 else 0.
Proof.
  intros HP HG. unfold run, raw_array_wheremasked_assign_scalar.
  rewrite HP. fold aligned. rewrite HG.
  unfold begin_threads_events, end_threads_events,
         NPY_BEGIN_THREADS_THRESHOLDED, NPY_END_THREADS, NPY_AUXDATA_FREE.
  destruct (needs_api t); simpl;
    [| destruct (multiply_list (it2_ndim it) (it2_shape it) >? threads_threshold);
       simpl ];
    rewrite ?state_of_emit, raw_iter_two_state, ?state_of_emit;
    rewrite ?raw_iter_two_trace; simpl;
    repeat rewrite <- app_assoc; simpl; auto.
Qed.
End Masked.

(** Whatever the outcome, an engine only emits iterate-step events, and
    they all name the scalar it was given. *)
Lemma Forall_iterate_rows_one (it : OneRawArrayIter) (sd : PyArray_Descr)
                              (src sz : Z) (cs : list (list Z)) :
  Forall (iterate_event sd src) (map (one_row_event it src sz) cs).
Proof. induction cs; simpl; constructor; simpl; auto. Qed.

Lemma Forall_iterate_rows_two (it : TwoRawArrayIter) (sd : PyArray_Descr)
                              (src sz : Z) (cs : list (list Z)) :
  Forall (iterate_event sd src) (map (two_row_event it src sz) cs).
Proof. induction cs; simpl; constructor; simpl; auto. Qed.

Lemma Forall_iterate_begin (sd : PyArray_Descr) (src : Z) (b : bool) (n : Z) :
  Forall (iterate_event sd src) (begin_threads_events b n).
Proof.
  unfold begin_threads_events.
  destruct b; [constructor|].
  destruct (n >? threads_threshold); repeat constructor.
Qed.

Lemma Forall_iterate_end (sd : PyArray_Descr) (src : Z) (b : bool) (n : Z) :
  Forall (iterate_event sd src) (end_threads_events b n).
Proof.
  unfold end_threads_events.
  destruct (negb b && (n >? threads_threshold)); repeat constructor.
Qed.

Lemma unmasked_events (ndim : nat) (shape : list Z)
      (dst_dtype : PyArray_Descr) (dst_data : Z) (dst_strides : list Z)
      (src_dtype : PyArray_Descr) (src_data : Z) (w : World) :
  exists tr,
    trace (snd (raw_array_assign_scalar ndim shape dst_dtype dst_data
                  dst_strides src_dtype src_data w)) = trace w ++ tr
    /\ Forall (iterate_event src_dtype src_data) tr.
Proof.
  destruct (PyArray_PrepareOneRawArrayIter ndim shape dst_data dst_strides)
    as [e|it] eqn:HP.
  - rewrite (unmasked_prepare_fails _ _ dst_dtype _ _ src_dtype src_data w _ HP). simpl.
    eexists; split; [reflexivity|]. repeat constructor.
  - destruct (PyArray_GetDTypeTransferFunction
                (check_alignment ndim dst_dtype dst_data dst_strides
                                 src_dtype src_data)
                0 (nth 0 (it_strides it) 0) src_dtype dst_dtype false)
      as [e|t] eqn:HG.
    + rewrite (unmasked_ctor_fails _ _ _ _ _ _ _ w _ _ HP HG). simpl.
      rewrite <- app_assoc. eexists; split; [reflexivity|].
      repeat constructor.
    + destruct (unmasked_loop_runs _ _ _ _ _ _ _ w _ _ HP HG) as (_ & Ht & _).
      rewrite Ht. eexists; split; [reflexivity|].
      repeat (apply Forall_app; split);
        auto using Forall_iterate_rows_one, Forall_iterate_begin,
                   Forall_iterate_end.
      all: repeat constructor.
Qed.

Lemma masked_events (ndim : nat) (shape : list Z)
      (dst_dtype : PyArray_Descr) (dst_data : Z) (dst_strides : list Z)
      (src_dtype : PyArray_Descr) (src_data : Z)
      (wheremask_dtype : PyArray_Descr) (wheremask_data : Z)
      (wheremask_strides : list Z) (w : World) :
  exists tr,
    trace (snd (raw_array_wheremasked_assign_scalar ndim shape dst_dtype
                  dst_data dst_strides src_dtype src_data wheremask_dtype
                  wheremask_data wheremask_strides w)) = trace w ++ tr
    /\ Forall (iterate_event src_dtype src_data) tr.
Proof.
  destruct (PyArray_PrepareTwoRawArrayIter ndim shape dst_data dst_strides
                                           wheremask_data wheremask_strides)
    as [e|it] eqn:HP.
  - rewrite (masked_prepare_fails _ _ dst_dtype _ _ src_dtype src_data wheremask_dtype _ _ w _ HP). simpl.
    eexists; split; [reflexivity|]. repeat constructor.
  - destruct (PyArray_GetMaskedDTypeTransferFunction
                (check_alignment ndim dst_dtype dst_data dst_strides
                                 src_dtype src_data)
                0 (nth 0 (it2_stridesA it) 0) (nth 0 (it2_stridesB it) 0)
                src_dtype dst_dtype wheremask_dtype false)
      as [e|t] eqn:HG.
    + rewrite (masked_ctor_fails _ _ _ _ _ _ _ _ _ _ w _ _ HP HG). simpl.
      rewrite <- app_assoc. eexists; split; [reflexivity|].
      repeat constructor.
    + destruct (masked_loop_runs _ _ _ _ _ _ _ _ _ _ w _ _ HP HG) as (_ & Ht & _).
      rewrite Ht. eexists; split; [reflexivity|].
      repeat (apply Forall_app; split);
        auto using Forall_iterate_rows_two, Forall_iterate_begin,
                   Forall_iterate_end.
      all: repeat constructor.
Qed.

(* =================================================================== *)
(** *** Properties of the broadcast engines *)
(* =================================================================== *)

(** C6.  In both engines, when the transfer-function constructor reports
    failure the engine returns -1 at once: memory is what it was on entry,
    the constructor's exception is pending, and the trace holds the
    normaliser call and the failed constructor call only (no [stransfer]
    call, no thread-state event). *)
Theorem C6_constructor_failure_aborts_before_any_write :
  forall ndim shape dst_dtype dst_data dst_strides src_dtype src_data
         wheremask_dtype wheremask_data wheremask_strides w e,
    let aligned :=
      check_alignment ndim dst_dtype dst_data dst_strides src_dtype src_data in
    (forall it,
        PyArray_PrepareOneRawArrayIter ndim shape dst_data dst_strides = inr it ->
        PyArray_GetDTypeTransferFunction
          aligned 0 (nth 0 (it_strides it) 0) src_dtype dst_dtype false = inl e ->
        let r := raw_array_assign_scalar ndim shape dst_dtype dst_data
                   dst_strides src_dtype src_data w in
        fst r = -1 /\ mem (snd r) = mem w /\ err (snd r) = Some e /\
        trace (snd r) =
          trace w ++ [EvPrepareOneRawArrayIter true;
                      EvGetDTypeTransferFunction
                        aligned 0 (nth 0 (it_strides it) 0)
                        src_dtype dst_dtype false false])
    /\
    (forall it,
        PyArray_PrepareTwoRawArrayIter ndim shape dst_data dst_strides
                                       wheremask_data wheremask_strides = inr it ->
        PyArray_GetMaskedDTypeTransferFunction
          aligned 0 (nth 0 (it2_stridesA it) 0) (nth 0 (it2_stridesB it) 0)
          src_dtype dst_dtype wheremask_dtype false = inl e ->
        let r := raw_array_wheremasked_assign_scalar ndim shape dst_dtype
                   dst_data dst_strides src_dtype src_data wheremask_dtype
                   wheremask_data wheremask_strides w in
        fst r = -1 /\ mem (snd r) = mem w /\ err (snd r) = Some e /\
        trace (snd r) =
          trace w ++ [EvPrepareTwoRawArrayIter true;
                      EvGetMaskedDTypeTransferFunction
                        aligned 0 (nth 0 (it2_stridesA it) 0)
                        (nth 0 (it2_stridesB it) 0)
                        src_dtype dst_dtype wheremask_dtype false false]).
Proof.
  intros; split; intros it HP HG r; subst r.
  - rewrite (unmasked_ctor_fails _ _ _ _ _ _ _ w _ _ HP HG). simpl.
    rewrite <- app_assoc. auto.
  - rewrite (masked_ctor_fails _ _ _ _ _ _ _ _ _ _ w _ _ HP HG). simpl.
    rewrite <- app_assoc. auto.
Qed.

Lemma check_alignment_true (ndim : nat) (dst_dtype : PyArray_Descr)
      (dst_data : Z) (dst_strides : list Z)
      (src_dtype : PyArray_Descr) (src_data : Z) :
  check_alignment ndim dst_dtype dst_data dst_strides src_dtype src_data = true
  <->
  (is_multiple (alignment dst_dtype) dst_data /\
   Forall (is_multiple (alignment dst_dtype)) (firstn ndim dst_strides)) /\
  is_multiple (alignment src_dtype) src_data.
Proof.
  unfold check_alignment, raw_array_is_aligned, npy_is_aligned, is_multiple.
  destruct (src_data mod alignment src_dtype =? 0) eqn:Hs; simpl.
  - rewrite andb_true_iff, forallb_forall, Forall_forall, Z.eqb_eq.
    apply Z.eqb_eq in Hs.
    split.
    + intros [Hd Hf]. repeat split; auto.
      intros x Hx. apply Z.eqb_eq. auto.
    + intros [[Hd Hf] _]. split; auto.
      intros x Hx. apply Z.eqb_eq. auto.
  - apply Z.eqb_neq in Hs. split; [discriminate|]. intros [_ H]. contradiction.
Qed.

Ltac split_in H := repeat (apply in_app_or in H; destruct H as [H|H]).

(** The only selector call in the trace of a completed loop is the one
    that follows the normaliser call. *)
Lemma selector_event_of_loop (A B : Event) (rows : list Event)
      (b : bool) (n : Z) (ev : Event) :
  selector_event A = false ->
  Forall (fun r => selector_event r = false) rows ->
  selector_event ev = true ->
  In ev ([A; B] ++ begin_threads_events b n ++ rows ++
         end_threads_events b n ++ [EvAuxdataFree]) ->
  ev = B.
Proof.
  intros HA Hrows Hev Hin. simpl in Hin.
  destruct Hin as [<-|[<-|Hin]]; [congruence|reflexivity|].
  exfalso. split_in Hin.
  - unfold begin_threads_events in Hin.
    destruct b; simpl in Hin; [assumption|].
    destruct Hin as [<-|Hin]; [discriminate|].
    destruct (n >? threads_threshold); simpl in Hin;
      [destruct Hin as [<-|[]]; discriminate|assumption].
  - rewrite Forall_forall in Hrows. apply Hrows in Hin. congruence.
  - unfold end_threads_events in Hin.
    destruct (negb b && (n >? threads_threshold)); simpl in Hin;
      [destruct Hin as [<-|[]]; discriminate|assumption].
  - destruct Hin as [<-|[]]. discriminate.
Qed.

Lemma rows_one_not_selector (it : OneRawArrayIter) (src sz : Z)
                            (cs : list (list Z)) :
  Forall (fun r => selector_event r = false) (map (one_row_event it src sz) cs).
Proof. induction cs; simpl; constructor; auto. Qed.

Lemma rows_two_not_selector (it : TwoRawArrayIter) (src sz : Z)
                            (cs : list (list Z)) :
  Forall (fun r => selector_event r = false) (map (two_row_event it src sz) cs).
Proof. induction cs; simpl; constructor; auto. Qed.

(** C8.  In both engines the flag handed to the transfer-function selector
    is [check_alignment] of the arguments, and it is true exactly when the
    destination base pointer and each of its [ndim] strides are multiples
    of the destination type's alignment and the scalar pointer is a
    multiple of the source type's alignment.  Every selector call of a run
    carries that flag, and a selector call is made whenever the normaliser
    succeeds. *)
Theorem C8_alignment_flag_passed_to_selector :
  forall ndim shape dst_dtype dst_data dst_strides src_dtype src_data
         wheremask_dtype wheremask_data wheremask_strides w,
    let aligned :=
      check_alignment ndim dst_dtype dst_data dst_strides src_dtype src_data in
    (aligned = true <->
     (is_multiple (alignment dst_dtype) dst_data /\
      Forall (is_multiple (alignment dst_dtype)) (firstn ndim dst_strides)) /\
     is_multiple (alignment src_dtype) src_data)
    /\
    (exists tr,
        trace (snd (raw_array_assign_scalar ndim shape dst_dtype dst_data
                      dst_strides src_dtype src_data w)) = trace w ++ tr
        /\ (forall a ss ds sd dd mv ok,
               In (EvGetDTypeTransferFunction a ss ds sd dd mv ok) tr ->
               a = aligned)
        /\ (forall it,
               PyArray_PrepareOneRawArrayIter ndim shape dst_data dst_strides
                 = inr it ->
               exists ok,
                 In (EvGetDTypeTransferFunction
                       aligned 0 (nth 0 (it_strides it) 0)
                       src_dtype dst_dtype false ok) tr))
    /\
    (exists tr,
        trace (snd (raw_array_wheremasked_assign_scalar ndim shape dst_dtype
                      dst_data dst_strides src_dtype src_data wheremask_dtype
                      wheremask_data wheremask_strides w)) = trace w ++ tr
        /\ (forall a ss ds ms sd dd md mv ok,
               In (EvGetMaskedDTypeTransferFunction a ss ds ms sd dd md mv ok) tr ->
               a = aligned)
        /\ (forall it,
               PyArray_PrepareTwoRawArrayIter ndim shape dst_data dst_strides
                 wheremask_data wheremask_strides = inr it ->
               exists ok,
                 In (EvGetMaskedDTypeTransferFunction
                       aligned 0 (nth 0 (it2_stridesA it) 0)
                       (nth 0 (it2_stridesB it) 0)
                       src_dtype dst_dtype wheremask_dtype false ok) tr)).
Proof.
  drop_unused.
  intros. split; [apply check_alignment_true|]. split.
  - destruct (PyArray_PrepareOneRawArrayIter ndim shape dst_data dst_strides)
      as [e|it] eqn:HP.
    + rewrite (unmasked_prepare_fails _ _ dst_dtype _ _ src_dtype src_data w _ HP).
      simpl. eexists; split; [reflexivity|]. split.
      * intros ? ? ? ? ? ? ? [H|[]]; discriminate.
      * intros it' H; discriminate.
    + destruct (PyArray_GetDTypeTransferFunction aligned 0
                  (nth 0 (it_strides it) 0) src_dtype dst_dtype false)
        as [e|t] eqn:HG.
      * rewrite (unmasked_ctor_fails _ _ _ _ _ _ _ w _ _ HP HG). simpl.
        rewrite <- app_assoc. eexists; split; [reflexivity|]. split.
        -- intros ? ? ? ? ? ? ? [H|[H|[]]]; unfold aligned; congruence.
        -- intros it' H; inversion H; subst it'. exists false. simpl; auto.
      * destruct (unmasked_loop_runs _ _ _ _ _ _ _ w _ _ HP HG) as (_ & Ht & _).
        rewrite Ht. eexists; split; [reflexivity|]. split.
        -- intros a ss ds sd dd mv ok Hin.
           apply selector_event_of_loop in Hin;
             auto using rows_one_not_selector.
           unfold aligned; congruence.
        -- intros it' H; inversion H; subst it'. exists true. simpl; auto.
  - destruct (PyArray_PrepareTwoRawArrayIter ndim shape dst_data dst_strides
                wheremask_data wheremask_strides) as [e|it] eqn:HP.
    + rewrite (masked_prepare_fails _ _ dst_dtype _ _ src_dtype src_data
                 wheremask_dtype _ _ w _ HP).
      simpl. eexists; split; [reflexivity|]. split.
      * intros ? ? ? ? ? ? ? ? ? [H|[]]; discriminate.
      * intros it' H; discriminate.
    + destruct (PyArray_GetMaskedDTypeTransferFunction aligned 0
                  (nth 0 (it2_stridesA it) 0) (nth 0 (it2_stridesB it) 0)
                  src_dtype dst_dtype wheremask_dtype false)
        as [e|t] eqn:HG.
      * rewrite (masked_ctor_fails _ _ _ _ _ _ _ _ _ _ w _ _ HP HG). simpl.
        rewrite <- app_assoc. eexists; split; [reflexivity|]. split.
        -- intros ? ? ? ? ? ? ? ? ? [H|[H|[]]]; unfold aligned; congruence.
        -- intros it' H; inversion H; subst it'. exists false. simpl; auto.
      * destruct (masked_loop_runs _ _ _ _ _ _ _ _ _ _ w _ _ HP HG)
          as (_ & Ht & _).
        rewrite Ht. eexists; split; [reflexivity|]. split.
        -- intros a ss ds ms sd dd md mv ok Hin.
           apply selector_event_of_loop in Hin;
             auto using rows_two_not_selector.
           unfold aligned; congruence.
        -- intros it' H; inversion H; subst it'. exists true. simpl; auto.
Qed.


Lemma in_begin_threads_events (ev : Event) (b : bool) (n : Z) :
  In ev (begin_threads_events b n) ->
  b = false /\
  (ev = EvBeginThreadsThresholded n \/
   ev = EvSaveThread /\ n > threads_threshold).
Proof.
  drop_unused.
  unfold begin_threads_events. destruct b; simpl; [tauto|].
  intros [H|H]; [auto|].
  destruct (n >? threads_threshold) eqn:Hn; simpl in H; [|tauto].
  destruct H as [H|[]]. split; auto. right. split; auto.
  apply Z.gtb_lt in Hn. lia.
Qed.

Lemma in_end_threads_events (ev : Event) (b : bool) (n : Z) :
  In ev (end_threads_events b n) ->
  ev = EvRestoreThread /\ b = false /\ n > threads_threshold.
Proof.
  drop_unused.
  unfold end_threads_events.
  destruct b; simpl; [tauto|].
  destruct (n >? threads_threshold) eqn:Hn; simpl; [|tauto].
  intros [H|[]]. repeat split; auto. apply Z.gtb_lt in Hn. lia.
Qed.

(** Thread-state events inside the trace of a completed loop. *)
Lemma thread_events_of_loop (A B : Event) (rows : list Event)
      (b : bool) (n : Z) (ev : Event) :
  thread_event A = false -> thread_event B = false ->
  Forall (fun r => thread_event r = false) rows ->
  In ev ([A; B] ++ begin_threads_events b n ++ rows ++
         end_threads_events b n ++ [EvAuxdataFree]) ->
  thread_event ev = true ->
  b = false /\
  (forall m, ev = EvBeginThreadsThresholded m -> m = n) /\
  (ev = EvSaveThread \/ ev = EvRestoreThread -> n > threads_threshold).
Proof.
  intros HA HB Hrows Hin Hev. simpl in Hin.
  destruct Hin as [<-|[<-|Hin]]; [congruence ..|].
  split_in Hin.
  - apply in_begin_threads_events in Hin.
    destruct Hin as [-> [->|[-> Hn]]]; repeat split; auto.
    + intros m H; congruence.
    + intros [H|H]; discriminate.
    + intros m H; discriminate.
  - rewrite Forall_forall in Hrows. apply Hrows in Hin. congruence.
  - apply in_end_threads_events in Hin.
    destruct Hin as (-> & -> & Hn). repeat split; auto.
    intros m H; discriminate.
  - destruct Hin as [<-|[]]. discriminate.
Qed.

Lemma rows_one_not_thread (it : OneRawArrayIter) (src sz : Z) (cs : list (list Z)) :
  Forall (fun r => thread_event r = false) (map (one_row_event it src sz) cs).
Proof. induction cs; simpl; constructor; auto. Qed.

Lemma rows_two_not_thread (it : TwoRawArrayIter) (src sz : Z) (cs : list (list Z)) :
  Forall (fun r => thread_event r = false) (map (two_row_event it src sz) cs).
Proof. induction cs; simpl; constructor; auto. Qed.

(* =================================================================== *)
(** *** The element count of a plan *)
(* =================================================================== *)

Lemma fold_left_mul_scale (l : list Z) :
  forall a, fold_left Z.mul l a = a * fold_left Z.mul l 1.
Proof.
  drop_unused.
  induction l as [|x l IH]; intros a; cbn [fold_left]; [lia|].
  rewrite (IH (a * x)), (IH (1 * x)). ring.
Qed.

Lemma length_flat_map_const {A B : Type} (f : A -> list B) (k : nat)
                            (l : list A) :
  (forall c, List.length (f c) = k) ->
  List.length (flat_map f l) = (List.length l * k)%nat.
Proof.
  drop_unused.
  intros H. induction l as [|c l IH]; simpl; [reflexivity|].
  now rewrite length_app, H, IH.
Qed.

Lemma length_Zrange (n : Z) : List.length (Zrange n) = Z.to_nat n.
Proof. unfold Zrange. now rewrite length_map, length_seq. Qed.

Lemma length_raw_iter_coords (shape : list Z) :
  Forall (fun e => 0 <= e) shape ->
  Z.of_nat (List.length (raw_iter_coords shape)) = fold_left Z.mul shape 1.
Proof.
  drop_unused.
  induction 1 as [|n rest Hn _ IH]; [reflexivity|].
  simpl raw_iter_coords.
  rewrite (length_flat_map_const _ (Z.to_nat n)).
  - cbn [fold_left]. rewrite fold_left_mul_scale, <- IH.
    rewrite Nat2Z.inj_mul, Z2Nat.id by assumption. ring.
  - intros c. now rewrite length_map, length_Zrange.
Qed.

Lemma length_run_addrs (N : nat) :
  forall base stride, List.length (run_addrs base stride N) = N.
Proof. induction N as [|N IH]; intros; simpl; [reflexivity|]. now rewrite IH. Qed.

(** A plan of at least one dimension with non-negative extents. *)
Lemma plan_count (ndim : nat) (shape : list Z) :
  (1 <= ndim)%nat -> shape <> [] ->
  Forall (fun e => 0 <= e) (firstn ndim shape) ->
  Z.of_nat (List.length (outer_coords ndim shape) *
            Z.to_nat (nth 0 shape 0%Z))%nat =
  multiply_list ndim shape.
Proof.
  drop_unused.
  intros Hd Hs Hnn. unfold outer_coords, multiply_list.
  destruct ndim as [|k]; [lia|]. destruct shape as [|s0 tl]; [congruence|].
  simpl firstn in *. simpl skipn. simpl nth.
  inversion Hnn as [|? ? H0 Htl]; subst.
  rewrite Nat2Z.inj_mul, (length_raw_iter_coords _ Htl).
  cbn [fold_left]. rewrite (fold_left_mul_scale _ (1 * s0)).
  rewrite Z2Nat.id by assumption. ring.
Qed.

Lemma length_iter_one_addrs (it : OneRawArrayIter) :
  (1 <= it_ndim it)%nat -> it_shape it <> [] ->
  Forall (fun e => 0 <= e) (firstn (it_ndim it) (it_shape it)) ->
  Z.of_nat (List.length (iter_one_addrs it)) =
  multiply_list (it_ndim it) (it_shape it).
Proof.
  intros Hd Hs Hnn. unfold iter_one_addrs.
  rewrite (length_flat_map_const _ (Z.to_nat (nth 0 (it_shape it) 0))).
  - now apply plan_count.
  - intros c. apply length_run_addrs.
Qed.

Lemma length_iter_two_addrs (it : TwoRawArrayIter) :
  (1 <= it2_ndim it)%nat -> it2_shape it <> [] ->
  Forall (fun e => 0 <= e) (firstn (it2_ndim it) (it2_shape it)) ->
  Z.of_nat (List.length (iter_two_addrs it)) =
  multiply_list (it2_ndim it) (it2_shape it).
Proof.
  intros Hd Hs Hnn. unfold iter_two_addrs.
  rewrite (length_flat_map_const _ (Z.to_nat (nth 0 (it2_shape it) 0))).
  - now apply plan_count.
  - intros c. rewrite length_combine, !length_run_addrs. apply Nat.min_id.
Qed.

Lemma save_in_loop_trace (A B : Event) (rows : list Event) (n : Z) :
  thread_event A = false -> thread_event B = false ->
  Forall (fun r => thread_event r = false) rows ->
  let tr := [A; B] ++ begin_threads_events false n ++ rows ++
            end_threads_events false n ++ [EvAuxdataFree] in
  In (EvBeginThreadsThresholded n) tr /\
  (In EvSaveThread tr <-> n > threads_threshold).
Proof.
  intros HA HB Hrows tr.
  split; [|split].
  - subst tr. simpl. right. right. now left.
  - intros Hin.
    destruct (thread_events_of_loop A B rows false n EvSaveThread
                HA HB Hrows Hin eq_refl) as (_ & _ & H).
    apply H. now left.
  - intros Hn. subst tr. unfold begin_threads_events.
    assert (E : (n >? threads_threshold) = true) by (apply Z.gtb_lt; lia).
    rewrite E. simpl. right. right. right. now left.
Qed.

Lemma extent_product_fold (l : list Z) :
  fold_left Z.mul l 1 = extent_product l.
Proof.
  drop_unused.
  induction l as [|x l IH]; [reflexivity|].
  cbn [fold_left extent_product].
  rewrite fold_left_mul_scale, IH. ring.
Qed.

(** The engines' [nitems] loop computes the product of the normalised
    extents. *)
Lemma multiply_list_product (ndim : nat) (shape : list Z) :
  multiply_list ndim shape = extent_product (firstn ndim shape).
Proof. apply extent_product_fold. Qed.

(** C9.  In both engines, the thread-state events of a run are the
    following.  When the normaliser or the constructor fails there are
    none.  Otherwise the trace of the run is: normaliser call, successful
    constructor call, then, only if [needs_api] is false, the thresholded
    macro with the product of all the normalised extents and, only if
    that product exceeds the threshold, the release; then the [stransfer]
    calls of the loop; then the reacquisition, present exactly when the
    release was; then the release of the auxiliary data.  So the lock is
    released exactly when [needs_api] is false and the product exceeds
    the threshold, after the constructor call and before the first
    [stransfer] call.  The product is [extent_product] of the plan's
    extents, and for a plan of at least one dimension with non-negative
    extents it is the number of elements the loop writes. *)
Theorem C9_lock_released_only_around_large_unguarded_loops :
  forall ndim shape dst_dtype dst_data dst_strides src_dtype src_data
         wheremask_dtype wheremask_data wheremask_strides w,
    let aligned :=
      check_alignment ndim dst_dtype dst_data dst_strides src_dtype src_data in
    (exists tr,
        trace (snd (raw_array_assign_scalar ndim shape dst_dtype dst_data
                      dst_strides src_dtype src_data w)) = trace w ++ tr
        /\ (forall it t,
               PyArray_PrepareOneRawArrayIter ndim shape dst_data dst_strides
                 = inr it ->
               PyArray_GetDTypeTransferFunction
                 aligned 0 (nth 0 (it_strides it) 0) src_dtype dst_dtype false
                 = inr t ->
               let count := extent_product (firstn (it_ndim it) (it_shape it)) in
               tr =
               [EvPrepareOneRawArrayIter true;
                EvGetDTypeTransferFunction aligned 0 (nth 0 (it_strides it) 0)
                                           src_dtype dst_dtype false true] ++
               begin_threads_events (needs_api t) count ++
               map (one_row_event it src_data (elsize src_dtype))
                   (outer_coords (it_ndim it) (it_shape it)) ++
               end_threads_events (needs_api t) count ++
               [EvAuxdataFree]
               /\ (In EvSaveThread tr <->
                   needs_api t = false /\ count > threads_threshold)
               /\ ((1 <= it_ndim it)%nat -> it_shape it <> [] ->
                   Forall (fun e => 0 <= e)
                          (firstn (it_ndim it) (it_shape it)) ->
                   count = Z.of_nat (List.length (iter_one_addrs it))))
        /\ (forall ev,
               In ev tr -> thread_event ev = true ->
               exists it t,
                 PyArray_PrepareOneRawArrayIter ndim shape dst_data dst_strides
                   = inr it /\
                 PyArray_GetDTypeTransferFunction
                   aligned 0 (nth 0 (it_strides it) 0) src_dtype dst_dtype false
                   = inr t /\
                 needs_api t = false /\
                 (forall n, ev = EvBeginThreadsThresholded n ->
                            n = extent_product
                                  (firstn (it_ndim it) (it_shape it))) /\
                 (ev = EvSaveThread \/ ev = EvRestoreThread ->
                  extent_product (firstn (it_ndim it) (it_shape it))
                  > threads_threshold)))
    /\
    (exists tr,
        trace (snd (raw_array_wheremasked_assign_scalar ndim shape dst_dtype
                      dst_data dst_strides src_dtype src_data wheremask_dtype
                      wheremask_data wheremask_strides w)) = trace w ++ tr
        /\ (forall it t,
               PyArray_PrepareTwoRawArrayIter ndim shape dst_data dst_strides
                 wheremask_data wheremask_strides = inr it ->
               PyArray_GetMaskedDTypeTransferFunction
                 aligned 0 (nth 0 (it2_stridesA it) 0) (nth 0 (it2_stridesB it) 0)
                 src_dtype dst_dtype wheremask_dtype false = inr t ->
               let count :=
                 extent_product (firstn (it2_ndim it) (it2_shape it)) in
               tr =
               [EvPrepareTwoRawArrayIter true;
                EvGetMaskedDTypeTransferFunction
                  aligned 0 (nth 0 (it2_stridesA it) 0)
                  (nth 0 (it2_stridesB it) 0)
                  src_dtype dst_dtype wheremask_dtype false true] ++
               begin_threads_events (needs_api t) count ++
               map (two_row_event it src_data (elsize src_dtype))
                   (outer_coords (it2_ndim it) (it2_shape it)) ++
               end_threads_events (needs_api t) count ++
               [EvAuxdataFree]
               /\ (In EvSaveThread tr <->
                   needs_api t = false /\ count > threads_threshold)
               /\ ((1 <= it2_ndim it)%nat -> it2_shape it <> [] ->
                   Forall (fun e => 0 <= e)
                          (firstn (it2_ndim it) (it2_shape it)) ->
                   count = Z.of_nat (List.length (iter_two_addrs it))))
        /\ (forall ev,
               In ev tr -> thread_event ev = true ->
               exists it t,
                 PyArray_PrepareTwoRawArrayIter ndim shape dst_data dst_strides
                   wheremask_data wheremask_strides = inr it /\
                 PyArray_GetMaskedDTypeTransferFunction
                   aligned 0 (nth 0 (it2_stridesA it) 0)
                   (nth 0 (it2_stridesB it) 0)
                   src_dtype dst_dtype wheremask_dtype false = inr t /\
                 needs_api t = false /\
                 (forall n, ev = EvBeginThreadsThresholded n ->
                            n = extent_product
                                  (firstn (it2_ndim it) (it2_shape it))) /\
                 (ev = EvSaveThread \/ ev = EvRestoreThread ->
                  extent_product (firstn (it2_ndim it) (it2_shape it))
                  > threads_threshold))).
Proof.
  intros. split.
  - destruct (PyArray_PrepareOneRawArrayIter ndim shape dst_data dst_strides)
      as [e|it] eqn:HP.
    + rewrite (unmasked_prepare_fails _ _ dst_dtype _ _ src_dtype src_data w _ HP).
      simpl. eexists; split; [reflexivity|]. split.
      * intros it t H; discriminate.
      * intros ev [<-|[]] H; discriminate.
    + destruct (PyArray_GetDTypeTransferFunction aligned 0
                  (nth 0 (it_strides it) 0) src_dtype dst_dtype false)
        as [e|t] eqn:HG.
      * rewrite (unmasked_ctor_fails _ _ _ _ _ _ _ w _ _ HP HG). simpl.
        rewrite <- app_assoc. eexists; split; [reflexivity|]. split.
        -- intros it' t H; inversion H; subst it'. rewrite HG. discriminate.
        -- intros ev [<-|[<-|[]]] H; discriminate.
      * destruct (unmasked_loop_runs _ _ _ _ _ _ _ w _ _ HP HG) as (_ & Ht & _).
        rewrite multiply_list_product in Ht.
        rewrite Ht. eexists; split; [reflexivity|]. split.
        -- intros it' t' H; inversion H; subst it'. rewrite HG.
           intros H'; inversion H'; subst t'. intros count.
           split; [reflexivity|]. split; [split|].
           ++ intros Hin.
              destruct (thread_events_of_loop
                          (EvPrepareOneRawArrayIter true)
                          (EvGetDTypeTransferFunction
                             aligned 0 (nth 0 (it_strides it) 0)
                             src_dtype dst_dtype false true)
                          _ _ _ EvSaveThread
                          eq_refl eq_refl
                          (rows_one_not_thread it src_data (elsize src_dtype) _)
                          Hin eq_refl) as (Hb & _ & Hn).
              split; [exact Hb|]. apply Hn. now left.
           ++ intros [Hb Hn]. rewrite Hb.
              apply save_in_loop_trace; auto using rows_one_not_thread.
           ++ intros Hd Hs Hnn. unfold count.
              rewrite <- multiply_list_product.
              symmetry. now apply length_iter_one_addrs.
        -- intros ev Hin Hev. exists it, t.
           split; [reflexivity|]. split; [assumption|].
           eapply thread_events_of_loop; eauto using rows_one_not_thread;
             reflexivity.
  - destruct (PyArray_PrepareTwoRawArrayIter ndim shape dst_data dst_strides
                wheremask_data wheremask_strides) as [e|it] eqn:HP.
    + rewrite (masked_prepare_fails _ _ dst_dtype _ _ src_dtype src_data
                 wheremask_dtype _ _ w _ HP).
      simpl. eexists; split; [reflexivity|]. split.
      * intros it t H; discriminate.
      * intros ev [<-|[]] H; discriminate.
    + destruct (PyArray_GetMaskedDTypeTransferFunction aligned 0
                  (nth 0 (it2_stridesA it) 0) (nth 0 (it2_stridesB it) 0)
                  src_dtype dst_dtype wheremask_dtype false)
        as [e|t] eqn:HG.
      * rewrite (masked_ctor_fails _ _ _ _ _ _ _ _ _ _ w _ _ HP HG). simpl.
        rewrite <- app_assoc. eexists; split; [reflexivity|]. split.
        -- intros it' t H; inversion H; subst it'. rewrite HG. discriminate.
        -- intros ev [<-|[<-|[]]] H; discriminate.
      * destruct (masked_loop_runs _ _ _ _ _ _ _ _ _ _ w _ _ HP HG)
          as (_ & Ht & _).
        rewrite multiply_list_product in Ht.
        rewrite Ht. eexists; split; [reflexivity|]. split.
        -- intros it' t' H; inversion H; subst it'. rewrite HG.
           intros H'; inversion H'; subst t'. intros count.
           split; [reflexivity|]. split; [split|].
           ++ intros Hin.
              destruct (thread_events_of_loop
                          (EvPrepareTwoRawArrayIter true)
                          (EvGetMaskedDTypeTransferFunction
                             aligned 0 (nth 0 (it2_stridesA it) 0)
                             (nth 0 (it2_stridesB it) 0)
                             src_dtype dst_dtype wheremask_dtype false true)
                          _ _ _ EvSaveThread
                          eq_refl eq_refl
                          (rows_two_not_thread it src_data (elsize src_dtype) _)
                          Hin eq_refl) as (Hb & _ & Hn).
              split; [exact Hb|]. apply Hn. now left.
           ++ intros [Hb Hn]. rewrite Hb.
              apply save_in_loop_trace; auto using rows_two_not_thread.
           ++ intros Hd Hs Hnn. unfold count.
              rewrite <- multiply_list_product.
              symmetry. now apply length_iter_two_addrs.
        -- intros ev Hin Hev. exists it, t.
           split; [reflexivity|]. split; [assumption|].
           eapply thread_events_of_loop; eauto using rows_two_not_thread;
             reflexivity.
Qed.

(* =================================================================== *)
(** *** Exceptions during the write loop *)
(* =================================================================== *)

Lemma write_elem_sticky (t : Transfer) (src sz : Z) (s : State) (a : Z) :
  snd s <> None -> snd (write_elem t src sz s a) <> None.
Proof.
  unfold write_elem; simpl.
  destruct (snd (convert t _)); [discriminate|auto].
Qed.

Lemma write_all_sticky (t : Transfer) (src sz : Z) (l : list Z) :
  forall s, snd s <> None -> snd (write_all t src sz l s) <> None.
Proof.
  induction l as [|a l IH]; intros s Hs; simpl; [assumption|].
  apply IH. now apply write_elem_sticky.
Qed.

Lemma masked_write_elem_sticky (t : Transfer) (src sz : Z) (s : State)
                               (am : Z * Z) :
  snd s <> None -> snd (masked_write_elem t src sz s am) <> None.
Proof.
  unfold masked_write_elem. destruct (npy_bool_true _); [|auto].
  apply write_elem_sticky.
Qed.

Lemma masked_write_all_sticky (t : Transfer) (src sz : Z) (l : list (Z * Z)) :
  forall s, snd s <> None -> snd (masked_write_all t src sz l s) <> None.
Proof.
  induction l as [|a l IH]; intros s Hs; simpl; [assumption|].
  apply IH. now apply masked_write_elem_sticky.
Qed.

Lemma raised_in_loop_pending (t : Transfer) (src sz : Z) (l : list Z) (s : State) :
  raised_in_loop t src sz l s -> snd (write_all t src sz l s) <> None.
Proof.
  intros (l1 & a & l2 & -> & Hr).
  rewrite write_all_app. simpl. apply write_all_sticky.
  unfold write_elem; simpl.
  destruct (snd (convert t _)); [discriminate|contradiction].
Qed.

Lemma raised_in_masked_loop_pending (t : Transfer) (src sz : Z)
                                    (l : list (Z * Z)) (s : State) :
  raised_in_masked_loop t src sz l s ->
  snd (masked_write_all t src sz l s) <> None.
Proof.
  intros (l1 & a & l2 & -> & Hm & Hr).
  rewrite masked_write_all_app. simpl. apply masked_write_all_sticky.
  unfold masked_write_elem at 1. rewrite Hm.
  unfold write_elem; simpl.
  destruct (snd (convert t _)); [discriminate|contradiction].
Qed.

Lemma pending_raised_in_loop (t : Transfer) (src sz : Z) (l : list Z) :
  forall s, snd s = None ->
            snd (write_all t src sz l s) <> None ->
            raised_in_loop t src sz l s.
Proof.
  induction l as [|a l IH]; intros s Hs Hp; simpl in Hp; [contradiction|].
  destruct (snd (convert t (load_bytes (fst s) src (Z.to_nat sz)))) eqn:Hc.
  - exists [], a, l. simpl. split; [reflexivity|]. rewrite Hc. discriminate.
  - destruct (IH (write_elem t src sz s a)) as (l1 & b & l2 & -> & Hr).
    + unfold write_elem; simpl. now rewrite Hc.
    + assumption.
    + exists (a :: l1), b, l2. split; [reflexivity|]. exact Hr.
Qed.

Lemma pending_raised_in_masked_loop (t : Transfer) (src sz : Z)
                                    (l : list (Z * Z)) :
  forall s, snd s = None ->
            snd (masked_write_all t src sz l s) <> None ->
            raised_in_masked_loop t src sz l s.
Proof.
  induction l as [|a l IH]; intros s Hs Hp; simpl in Hp; [contradiction|].
  destruct (npy_bool_true (fst s (snd a))) eqn:Hm;
    [destruct (snd (convert t (load_bytes (fst s) src (Z.to_nat sz)))) eqn:Hc|].
  - exists [], a, l. simpl. split; [reflexivity|]. split; [assumption|].
    rewrite Hc. discriminate.
  - destruct (IH (masked_write_elem t src sz s a)) as (l1 & b & l2 & -> & Hr).
    + unfold masked_write_elem, write_elem; rewrite Hm; simpl. now rewrite Hc.
    + assumption.
    + exists (a :: l1), b, l2. split; [reflexivity|]. exact Hr.
  - destruct (IH (masked_write_elem t src sz s a)) as (l1 & b & l2 & -> & Hr).
    + unfold masked_write_elem; now rewrite Hm.
    + assumption.
    + exists (a :: l1), b, l2. split; [reflexivity|]. exact Hr.
Qed.

(** What is stored does not depend on what is raised. *)
Lemma write_all_quiet (t : Transfer) (src sz : Z) (l : list Z) :
  forall s s', fst s = fst s' ->
               fst (write_all t src sz l s) =
               fst (write_all (quiet t) src sz l s').
Proof.
  induction l as [|a l IH]; intros s s' E; simpl; [assumption|].
  apply IH. unfold write_elem; simpl. now rewrite E.
Qed.

Lemma masked_write_all_quiet (t : Transfer) (src sz : Z) (l : list (Z * Z)) :
  forall s s', fst s = fst s' ->
               fst (masked_write_all t src sz l s) =
               fst (masked_write_all (quiet t) src sz l s').
Proof.
  induction l as [|a l IH]; intros s s' E; simpl; [assumption|].
  apply IH. unfold masked_write_elem, write_elem; simpl. rewrite E.
  destruct (npy_bool_true _); simpl; auto.
Qed.

(** A transfer that raises nothing leaves the indicator alone. *)
Lemma write_all_no_raise (t : Transfer) (src sz : Z) (l : list Z) :
  (forall bs, snd (convert t bs) = None) ->
  forall s, snd (write_all t src sz l s) = snd s.
Proof.
  intros Hq. induction l as [|a l IH]; intros s; simpl; [reflexivity|].
  rewrite IH. unfold write_elem; simpl. now rewrite Hq.
Qed.

Lemma masked_write_all_no_raise (t : Transfer) (src sz : Z) (l : list (Z * Z)) :
  (forall bs, snd (convert t bs) = None) ->
  forall s, snd (masked_write_all t src sz l s) = snd s.
Proof.
  intros Hq. induction l as [|a l IH]; intros s; simpl; [reflexivity|].
  rewrite IH. unfold masked_write_elem, write_elem.
  destruct (npy_bool_true _); simpl; [now rewrite Hq|reflexivity].
Qed.

Lemma filter_write_event_loop (A B : Event) (rows : list Event)
      (b : bool) (n : Z) :
  write_event A = false -> write_event B = false ->
  Forall (fun r => write_event r = true) rows ->
  filter write_event ([A; B] ++ begin_threads_events b n ++ rows ++
                      end_threads_events b n ++ [EvAuxdataFree]) = rows.
Proof.
  intros HA HB Hrows. simpl. rewrite HA, HB.
  rewrite !filter_app.
  assert (Eb : filter write_event (begin_threads_events b n) = []).
  { unfold begin_threads_events. destruct b; simpl; auto.
    destruct (n >? threads_threshold); reflexivity. }
  assert (Ee : filter write_event (end_threads_events b n) = []).
  { unfold end_threads_events. destruct (negb b && _); reflexivity. }
  rewrite Eb, Ee. simpl. rewrite app_nil_r.
  induction Hrows as [|r rows Hr _ IH]; simpl; [reflexivity|].
  now rewrite Hr, IH.
Qed.

Lemma rows_one_write (it : OneRawArrayIter) (src sz : Z) (cs : list (list Z)) :
  Forall (fun r => write_event r = true) (map (one_row_event it src sz) cs).
Proof. induction cs; simpl; constructor; auto. Qed.

Lemma rows_two_write (it : TwoRawArrayIter) (src sz : Z) (cs : list (list Z)) :
  Forall (fun r => write_event r = true) (map (two_row_event it src sz) cs).
Proof. induction cs; simpl; constructor; auto. Qed.

Lemma return_code_cases (b : bool) (o : option PyErr) (r : Z) :
  r = (if b && match o with Some _ => true | None => false end then -1 else 0) ->
  (r = -1 <-> b = true /\ o <> None) /\ (r <> -1 -> r = 0).
Proof.
  drop_unused.
  intros ->. destruct b, o; simpl; repeat split; try tauto; try lia;
    try discriminate; intros [? ?]; congruence.
Qed.

(** C7 (amended).  In both engines, once the normaliser and the
    constructor have succeeded, the write loop runs to completion: the
    trace of the run has one callback call per outer coordinate of the
    plan, the final memory and error indicator are those of performing
    every element write of the plan in order, and the memory is the same
    as if no write had raised - also when the engine reports failure.
    The engine returns 0 or -1, and an exception raised by a write is
    still pending on return.  Entered with a clear error indicator, the
    engine returns -1 exactly when [needs_api] is set and a write of the
    loop raised; if moreover the transfer raises only when it asked for
    guarded execution, it returns 0 exactly when no write raised.
    Without these two conditions the equivalence fails: a transfer that
    did not ask for guarded execution always gives 0, whatever its writes
    raised, and a guarded run entered with an exception pending always
    gives -1, whether or not a write raised. *)
Theorem C7_loop_completes_then_reports_pending_error :
  forall ndim shape dst_dtype dst_data dst_strides src_dtype src_data
         wheremask_dtype wheremask_data wheremask_strides w,
    let aligned :=
      check_alignment ndim dst_dtype dst_data dst_strides src_dtype src_data in
    let sz := elsize src_dtype in
    (forall it t,
        PyArray_PrepareOneRawArrayIter ndim shape dst_data dst_strides = inr it ->
        PyArray_GetDTypeTransferFunction
          aligned 0 (nth 0 (it_strides it) 0) src_dtype dst_dtype false = inr t ->
        let r := raw_array_assign_scalar ndim shape dst_dtype dst_data
                   dst_strides src_dtype src_data w in
        let addrs := iter_one_addrs it in
        (exists tr,
            trace (snd r) = trace w ++ tr /\
            filter write_event tr =
            map (one_row_event it src_data sz)
                (outer_coords (it_ndim it) (it_shape it)))
        /\ state_of (snd r) = write_all t src_data sz addrs (state_of w)
        /\ mem (snd r) = fst (write_all (quiet t) src_data sz addrs (state_of w))
        /\ (fst r = -1 <-> needs_api t = true /\ err (snd r) <> None)
        /\ (fst r <> -1 -> fst r = 0)
        /\ (raised_in_loop t src_data sz addrs (state_of w) ->
            err (snd r) <> None)
        /\ (err w = None ->
            (fst r = -1 <->
             needs_api t = true /\
             raised_in_loop t src_data sz addrs (state_of w)))
        /\ (err w = None -> unguarded_is_quiet t ->
            (fst r = 0 <->
             ~ raised_in_loop t src_data sz addrs (state_of w)))
        /\ (needs_api t = false -> fst r = 0)
        /\ (needs_api t = true -> err w <> None -> fst r = -1))
    /\
    (forall it t,
        PyArray_PrepareTwoRawArrayIter ndim shape dst_data dst_strides
                                       wheremask_data wheremask_strides = inr it ->
        PyArray_GetMaskedDTypeTransferFunction
          aligned 0 (nth 0 (it2_stridesA it) 0) (nth 0 (it2_stridesB it) 0)
          src_dtype dst_dtype wheremask_dtype false = inr t ->
        let r := raw_array_wheremasked_assign_scalar ndim shape dst_dtype
                   dst_data dst_strides src_dtype src_data wheremask_dtype
                   wheremask_data wheremask_strides w in
        let addrs := iter_two_addrs it in
        (exists tr,
            trace (snd r) = trace w ++ tr /\
            filter write_event tr =
            map (two_row_event it src_data sz)
                (outer_coords (it2_ndim it) (it2_shape it)))
        /\ state_of (snd r) = masked_write_all t src_data sz addrs (state_of w)
        /\ mem (snd r) =
           fst (masked_write_all (quiet t) src_data sz addrs (state_of w))
        /\ (fst r = -1 <-> needs_api t = true /\ err (snd r) <> None)
        /\ (fst r <> -1 -> fst r = 0)
        /\ (raised_in_masked_loop t src_data sz addrs (state_of w) ->
            err (snd r) <> None)
        /\ (err w = None ->
            (fst r = -1 <->
             needs_api t = true /\
             raised_in_masked_loop t src_data sz addrs (state_of w)))
        /\ (err w = None -> unguarded_is_quiet t ->
            (fst r = 0 <->
             ~ raised_in_masked_loop t src_data sz addrs (state_of w)))
        /\ (needs_api t = false -> fst r = 0)
        /\ (needs_api t = true -> err w <> None -> fst r = -1)).
Proof.
  intros; split; intros it t HP HG r addrs.
  - destruct (unmasked_loop_runs _ _ _ _ _ _ _ w _ _ HP HG) as (Hs & Ht & Hr).
    fold r in Hs, Ht, Hr. fold addrs sz in Hs.
    assert (He : err (snd r) = snd (write_all t src_data sz addrs (state_of w)))
      by (rewrite <- Hs; reflexivity).
    apply return_code_cases in Hr; destruct Hr as [Hr1 Hr0].
    assert (H7 : err w = None ->
                 (fst r = -1 <->
                  needs_api t = true /\
                  raised_in_loop t src_data sz addrs (state_of w))).
    { intros Hw. rewrite Hr1, He. split; intros [Hn Hp]; split; auto.
      - now apply pending_raised_in_loop.
      - now apply raised_in_loop_pending. }
    split; [|split; [|split; [|split; [|split; [|split; [|split;
      [|split; [|split]]]]]]]].
    + eexists; split; [exact Ht|].
      apply filter_write_event_loop; auto using rows_one_write.
    + exact Hs.
    + change (mem (snd r)) with (fst (state_of (snd r))). rewrite Hs.
      now apply write_all_quiet.
    + exact Hr1.
    + exact Hr0.
    + rewrite He. apply raised_in_loop_pending.
    + exact H7.
    + intros Hw Hq. split.
      * intros H0 Hraised.
        apply raised_in_loop_pending in Hraised. rewrite <- He in Hraised.
        destruct (needs_api t) eqn:Hn.
        -- assert (Hm1 : fst r = -1) by (apply Hr1; auto).
           rewrite Hm1 in H0. discriminate.
        -- apply Hraised. rewrite He, write_all_no_raise; auto.
      * intros Hnr. apply Hr0. intros Hm1.
        apply (H7 Hw) in Hm1. destruct Hm1 as [_ Hp]. contradiction.
    + intros Hn. apply Hr0. intros Hm1. apply Hr1 in Hm1.
      destruct Hm1 as [Hn' _]. rewrite Hn in Hn'. discriminate.
    + intros Hn Hw. apply Hr1. split; [exact Hn|].
      rewrite He. now apply write_all_sticky.
  - destruct (masked_loop_runs _ _ _ _ _ _ _ _ _ _ w _ _ HP HG)
      as (Hs & Ht & Hr).
    fold r in Hs, Ht, Hr. fold addrs sz in Hs.
    assert (He : err (snd r) =
                 snd (masked_write_all t src_data sz addrs (state_of w)))
      by (rewrite <- Hs; reflexivity).
    apply return_code_cases in Hr; destruct Hr as [Hr1 Hr0].
    assert (H7 : err w = None ->
                 (fst r = -1 <->
                  needs_api t = true /\
                  raised_in_masked_loop t src_data sz addrs (state_of w))).
    { intros Hw. rewrite Hr1, He. split; intros [Hn Hp]; split; auto.
      - now apply pending_raised_in_masked_loop.
      - now apply raised_in_masked_loop_pending. }
    split; [|split; [|split; [|split; [|split; [|split; [|split;
      [|split; [|split]]]]]]]].
    + eexists; split; [exact Ht|].
      apply filter_write_event_loop; auto using rows_two_write.
    + exact Hs.
    + change (mem (snd r)) with (fst (state_of (snd r))). rewrite Hs.
      now apply masked_write_all_quiet.
    + exact Hr1.
    + exact Hr0.
    + rewrite He. apply raised_in_masked_loop_pending.
    + exact H7.
    + intros Hw Hq. split.
      * intros H0 Hraised.
        apply raised_in_masked_loop_pending in Hraised.
        rewrite <- He in Hraised.
        destruct (needs_api t) eqn:Hn.
        -- assert (Hm1 : fst r = -1) by (apply Hr1; auto).
           rewrite Hm1 in H0. discriminate.
        -- apply Hraised. rewrite He, masked_write_all_no_raise; auto.
      * intros Hnr. apply Hr0. intros Hm1.
        apply (H7 Hw) in Hm1. destruct Hm1 as [_ Hp]. contradiction.
    + intros Hn. apply Hr0. intros Hm1. apply Hr1 in Hm1.
      destruct Hm1 as [Hn' _]. rewrite Hn in Hn'. discriminate.
    + intros Hn Hw. apply Hr1. split; [exact Hn|].
      rewrite He. now apply masked_write_all_sticky.
Qed.

(* =================================================================== *)
(** *** Masks that are false everywhere, masks that are true everywhere *)
(* =================================================================== *)

Lemma in_array_addr_pairs (ndim : nat) (shape : list Z)
      (dataA : Z) (stridesA : list Z) (dataB : Z) (stridesB : list Z)
      (am : Z * Z) :
  In am (array_addr_pairs ndim shape dataA stridesA dataB stridesB) ->
  In (fst am) (array_addrs ndim shape dataA stridesA) /\
  In (snd am) (array_addrs ndim shape dataB stridesB).
Proof.
  unfold array_addr_pairs, array_addrs. intros H.
  apply in_map_iff in H. destruct H as (c & <- & Hc). simpl.
  split; apply in_map_iff; exists c; auto.
Qed.

Lemma masked_write_all_false (t : Transfer) (src sz : Z) (l : list (Z * Z)) :
  forall s,
    (forall am, In am l -> npy_bool_true (fst s (snd am)) = false) ->
    masked_write_all t src sz l s = s.
Proof.
  induction l as [|am l IH]; intros s H; simpl; [reflexivity|].
  unfold masked_write_elem at 1. rewrite (H am (or_introl eq_refl)).
  apply IH. intros am' Hin. apply H. now right.
Qed.

(** C5.  In the masked engine, when the normalised plan walks positions
    of the arrays it was given and the mask byte is false at every
    position, the memory after the call is the memory before it, whatever
    the call returns (in particular when it returns 0). *)
Theorem C5_all_false_mask_leaves_memory_unchanged :
  forall ndim shape dst_dtype dst_data dst_strides src_dtype src_data
         wheremask_dtype wheremask_data wheremask_strides w,
    (forall it,
        PyArray_PrepareTwoRawArrayIter ndim shape dst_data dst_strides
                                       wheremask_data wheremask_strides = inr it ->
        two_iter_sound ndim shape dst_data dst_strides
                       wheremask_data wheremask_strides it) ->
    mask_everywhere false (mem w) ndim shape wheremask_data wheremask_strides ->
    mem (snd (raw_array_wheremasked_assign_scalar ndim shape dst_dtype
                dst_data dst_strides src_dtype src_data wheremask_dtype
                wheremask_data wheremask_strides w)) = mem w.
Proof.
  intros until w. intros Hsound Hmask.
  destruct (PyArray_PrepareTwoRawArrayIter ndim shape dst_data dst_strides
              wheremask_data wheremask_strides) as [e|it] eqn:HP.
  - now rewrite (masked_prepare_fails _ _ dst_dtype _ _ src_dtype src_data
                   wheremask_dtype _ _ w _ HP).
  - destruct (PyArray_GetMaskedDTypeTransferFunction
                (check_alignment ndim dst_dtype dst_data dst_strides
                                 src_dtype src_data)
                0 (nth 0 (it2_stridesA it) 0) (nth 0 (it2_stridesB it) 0)
                src_dtype dst_dtype wheremask_dtype false) as [e|t] eqn:HG.
    + now rewrite (masked_ctor_fails _ _ _ _ _ _ _ _ _ _ w _ _ HP HG).
    + destruct (masked_loop_runs _ _ _ _ _ _ _ _ _ _ w _ _ HP HG)
        as (Hs & _ & _).
      rewrite masked_write_all_false in Hs.
      * unfold state_of in Hs. now inversion Hs.
      * intros am Hin. apply Hmask.
        apply (Hsound it eq_refl) in Hin.
        now apply in_array_addr_pairs in Hin.
Qed.

Lemma store_bytes_outside (bs : list byte) :
  forall m a x,
    (forall k, 0 <= k < Z.of_nat (List.length bs) -> a + k <> x) ->
    store_bytes m a bs x = m x.
Proof.
  induction bs as [|b bs IH]; intros m a x H; simpl; [reflexivity|].
  rewrite IH.
  - unfold store_byte.
    destruct (x =? a) eqn:E; [|reflexivity].
    apply Z.eqb_eq in E. exfalso. apply (H 0); simpl List.length; lia.
  - intros k Hk. replace (a + 1 + k) with (a + (k + 1)) by lia.
    apply H. simpl List.length. lia.
Qed.

Lemma load_bytes_length (m : Z -> byte) (n : nat) :
  forall a, List.length (load_bytes m a n) = n.
Proof. induction n as [|n IH]; intros a; simpl; auto. Qed.

Lemma masked_write_all_true (t : Transfer) (src sz : Z) (A M : list Z) :
  (forall a m bs k,
      In a A -> In m M ->
      List.length bs = Z.to_nat sz ->
      0 <= k < Z.of_nat (List.length (fst (convert t bs))) -> a + k <> m) ->
  forall l s,
    (forall am, In am l -> In (fst am) A /\ In (snd am) M) ->
    (forall m, In m M -> npy_bool_true (fst s m) = true) ->
    masked_write_all t src sz l s = write_all t src sz (map fst l) s.
Proof.
  intros Hsep. induction l as [|am l IH]; intros s Hl Hm; simpl; [reflexivity|].
  destruct (Hl am (or_introl eq_refl)) as [HA HM].
  unfold masked_write_elem at 1. rewrite (Hm _ HM).
  apply IH.
  - intros am' Hin. apply Hl. now right.
  - intros m Hin. unfold write_elem; simpl.
    rewrite store_bytes_outside; [now apply Hm|].
    intros k Hk.
    apply Hsep with (bs := load_bytes (fst s) src (Z.to_nat sz)); auto.
    apply load_bytes_length.
Qed.

(** C4 (amended).  Take a destination and a mask whose byte is true at
    every position of the destination shape, the mask being read-only (no
    destination element overlaps a mask byte).  Let the two normalisers
    succeed with plans that walk the same destination addresses in the
    same order, the masked plan walking positions of the arrays it was
    given, and let the masked constructor answer as the unmasked one does.
    Then the masked engine and the unconditional engine, run from the same
    world on the same destination, scalar type and scalar pointer, end
    with the same memory, the same error indicator and the same return
    value. *)
Theorem C4_all_true_mask_equals_unconditional :
  forall ndim shape dst_dtype dst_data dst_strides src_dtype src_data
         wheremask_dtype wheremask_data wheremask_strides w it1 it2,
    let aligned :=
      check_alignment ndim dst_dtype dst_data dst_strides src_dtype src_data in
    PyArray_PrepareOneRawArrayIter ndim shape dst_data dst_strides = inr it1 ->
    PyArray_PrepareTwoRawArrayIter ndim shape dst_data dst_strides
                                   wheremask_data wheremask_strides = inr it2 ->
    iter_one_addrs it1 = map fst (iter_two_addrs it2) ->
    two_iter_sound ndim shape dst_data dst_strides
                   wheremask_data wheremask_strides it2 ->
    PyArray_GetMaskedDTypeTransferFunction
      aligned 0 (nth 0 (it2_stridesA it2) 0) (nth 0 (it2_stridesB it2) 0)
      src_dtype dst_dtype wheremask_dtype false =
    PyArray_GetDTypeTransferFunction
      aligned 0 (nth 0 (it_strides it1) 0) src_dtype dst_dtype false ->
    mask_everywhere true (mem w) ndim shape wheremask_data wheremask_strides ->
    (forall t,
        PyArray_GetDTypeTransferFunction
          aligned 0 (nth 0 (it_strides it1) 0) src_dtype dst_dtype false = inr t ->
        mask_read_only t (elsize src_dtype) ndim shape dst_data dst_strides
                       wheremask_data wheremask_strides) ->
    let rm := raw_array_wheremasked_assign_scalar ndim shape dst_dtype
                dst_data dst_strides src_dtype src_data wheremask_dtype
                wheremask_data wheremask_strides w in
    let ru := raw_array_assign_scalar ndim shape dst_dtype dst_data
                dst_strides src_dtype src_data w in
    mem (snd rm) = mem (snd ru) /\
    err (snd rm) = err (snd ru) /\
    fst rm = fst ru.
Proof.
  intros until it2. intros aligned HP1 HP2 Hsame Hsound HC Hmask Hro rm ru.
  destruct (PyArray_GetDTypeTransferFunction
              aligned 0 (nth 0 (it_strides it1) 0) src_dtype dst_dtype false)
    as [e|t] eqn:HG.
  - subst rm ru.
    rewrite (masked_ctor_fails _ _ _ _ _ _ _ _ _ _ w _ _ HP2 HC).
    rewrite (unmasked_ctor_fails _ _ _ _ _ _ _ w _ _ HP1 HG).
    simpl. auto.
  - destruct (masked_loop_runs _ _ _ _ _ _ _ _ _ _ w _ _ HP2 HC)
      as (Hsm & _ & Hrm).
    destruct (unmasked_loop_runs _ _ _ _ _ _ _ w _ _ HP1 HG)
      as (Hsu & _ & Hru).
    fold rm in Hsm, Hrm. fold ru in Hsu, Hru.
    assert (E : state_of (snd rm) = state_of (snd ru)).
    { rewrite Hsm, Hsu, Hsame.
      apply masked_write_all_true
        with (A := array_addrs ndim shape dst_data dst_strides)
             (M := array_addrs ndim shape wheremask_data wheremask_strides).
      - intros a m bs k Ha Hm Hb Hk. exact (Hro t eq_refl a m bs k Ha Hm Hb Hk).
      - intros am Hin. apply Hsound in Hin.
        now apply in_array_addr_pairs in Hin.
      - exact Hmask. }
    rewrite Hrm, Hru, (PyErr_Occurred_state _ _ E).
    unfold state_of in E. inversion E. auto.
Qed.

(* =================================================================== *)
(** *** The orchestrator *)
(* =================================================================== *)

Lemma iterate_events_no_heap (sd : PyArray_Descr) (s : Z) (tr : list Event) :
  Forall (iterate_event sd s) tr ->
  frees tr = [] /\ heap_allocs tr = [] /\ existsb staging_event tr = false.
Proof.
  induction 1 as [|e tr He _ (IH1 & IH2 & IH3)]; [auto|].
  unfold frees, heap_allocs in *. simpl.
  rewrite IH1, IH2, IH3.
  destruct e; simpl in He; try contradiction; auto.
Qed.

Lemma frees_app (l1 l2 : list Event) : frees (l1 ++ l2) = frees l1 ++ frees l2.
Proof. apply flat_map_app. Qed.

Lemma heap_allocs_app (l1 l2 : list Event) :
  heap_allocs (l1 ++ l2) = heap_allocs l1 ++ heap_allocs l2.
Proof. apply flat_map_app. Qed.

(** The iterate step: events of the engines (and of mask broadcasting),
    all working from the scalar that was passed in, then the release of
    [src_data] if [allocated_src_data] is set. *)
Lemma assign_iterate_events (dst : PyArrayObject) (allocated : bool)
      (sd : PyArray_Descr) (s : Z) (wheremask : option PyArrayObject)
      (w : World) :
  exists tr,
    trace (snd (assign_iterate dst allocated sd s wheremask w)) =
      trace w ++ tr ++ (if allocated then [EvFree s] else [])
    /\ Forall (iterate_event sd s) tr.
Proof.
  unfold assign_iterate. destruct wheremask as [wm|].
  - destruct (broadcast_strides _ _ _ _ _ _) as [e|ws].
    + exists [EvBroadcastStrides false]. split; [|repeat constructor].
      unfold exit_fail, PyArray_free. destruct allocated; simpl;
        now rewrite <- ?app_assoc.
    + destruct (masked_events (PyArray_NDIM dst) (PyArray_DIMS dst)
                  (PyArray_DESCR dst) (PyArray_DATA dst) (PyArray_STRIDES dst)
                  sd s (PyArray_DESCR wm) (PyArray_DATA wm) ws
                  (emit (EvBroadcastStrides true) w)) as (tr & Ht & Hf).
      destruct (raw_array_wheremasked_assign_scalar _ _ _ _ _ _ _ _ _ _ _)
        as [r w'].
      simpl in Ht. exists (EvBroadcastStrides true :: tr).
      split; [|constructor; simpl; auto].
      unfold exit_fail, exit_ok, PyArray_free.
      destruct (r <? 0), allocated; simpl; rewrite Ht, <- ?app_assoc;
        simpl; rewrite ?app_nil_r; reflexivity.
  - destruct (unmasked_events (PyArray_NDIM dst) (PyArray_DIMS dst)
                (PyArray_DESCR dst) (PyArray_DATA dst) (PyArray_STRIDES dst)
                sd s w) as (tr & Ht & Hf).
    destruct (raw_array_assign_scalar _ _ _ _ _ _ _ _) as [r w'].
    simpl in Ht. exists tr. split; [|assumption].
    unfold exit_fail, exit_ok, PyArray_free.
    destruct (r <? 0), allocated; simpl; rewrite Ht, <- ?app_assoc;
      simpl; rewrite ?app_nil_r; reflexivity.
Qed.

Lemma cast_scalar_into_trace (tmp : Z) (dd sd : PyArray_Descr) (s : Z)
                             (w : World) :
  trace (snd (cast_scalar_into tmp dd sd s w)) =
  trace w ++ [EvCastRawArrays s tmp sd dd (fst (cast_scalar_into tmp dd sd s w))].
Proof.
  unfold cast_scalar_into. simpl.
  destruct (snd (PyArray_CastRawArrays _ _ _ _ _ _ _)); reflexivity.
Qed.

(** The trace of the staging block and of everything after it, for a call
    that got past both checks and whose staging condition holds. *)
Lemma staged_tail_events (dst : PyArrayObject) (sd : PyArray_Descr) (s : Z)
      (wheremask : option PyArrayObject) (w : World) :
  let dd := PyArray_DESCR dst in
  let size := to_size_t (elsize dd) in
  let r :=
    match staging_buffer (elsize dd) w with
    | (None, allocated_src_data, w) => exit_fail allocated_src_data s w
    | (Some tmp_src_data, allocated_src_data, w) =>
      let '(ok, w) := cast_scalar_into tmp_src_data dd sd s w in
      if ok
      then assign_iterate dst allocated_src_data dd tmp_src_data wheremask w
      else exit_fail allocated_src_data tmp_src_data w
    end in
  exists tr,
    trace (snd r) = trace w ++ tr /\
    ((sizeof_scalarbuffer >=? size) = true ->
     exists ok tr_it,
       tr = EvCastRawArrays s scalarbuffer sd dd ok :: tr_it /\
       Forall (iterate_event dd scalarbuffer) tr_it /\
       (ok = false -> tr_it = [] /\ fst r = -1)) /\
    ((sizeof_scalarbuffer >=? size) = false ->
     forall p, PyArray_malloc size = Some p ->
     exists ok tr_it,
       tr = EvMalloc size (Some p) :: EvCastRawArrays s p sd dd ok ::
            tr_it ++ [EvFree p] /\
       Forall (iterate_event dd p) tr_it /\
       (ok = false -> tr_it = [] /\ fst r = -1)) /\
    ((sizeof_scalarbuffer >=? size) = false ->
     PyArray_malloc size = None ->
     tr = [EvMalloc size None] /\ fst r = -1 /\
     err (snd r) = Some PyExc_MemoryError /\ mem (snd r) = mem w).
Proof.
  intros dd size. unfold staging_buffer. fold size.
  destruct (sizeof_scalarbuffer >=? size) eqn:Hfit.
  - pose proof (cast_scalar_into_trace scalarbuffer dd sd s w) as Hc.
    destruct (cast_scalar_into scalarbuffer dd sd s w) as [ok w1].
    simpl in Hc. destruct ok.
    + destruct (assign_iterate_events dst false dd scalarbuffer wheremask w1)
        as (tr & Ht & Hf).
      simpl. exists (EvCastRawArrays s scalarbuffer sd dd true :: tr).
      split; [rewrite Ht, Hc, app_nil_r, <- app_assoc; reflexivity|].
      split; [|split; intros; discriminate].
      intros _. exists true, tr.
      split; [reflexivity|]. split; [assumption|]. intros; discriminate.
    + simpl. exists [EvCastRawArrays s scalarbuffer sd dd false].
      split; [assumption|]. split; [|split; intros; discriminate].
      intros _. exists false, []. repeat split; auto.
  - destruct (PyArray_malloc size) as [p|] eqn:Hm.
    + set (w0 := emit (EvMalloc size (Some p)) w).
      pose proof (cast_scalar_into_trace p dd sd s w0) as Hc.
      destruct (cast_scalar_into p dd sd s w0) as [ok w1].
      simpl in Hc. destruct ok.
      * destruct (assign_iterate_events dst true dd p wheremask w1)
          as (tr & Ht & Hf).
        simpl. exists (EvMalloc size (Some p) ::
                       EvCastRawArrays s p sd dd true :: tr ++ [EvFree p]).
        split; [rewrite Ht, Hc; unfold w0; simpl;
                rewrite <- !app_assoc; reflexivity|].
        split; [intros; discriminate|]. split; [|intros; discriminate].
        intros _ p' Hp'; inversion Hp'; subst p'.
        exists true, tr.
        split; [reflexivity|]. split; [assumption|]. intros; discriminate.
      * simpl. exists [EvMalloc size (Some p);
                       EvCastRawArrays s p sd dd false; EvFree p].
        split; [rewrite Hc; unfold w0; simpl;
                rewrite <- !app_assoc; reflexivity|].
        split; [intros; discriminate|]. split; [|intros; discriminate].
        intros _ p' Hp'; inversion Hp'; subst p'.
        exists false, []. repeat split; auto.
    + simpl. exists [EvMalloc size None].
      split; [reflexivity|].
      split; [intros; discriminate|]. split; [intros; discriminate|].
      auto.
Qed.

Section Orchestrator.
Variables (dst : PyArrayObject) (src_dtype : PyArray_Descr) (src_data : Z)
          (wheremask : option PyArrayObject) (casting : NPY_CASTING)
          (w : World).

Let dd := PyArray_DESCR dst.
Let scalar := load_bytes (mem w) src_data (Z.to_nat (elsize src_dtype)).
Let castable := can_cast_scalar_to src_dtype scalar dd casting.
Let run := PyArray_AssignRawScalar dst src_dtype src_data wheremask casting w.
Let checked : World :=
  emit (EvCanCastScalarTo src_dtype scalar dd casting castable)
       (emit (EvFailUnlessWriteable true) w).

Lemma assign_not_writeable :
  writeable dst = false ->
  run = (-1, PyErr_Set (NotWriteableError "assignment destination")
                       (emit (EvFailUnlessWriteable false) w)).
Proof.
  intros Hw. unfold run, PyArray_AssignRawScalar, PyArray_FailUnlessWriteable.
  now rewrite Hw.
Qed.

Lemma assign_cast_rejected :
  writeable dst = true -> castable = false ->
  run = (-1, PyErr_Set (PyExc_TypeError (cast_errmsg src_dtype dd casting))
                       checked).
Proof.
  intros Hw Hc.
  unfold run, PyArray_AssignRawScalar, PyArray_FailUnlessWriteable, checked.
  rewrite Hw. cbv beta iota zeta. cbn [negb mem emit].
  fold scalar dd. fold castable. rewrite Hc. reflexivity.
Qed.

Lemma assign_checked :
  writeable dst = true -> castable = true ->
  run =
  if needs_staging dst src_dtype src_data
  then
    match staging_buffer (elsize dd) checked with
    | (None, allocated_src_data, w) => exit_fail allocated_src_data src_data w
    | (Some tmp_src_data, allocated_src_data, w) =>
      let '(ok, w) := cast_scalar_into tmp_src_data dd src_dtype src_data w in
      if ok
      then assign_iterate dst allocated_src_data dd tmp_src_data wheremask w
      else exit_fail allocated_src_data tmp_src_data w
    end
  else assign_iterate dst false src_dtype src_data wheremask checked.
Proof.
  intros Hw Hc.
  unfold run, PyArray_AssignRawScalar, PyArray_FailUnlessWriteable, checked.
  rewrite Hw. cbv beta iota zeta. cbn [negb mem emit].
  fold scalar dd. fold castable. rewrite Hc. reflexivity.
Qed.

End Orchestrator.

Lemma needs_staging_true (dst : PyArrayObject) (src_dtype : PyArray_Descr)
                         (src_data : Z) :
  needs_staging dst src_dtype src_data = true <->
  (PyArray_EquivTypes (PyArray_DESCR dst) src_dtype = false \/
   npy_is_aligned src_data (alignment src_dtype) = false) /\
  PyArray_SIZE dst > 1 /\
  PyDataType_REFCHK (PyArray_DESCR dst) = false.
Proof.
  drop_unused.
  unfold needs_staging.
  rewrite !andb_true_iff, orb_true_iff, !negb_true_iff.
  rewrite Z.gtb_lt. intuition lia.
Qed.

(** C1 (amended).  For every call for which [can_cast_scalar_to] rejects
    the scalar's bytes and type, the destination's type and the casting
    rule: the call returns -1, memory is what it was on entry, and no
    staging, selector or write-loop call is made.  When the destination
    passes the writability check, a [TypeError] is pending whose message
    is "Cannot cast scalar from " followed by the representation of the
    source type, " to ", the representation of the destination type,
    " according to the rule " and the name of the casting rule, and the
    only collaborator calls made are the two checks.  When it does not,
    the not-writable error is pending and the predicate is not
    consulted. *)
Theorem C1_rejected_cast_fails_and_writes_nothing :
  forall dst src_dtype src_data wheremask casting w,
    can_cast_scalar_to src_dtype
      (load_bytes (mem w) src_data (Z.to_nat (elsize src_dtype)))
      (PyArray_DESCR dst) casting = false ->
    let r := PyArray_AssignRawScalar dst src_dtype src_data wheremask casting w in
    fst r = -1 /\
    mem (snd r) = mem w /\
    (writeable dst = true ->
     err (snd r) =
       Some (PyExc_TypeError
               ("Cannot cast scalar from " ++ PyObject_Repr src_dtype ++
                " to " ++ PyObject_Repr (PyArray_DESCR dst) ++
                " according to the rule " ++
                npy_casting_to_string casting)%string) /\
     trace (snd r) =
       trace w ++
       [EvFailUnlessWriteable true;
        EvCanCastScalarTo src_dtype
          (load_bytes (mem w) src_data (Z.to_nat (elsize src_dtype)))
          (PyArray_DESCR dst) casting false]) /\
    (writeable dst = false ->
     err (snd r) = Some (NotWriteableError "assignment destination") /\
     trace (snd r) = trace w ++ [EvFailUnlessWriteable false]).
Proof.
  intros dst src_dtype src_data wheremask casting w Hc r. subst r.
  destruct (writeable dst) eqn:Hw.
  - rewrite assign_cast_rejected by assumption.
    simpl. rewrite Hc, <- app_assoc.
    repeat split; auto; intros; discriminate.
  - rewrite assign_not_writeable by assumption. simpl.
    repeat split; auto; intros; discriminate.
Qed.

(** C3.  On every call, whatever each collaborator answers: the pointers
    passed to [PyArray_free] during the call are exactly the pointers
    obtained from [PyArray_malloc] during the call; there is such a pointer
    only when both checks pass, the staging condition holds, the
    destination element does not fit the local array and the allocation
    succeeds, and then there is exactly one and its release is the last
    event of the call.  In every other case (check failed, no staging,
    local array used, allocation failed) nothing is released. *)
Theorem C3_heap_staging_buffer_freed_exactly_once :
  forall dst src_dtype src_data wheremask casting w,
    let dd := PyArray_DESCR dst in
    let size := to_size_t (elsize dd) in
    let r := PyArray_AssignRawScalar dst src_dtype src_data wheremask casting w in
    exists tr,
      trace (snd r) = trace w ++ tr /\
      frees tr = heap_allocs tr /\
      heap_allocs tr =
        (if writeable dst &&
            can_cast_scalar_to src_dtype
              (load_bytes (mem w) src_data (Z.to_nat (elsize src_dtype)))
              dd casting &&
            needs_staging dst src_dtype src_data &&
            negb (sizeof_scalarbuffer >=? size)
         then match PyArray_malloc size with
              | Some p => [p]
              | None => []
              end
         else []) /\
      (forall p, In p (heap_allocs tr) -> exists tr', tr = tr' ++ [EvFree p]).
Proof.
  intros dst src_dtype src_data wheremask casting w dd size r.
  destruct (writeable dst) eqn:Hw.
  2:{ subst r. rewrite assign_not_writeable by assumption. simpl.
      exists [EvFailUnlessWriteable false]. simpl. repeat split; auto.
      intros p []. }
  destruct (can_cast_scalar_to src_dtype
              (load_bytes (mem w) src_data (Z.to_nat (elsize src_dtype)))
              dd casting) eqn:Hc.
  2:{ subst r. rewrite assign_cast_rejected by assumption. simpl.
      fold dd. rewrite Hc, <- app_assoc. simpl.
      eexists; split; [reflexivity|]. simpl. repeat split; auto.
      intros p []. }
  subst r. rewrite assign_checked by assumption. fold dd. rewrite Hc.
  set (w1 := emit _ _).
  assert (Hw1 : trace w1 = trace w ++
                  [EvFailUnlessWriteable true;
                   EvCanCastScalarTo src_dtype
                     (load_bytes (mem w) src_data (Z.to_nat (elsize src_dtype)))
                     dd casting true])
    by (unfold w1; simpl; now rewrite <- app_assoc).
  destruct (needs_staging dst src_dtype src_data) eqn:Hn; cbv iota.
  - destruct (staged_tail_events dst src_dtype src_data wheremask w1)
      as (tr & Ht & Hfit & Hheap & Hnull).
    fold dd in Ht, Hfit, Hheap, Hnull. fold size in Hfit, Hheap, Hnull.
    rewrite Ht, Hw1, <- app_assoc. eexists; split; [reflexivity|].
    unfold frees, heap_allocs. simpl. fold (frees tr) (heap_allocs tr).
    destruct (sizeof_scalarbuffer >=? size) eqn:Hs; simpl.
    + destruct (Hfit eq_refl) as (ok & tr_it & -> & Hf & _).
      apply iterate_events_no_heap in Hf. destruct Hf as (F1 & F2 & _).
      unfold frees, heap_allocs in *. simpl. rewrite F1, F2.
      repeat split; auto. intros p [].
    + destruct (PyArray_malloc size) as [p|] eqn:Hm.
      * destruct (Hheap eq_refl p eq_refl) as (ok & tr_it & -> & Hf & _).
        apply iterate_events_no_heap in Hf. destruct Hf as (F1 & F2 & _).
        change (frees (?a :: ?b :: ?l)) with (frees l).
        change (heap_allocs (?a :: ?b :: ?l)) with (p :: heap_allocs l).
        rewrite frees_app, heap_allocs_app, F1, F2. simpl.
        repeat split; auto.
        intros p' [<-|[]].
        exists ([EvFailUnlessWriteable true;
                 EvCanCastScalarTo src_dtype
                   (load_bytes (mem w) src_data (Z.to_nat (elsize src_dtype)))
                   dd casting true;
                 EvMalloc size (Some p);
                 EvCastRawArrays src_data p src_dtype dd ok] ++ tr_it).
        reflexivity.
      * destruct (Hnull eq_refl eq_refl) as (-> & _).
        simpl. repeat split; auto. intros p [].
  - destruct (assign_iterate_events dst false src_dtype src_data wheremask w1)
      as (tr & Ht & Hf).
    rewrite Ht, Hw1, app_nil_r, <- app_assoc. eexists; split; [reflexivity|].
    apply iterate_events_no_heap in Hf. destruct Hf as (F1 & F2 & _).
    unfold frees, heap_allocs in *. simpl. rewrite F1, F2.
    repeat split; auto. intros p [].
Qed.

(** C2 (amended).  On every call, the staging step is entered (a heap
    buffer is requested, or the scalar is converted into the local array)
    exactly when the call passes the writability check and the
    cast-safety check and the staging condition holds, that is, when (the
    destination type and the scalar type are not equivalent, or the scalar
    pointer is not aligned for the scalar type) and the destination has
    more than one element and the destination type is not
    reference-counted; in particular never for an aligned scalar of the
    destination's type.  Past the checks: when the condition does not
    hold, every later step works from the caller's scalar and type; when
    it holds, the scalar is converted into the local array if the
    destination element fits in it and into a freshly allocated buffer
    otherwise; every step after a successful conversion works from that
    buffer and the destination type; a failed conversion or a failed
    allocation ends the call with -1. *)
Theorem C2_staging_exactly_when_needed_after_checks :
  forall dst src_dtype src_data wheremask casting w,
    let dd := PyArray_DESCR dst in
    let size := to_size_t (elsize dd) in
    let scalar := load_bytes (mem w) src_data (Z.to_nat (elsize src_dtype)) in
    let castable := can_cast_scalar_to src_dtype scalar dd casting in
    let r := PyArray_AssignRawScalar dst src_dtype src_data wheremask casting w in
    (needs_staging dst src_dtype src_data = true <->
     (PyArray_EquivTypes dd src_dtype = false \/
      npy_is_aligned src_data (alignment src_dtype) = false) /\
     PyArray_SIZE dst > 1 /\
     PyDataType_REFCHK dd = false)
    /\
    exists tr,
      trace (snd r) = trace w ++ tr
      /\ existsb staging_event tr =
         writeable dst && castable && needs_staging dst src_dtype src_data
      /\ (PyArray_EquivTypes dd src_dtype = true ->
          npy_is_aligned src_data (alignment src_dtype) = true ->
          existsb staging_event tr = false)
      /\ (writeable dst = true -> castable = true ->
          exists tr',
            tr = EvFailUnlessWriteable true ::
                 EvCanCastScalarTo src_dtype scalar dd casting true :: tr'
            /\ (needs_staging dst src_dtype src_data = false ->
                Forall (iterate_event src_dtype src_data) tr')
            /\ (needs_staging dst src_dtype src_data = true ->
                (sizeof_scalarbuffer >=? size) = true ->
                exists ok tr_it,
                  tr' = EvCastRawArrays src_data scalarbuffer src_dtype dd ok
                        :: tr_it /\
                  Forall (iterate_event dd scalarbuffer) tr_it /\
                  (ok = false -> tr_it = [] /\ fst r = -1))
            /\ (needs_staging dst src_dtype src_data = true ->
                (sizeof_scalarbuffer >=? size) = false ->
                forall p, PyArray_malloc size = Some p ->
                exists ok tr_it,
                  tr' = EvMalloc size (Some p) ::
                        EvCastRawArrays src_data p src_dtype dd ok ::
                        tr_it ++ [EvFree p] /\
                  Forall (iterate_event dd p) tr_it /\
                  (ok = false -> tr_it = [] /\ fst r = -1))
            /\ (needs_staging dst src_dtype src_data = true ->
                (sizeof_scalarbuffer >=? size) = false ->
                PyArray_malloc size = None ->
                tr' = [EvMalloc size None] /\ fst r = -1 /\
                err (snd r) = Some PyExc_MemoryError)).
Proof.
  intros dst src_dtype src_data wheremask casting w dd size scalar castable r.
  split; [apply needs_staging_true|].
  assert (Hparticular :
            PyArray_EquivTypes dd src_dtype = true ->
            npy_is_aligned src_data (alignment src_dtype) = true ->
            needs_staging dst src_dtype src_data = false).
  { intros He Ha. unfold needs_staging. fold dd. now rewrite He, Ha. }
  destruct (writeable dst) eqn:Hw.
  2:{ subst r. rewrite assign_not_writeable by assumption. simpl.
      exists [EvFailUnlessWriteable false].
      split; [reflexivity|]. split; [reflexivity|]. split; [reflexivity|].
      intros; discriminate. }
  destruct castable eqn:Hc; subst castable.
  2:{ subst r. rewrite assign_cast_rejected by assumption. simpl.
      fold scalar dd. rewrite Hc, <- app_assoc.
      eexists. split; [reflexivity|]. split; [reflexivity|].
      split; [reflexivity|]. intros; discriminate. }
  subst r. rewrite assign_checked by assumption. fold dd scalar. rewrite Hc.
  set (w1 := emit _ _).
  assert (Hw1 : trace w1 = trace w ++
                  [EvFailUnlessWriteable true;
                   EvCanCastScalarTo src_dtype scalar dd casting true])
    by (unfold w1; simpl; now rewrite <- app_assoc).
  cbn [andb].
  destruct (needs_staging dst src_dtype src_data) eqn:Hn; cbv iota.
  - destruct (staged_tail_events dst src_dtype src_data wheremask w1)
      as (tr & Ht & Hfit & Hheap & Hnull).
    fold dd in Ht, Hfit, Hheap, Hnull. fold size in Hfit, Hheap, Hnull.
    assert (Hst : existsb staging_event tr = true).
    { destruct (sizeof_scalarbuffer >=? size) eqn:Hs.
      - destruct (Hfit eq_refl) as (ok & tr_it & -> & _). reflexivity.
      - destruct (PyArray_malloc size) as [p|] eqn:Hm.
        + destruct (Hheap eq_refl p eq_refl) as (ok & tr_it & -> & _).
          reflexivity.
        + destruct (Hnull eq_refl eq_refl) as (-> & _). reflexivity. }
    exists (EvFailUnlessWriteable true ::
            EvCanCastScalarTo src_dtype scalar dd casting true :: tr).
    rewrite Ht, Hw1, <- app_assoc.
    split; [reflexivity|]. split; [exact Hst|].
    split; [intros He Ha; discriminate (Hparticular He Ha)|].
    intros _ _. exists tr. split; [reflexivity|].
    split; [intros; discriminate|].
    split; [intros _; exact Hfit|].
    split; [intros _; exact Hheap|].
    intros _ Hs Hm. destruct (Hnull Hs Hm) as (? & ? & ? & _). auto.
  - destruct (assign_iterate_events dst false src_dtype src_data wheremask w1)
      as (tr & Ht & Hf).
    exists (EvFailUnlessWriteable true ::
            EvCanCastScalarTo src_dtype scalar dd casting true :: tr).
    rewrite Ht, Hw1, app_nil_r, <- app_assoc.
    split; [reflexivity|].
    pose proof (iterate_events_no_heap _ _ _ Hf) as (_ & _ & Hst).
    split; [exact Hst|]. split; [intros _ _; exact Hst|].
    intros _ _. exists tr. split; [reflexivity|].
    split; [auto|]. repeat (split; [intros; discriminate|]).
    intros; discriminate.
Qed.

(* =================================================================== *)
(** *** Destinations without elements *)
(* =================================================================== *)

Lemma fold_left_mul_0 (l : list Z) : fold_left Z.mul l 0 = 0.
Proof. induction l as [|x l IH]; simpl; auto. Qed.

Lemma fold_left_mul_In_0 (l : list Z) :
  forall a, In 0 l -> fold_left Z.mul l a = 0.
Proof.
  induction l as [|x l IH]; intros a H; simpl; [contradiction|].
  destruct H as [->|H].
  - rewrite Z.mul_0_r. apply fold_left_mul_0.
  - now apply IH.
Qed.

Lemma multiply_list_zero (ndim : nat) (shape : list Z) :
  In 0 (firstn ndim shape) -> multiply_list ndim shape = 0.
Proof. apply fold_left_mul_In_0. Qed.

Lemma raw_iter_coords_zero (shape : list Z) :
  In 0 shape -> raw_iter_coords shape = [].
Proof.
  induction shape as [|n rest IH]; simpl; [contradiction|].
  intros [->|H].
  - clear IH. induction (raw_iter_coords rest) as [|c cs IHc];
      [reflexivity|exact IHc].
  - now rewrite IH.
Qed.

Lemma one_iter_sound_empty (ndim : nat) (shape : list Z) (data : Z)
      (strides : list Z) (it : OneRawArrayIter) :
  In 0 (firstn ndim shape) ->
  one_iter_sound ndim shape data strides it -> iter_one_addrs it = [].
Proof.
  unfold one_iter_sound, array_addrs, array_positions. intros H0 Hs.
  rewrite raw_iter_coords_zero in Hs by assumption.
  now apply incl_l_nil.
Qed.

Lemma two_iter_sound_empty (ndim : nat) (shape : list Z)
      (dataA : Z) (stridesA : list Z) (dataB : Z) (stridesB : list Z)
      (it : TwoRawArrayIter) :
  In 0 (firstn ndim shape) ->
  two_iter_sound ndim shape dataA stridesA dataB stridesB it ->
  iter_two_addrs it = [].
Proof.
  unfold two_iter_sound, array_addr_pairs, array_positions. intros H0 Hs.
  rewrite raw_iter_coords_zero in Hs by assumption.
  now apply incl_l_nil.
Qed.

Section NoElements.
Variable dst : PyArrayObject.
Hypothesis zero_extent : In 0 (firstn (PyArray_NDIM dst) (PyArray_DIMS dst)).
Hypothesis one_sound :
  forall it,
    PyArray_PrepareOneRawArrayIter (PyArray_NDIM dst) (PyArray_DIMS dst)
      (PyArray_DATA dst) (PyArray_STRIDES dst) = inr it ->
    one_iter_sound (PyArray_NDIM dst) (PyArray_DIMS dst)
                   (PyArray_DATA dst) (PyArray_STRIDES dst) it.
Hypothesis two_sound :
  forall mask_data mask_strides it,
    PyArray_PrepareTwoRawArrayIter (PyArray_NDIM dst) (PyArray_DIMS dst)
      (PyArray_DATA dst) (PyArray_STRIDES dst) mask_data mask_strides = inr it ->
    two_iter_sound (PyArray_NDIM dst) (PyArray_DIMS dst)
                   (PyArray_DATA dst) (PyArray_STRIDES dst)
                   mask_data mask_strides it.

Lemma unmasked_no_elements (sd : PyArray_Descr) (s : Z) (w : World) :
  let r := raw_array_assign_scalar (PyArray_NDIM dst) (PyArray_DIMS dst)
             (PyArray_DESCR dst) (PyArray_DATA dst) (PyArray_STRIDES dst)
             sd s w in
  mem (snd r) = mem w /\
  exists tr,
    trace (snd r) = trace w ++ tr /\
    Forall (iterate_event sd s) tr /\
    (existsb failure_event tr = false -> err w = None -> fst r = 0) /\
    (fst r = 0 \/ fst r = -1).
Proof using zero_extent one_sound.
  intros r. subst r.
  destruct (PyArray_PrepareOneRawArrayIter (PyArray_NDIM dst) (PyArray_DIMS dst)
              (PyArray_DATA dst) (PyArray_STRIDES dst)) as [e|it] eqn:HP.
  - rewrite (unmasked_prepare_fails _ _ (PyArray_DESCR dst) _ _ sd s w _ HP).
    simpl. split; [reflexivity|]. eexists; split; [reflexivity|].
    split; [repeat constructor|]. split; [discriminate|auto].
  - destruct (PyArray_GetDTypeTransferFunction
                (check_alignment (PyArray_NDIM dst) (PyArray_DESCR dst)
                   (PyArray_DATA dst) (PyArray_STRIDES dst) sd s)
                0 (nth 0 (it_strides it) 0) sd (PyArray_DESCR dst) false)
      as [e|t] eqn:HG.
    + rewrite (unmasked_ctor_fails _ _ _ _ _ _ _ w _ _ HP HG). simpl.
      split; [reflexivity|]. rewrite <- app_assoc.
      eexists; split; [reflexivity|].
      split; [repeat constructor|]. split; [discriminate|auto].
    + destruct (unmasked_loop_runs _ _ _ _ _ _ _ w _ _ HP HG) as (Hs & Ht & Hr).
      rewrite (one_iter_sound_empty _ _ _ _ _ zero_extent (one_sound it eq_refl)) in Hs.
      simpl in Hs.
      rewrite (PyErr_Occurred_state _ _ Hs) in Hr.
      split; [unfold state_of in Hs; now inversion Hs|].
      eexists; split; [exact Ht|]. split; [|split].
      * repeat (apply Forall_app; split);
          auto using Forall_iterate_rows_one, Forall_iterate_begin,
                     Forall_iterate_end.
        all: repeat constructor.
      * intros _ He. rewrite Hr. unfold PyErr_Occurred. rewrite He.
        now rewrite andb_false_r.
      * rewrite Hr. destruct (needs_api t && PyErr_Occurred w); auto.
Qed.

Lemma masked_no_elements (sd : PyArray_Descr) (s : Z)
      (md : PyArray_Descr) (mask_data : Z) (mask_strides : list Z) (w : World) :
  let r := raw_array_wheremasked_assign_scalar
             (PyArray_NDIM dst) (PyArray_DIMS dst)
             (PyArray_DESCR dst) (PyArray_DATA dst) (PyArray_STRIDES dst)
             sd s md mask_data mask_strides w in
  mem (snd r) = mem w /\
  exists tr,
    trace (snd r) = trace w ++ tr /\
    Forall (iterate_event sd s) tr /\
    (existsb failure_event tr = false -> err w = None -> fst r = 0) /\
    (fst r = 0 \/ fst r = -1).
Proof using zero_extent two_sound.
  intros r. subst r.
  destruct (PyArray_PrepareTwoRawArrayIter (PyArray_NDIM dst) (PyArray_DIMS dst)
              (PyArray_DATA dst) (PyArray_STRIDES dst) mask_data mask_strides)
    as [e|it] eqn:HP.
  - rewrite (masked_prepare_fails _ _ (PyArray_DESCR dst) _ _ sd s md _ _ w _ HP).
    simpl. split; [reflexivity|]. eexists; split; [reflexivity|].
    split; [repeat constructor|]. split; [discriminate|auto].
  - destruct (PyArray_GetMaskedDTypeTransferFunction
                (check_alignment (PyArray_NDIM dst) (PyArray_DESCR dst)
                   (PyArray_DATA dst) (PyArray_STRIDES dst) sd s)
                0 (nth 0 (it2_stridesA it) 0) (nth 0 (it2_stridesB it) 0)
                sd (PyArray_DESCR dst) md false)
      as [e|t] eqn:HG.
    + rewrite (masked_ctor_fails _ _ _ _ _ _ _ _ _ _ w _ _ HP HG). simpl.
      split; [reflexivity|]. rewrite <- app_assoc.
      eexists; split; [reflexivity|].
      split; [repeat constructor|]. split; [discriminate|auto].
    + destruct (masked_loop_runs _ _ _ _ _ _ _ _ _ _ w _ _ HP HG)
        as (Hs & Ht & Hr).
      rewrite (two_iter_sound_empty _ _ _ _ _ _ _ zero_extent (two_sound _ _ _ HP))
        in Hs.
      simpl in Hs.
      rewrite (PyErr_Occurred_state _ _ Hs) in Hr.
      split; [unfold state_of in Hs; now inversion Hs|].
      eexists; split; [exact Ht|]. split; [|split].
      * repeat (apply Forall_app; split);
          auto using Forall_iterate_rows_two, Forall_iterate_begin,
                     Forall_iterate_end.
        all: repeat constructor.
      * intros _ He. rewrite Hr. unfold PyErr_Occurred. rewrite He.
        now rewrite andb_false_r.
      * rewrite Hr. destruct (needs_api t && PyErr_Occurred w); auto.
Qed.

Lemma assign_iterate_no_elements (sd : PyArray_Descr) (s : Z)
      (wheremask : option PyArrayObject) (w : World) :
  let r := assign_iterate dst false sd s wheremask w in
  mem (snd r) = mem w /\
  exists tr,
    trace (snd r) = trace w ++ tr /\
    Forall (iterate_event sd s) tr /\
    (existsb failure_event tr = false -> err w = None -> fst r = 0).
Proof using zero_extent one_sound two_sound.
  unfold assign_iterate. destruct wheremask as [wm|].
  - destruct (broadcast_strides _ _ _ _ _ _) as [e|ws].
    + simpl. split; [reflexivity|].
      exists [EvBroadcastStrides false]. split; [reflexivity|].
      split; [repeat constructor|discriminate].
    + destruct (masked_no_elements sd s (PyArray_DESCR wm) (PyArray_DATA wm) ws
                  (emit (EvBroadcastStrides true) w))
        as (Hm & tr & Ht & Hf & H0 & Hcode).
      destruct (raw_array_wheremasked_assign_scalar _ _ _ _ _ _ _ _ _ _ _)
        as [c w'].
      simpl in Hm, Ht, H0, Hcode.
      assert (E : snd (if c <? 0 then exit_fail false s w' else exit_ok false s w')
                  = w') by (destruct (c <? 0); reflexivity).
      cbv zeta. rewrite E. split; [assumption|].
      exists (EvBroadcastStrides true :: tr).
      split; [rewrite Ht, <- app_assoc; reflexivity|].
      split; [constructor; simpl; auto|].
      simpl. intros Hno He. rewrite (H0 Hno He). reflexivity.
  - destruct (unmasked_no_elements sd s w) as (Hm & tr & Ht & Hf & H0 & Hcode).
    destruct (raw_array_assign_scalar _ _ _ _ _ _ _ _) as [c w'].
    simpl in Hm, Ht, H0, Hcode.
    assert (E : snd (if c <? 0 then exit_fail false s w' else exit_ok false s w')
                = w') by (destruct (c <? 0); reflexivity).
    cbv zeta. rewrite E. split; [assumption|].
    exists tr. split; [assumption|]. split; [assumption|].
    intros Hno He. rewrite (H0 Hno He). reflexivity.
Qed.

End NoElements.

Lemma needs_staging_zero_size (dst : PyArrayObject) (sd : PyArray_Descr) (s : Z) :
  PyArray_SIZE dst = 0 -> needs_staging dst sd s = false.
Proof.
  intros H. unfold needs_staging. rewrite H. simpl.
  now rewrite andb_false_r.
Qed.

(** C10.  For a destination one of whose extents is 0 (so that its element
    count is 0), the normalisers walking only positions of the array they
    are given: the call first makes the writability check and, if it
    fails, returns -1 with the not-writable error and makes no other call;
    otherwise it makes the cast-safety check and, if that rejects, returns
    -1 with the type error and makes no other call; otherwise it goes to
    the iterate step with the caller's scalar, and returns 0 when no
    collaborator of that step reports failure and no error was pending on
    entry.  In every case no staging event occurs and memory is what it was
    on entry. *)
Theorem C10_zero_size_destination_checked_not_staged_not_written :
  forall dst src_dtype src_data wheremask casting w,
    let dd := PyArray_DESCR dst in
    let scalar := load_bytes (mem w) src_data (Z.to_nat (elsize src_dtype)) in
    let castable := can_cast_scalar_to src_dtype scalar dd casting in
    In 0 (firstn (PyArray_NDIM dst) (PyArray_DIMS dst)) ->
    (forall it,
        PyArray_PrepareOneRawArrayIter (PyArray_NDIM dst) (PyArray_DIMS dst)
          (PyArray_DATA dst) (PyArray_STRIDES dst) = inr it ->
        one_iter_sound (PyArray_NDIM dst) (PyArray_DIMS dst)
                       (PyArray_DATA dst) (PyArray_STRIDES dst) it) ->
    (forall mask_data mask_strides it,
        PyArray_PrepareTwoRawArrayIter (PyArray_NDIM dst) (PyArray_DIMS dst)
          (PyArray_DATA dst) (PyArray_STRIDES dst) mask_data mask_strides
          = inr it ->
        two_iter_sound (PyArray_NDIM dst) (PyArray_DIMS dst)
                       (PyArray_DATA dst) (PyArray_STRIDES dst)
                       mask_data mask_strides it) ->
    let r := PyArray_AssignRawScalar dst src_dtype src_data wheremask casting w in
    PyArray_SIZE dst = 0 /\
    mem (snd r) = mem w /\
    exists tr,
      trace (snd r) = trace w ++ tr /\
      existsb staging_event tr = false /\
      (writeable dst = false ->
       tr = [EvFailUnlessWriteable false] /\ fst r = -1 /\
       err (snd r) = Some (NotWriteableError "assignment destination")) /\
      (writeable dst = true -> castable = false ->
       tr = [EvFailUnlessWriteable true;
             EvCanCastScalarTo src_dtype scalar dd casting false] /\
       fst r = -1 /\
       err (snd r) = Some (PyExc_TypeError (cast_errmsg src_dtype dd casting))) /\
      (writeable dst = true -> castable = true ->
       exists tr_it,
         tr = EvFailUnlessWriteable true ::
              EvCanCastScalarTo src_dtype scalar dd casting true :: tr_it /\
         Forall (iterate_event src_dtype src_data) tr_it /\
         (existsb failure_event tr_it = false -> err w = None -> fst r = 0)).
Proof.
  intros dst src_dtype src_data wheremask casting w dd scalar castable
         H0 H1 H2 r.
  assert (Hsize : PyArray_SIZE dst = 0) by now apply multiply_list_zero.
  split; [assumption|].
  destruct (writeable dst) eqn:Hw.
  2:{ subst r. rewrite assign_not_writeable by assumption. simpl.
      split; [reflexivity|]. eexists; split; [reflexivity|].
      split; [reflexivity|]. split; [auto|]. split; intros; discriminate. }
  destruct castable eqn:Hc; subst castable.
  2:{ subst r. rewrite assign_cast_rejected by assumption. simpl.
      fold scalar dd. rewrite Hc, <- app_assoc.
      split; [reflexivity|]. eexists; split; [reflexivity|].
      split; [reflexivity|]. split; [intros; discriminate|].
      split; [auto|intros; discriminate]. }
  subst r. rewrite assign_checked by assumption.
  rewrite needs_staging_zero_size by assumption. fold scalar dd. rewrite Hc.
  set (w1 := emit _ _).
  destruct (assign_iterate_no_elements dst H0 H1 H2 src_dtype src_data
              wheremask w1) as (Hm & tr & Ht & Hf & Hok).
  split; [exact Hm|].
  exists (EvFailUnlessWriteable true ::
          EvCanCastScalarTo src_dtype scalar dd casting true :: tr).
  split; [rewrite Ht; unfold w1; simpl; now rewrite <- !app_assoc|].
  pose proof (iterate_events_no_heap _ _ _ Hf) as (_ & _ & Hst).
  split; [exact Hst|]. split; [intros; discriminate|].
  split; [intros; discriminate|].
  intros _ _. exists tr. split; [reflexivity|]. split; [assumption|].
  intros Hno He. now apply Hok.
Qed.


(* =================================================================== *)
(** *** What the write loops store, and where *)
(* =================================================================== *)

Lemma store_bytes_inside (bs : list byte) :
  forall m a k,
    (k < List.length bs)%nat ->
    store_bytes m a bs (a + Z.of_nat k) = nth k bs x00.
Proof.
  drop_unused.
  induction bs as [|b bs IH]; intros m a k Hk; simpl in *; [lia|].
  destruct k as [|k].
  - rewrite store_bytes_outside.
    + unfold store_byte. rewrite Z.add_0_r, Z.eqb_refl. reflexivity.
    + intros j Hj. simpl. lia.
  - replace (a + Z.of_nat (S k)) with (a + 1 + Z.of_nat k) by lia.
    apply IH. lia.
Qed.

Lemma load_bytes_ext (n : nat) :
  forall m m' a,
    (forall k, (k < n)%nat -> m (a + Z.of_nat k) = m' (a + Z.of_nat k)) ->
    load_bytes m a n = load_bytes m' a n.
Proof.
  drop_unused.
  induction n as [|n IH]; intros m m' a H; simpl; [reflexivity|].
  f_equal.
  - specialize (H O). rewrite Z.add_0_r in H. apply H. lia.
  - apply IH. intros k Hk.
    replace (a + 1 + Z.of_nat k) with (a + Z.of_nat (S k)) by lia.
    apply H. lia.
Qed.

Lemma load_bytes_nth (out : list byte) :
  forall m a,
    (forall k, (k < List.length out)%nat ->
               m (a + Z.of_nat k) = nth k out x00) ->
    load_bytes m a (List.length out) = out.
Proof.
  drop_unused.
  induction out as [|b out IH]; intros m a H; simpl; [reflexivity|].
  f_equal.
  - specialize (H O). rewrite Z.add_0_r in H. apply H. simpl. lia.
  - apply IH. intros k Hk.
    replace (a + 1 + Z.of_nat k) with (a + Z.of_nat (S k)) by lia.
    apply (H (S k)). simpl. lia.
Qed.

Lemma store_bytes_outside_slot (bs : list byte) (m : Z -> byte) (a x : Z) :
  outside_slot (List.length bs) a x -> store_bytes m a bs x = m x.
Proof.
  drop_unused.
  intros H. apply store_bytes_outside. intros k Hk.
  unfold outside_slot in H. lia.
Qed.

Section Stores.
Variables (t : Transfer) (src sz : Z) (n : nat).
Hypothesis width : fixed_width t sz n.

Let out (s : State) : list byte :=
  fst (convert t (load_bytes (fst s) src (Z.to_nat sz))).

Lemma out_length (s : State) : List.length (out s) = n.
Proof using width. apply width, load_bytes_length. Qed.

Lemma write_elem_frame (s : State) (a x : Z) :
  outside_slot n a x -> fst (write_elem t src sz s a) x = fst s x.
Proof using width.
  intros H. unfold write_elem; simpl.
  apply store_bytes_outside_slot. fold (out s). now rewrite out_length.
Qed.

Lemma write_elem_inside (s : State) (a : Z) (k : nat) :
  (k < n)%nat ->
  fst (write_elem t src sz s a) (a + Z.of_nat k) = nth k (out s) x00.
Proof using width.
  intros H. unfold write_elem; simpl.
  apply store_bytes_inside. fold (out s). now rewrite out_length.
Qed.

Lemma write_all_frame (l : list Z) :
  forall s x, outside_slots n l x -> fst (write_all t src sz l s) x = fst s x.
Proof using width.
  induction l as [|a l IH]; intros s x H; simpl; [reflexivity|].
  rewrite IH.
  - apply write_elem_frame. apply H. now left.
  - intros a' Ha'. apply H. now right.
Qed.

Lemma masked_write_all_frame (l : list (Z * Z)) :
  forall s x, outside_slots n (map fst l) x ->
              fst (masked_write_all t src sz l s) x = fst s x.
Proof using width.
  induction l as [|p l IH]; intros s x H; simpl; [reflexivity|].
  rewrite IH.
  - unfold masked_write_elem. destruct (npy_bool_true _); [|reflexivity].
    apply write_elem_frame. apply H. now left.
  - intros a' Ha'. apply H. now right.
Qed.

(** A source outside a slot reads the same before and after the slot is
    written. *)
Lemma source_outside (a : Z) (k : nat) :
  a + Z.of_nat n <= src \/ src + Z.of_nat (Z.to_nat sz) <= a ->
  (k < Z.to_nat sz)%nat ->
  outside_slot n a (src + Z.of_nat k).
Proof using Type.
  clear width out. drop_unused.
  unfold outside_slot. intros H Hk. lia.
Qed.

Lemma write_all_source (l : list Z) (s : State) :
  source_apart src sz n l ->
  load_bytes (fst (write_all t src sz l s)) src (Z.to_nat sz) =
  load_bytes (fst s) src (Z.to_nat sz).
Proof using width.
  intros Hs. apply load_bytes_ext. intros k Hk.
  apply write_all_frame. intros a Ha.
  apply source_outside; auto.
Qed.

Lemma masked_write_all_source (l : list (Z * Z)) (s : State) :
  source_apart src sz n (map fst l) ->
  load_bytes (fst (masked_write_all t src sz l s)) src (Z.to_nat sz) =
  load_bytes (fst s) src (Z.to_nat sz).
Proof using width.
  intros Hs. apply load_bytes_ext. intros k Hk.
  apply masked_write_all_frame. intros a Ha.
  apply source_outside; auto.
Qed.

Lemma apart_outside (a a' : Z) (k : nat) :
  a + Z.of_nat n <= a' \/ a' + Z.of_nat n <= a ->
  (k < n)%nat ->
  outside_slot n a' (a + Z.of_nat k).
Proof using Type.
  clear width out. drop_unused.
  unfold outside_slot. intros H Hk. lia.
Qed.

(** After the loop every visited slot holds the converted scalar. *)
Lemma write_all_value (l : list Z) :
  forall s,
    slots_apart n l -> source_apart src sz n l ->
    forall a k, In a l -> (k < n)%nat ->
      fst (write_all t src sz l s) (a + Z.of_nat k) = nth k (out s) x00.
Proof using width.
  induction l as [|a0 l IH]; intros s Hap Hsrc a k Ha Hk; [contradiction|].
  simpl.
  assert (Hap' : slots_apart n l)
    by (intros b b' Hb Hb'; apply Hap; now right).
  assert (Hsrc' : source_apart src sz n l)
    by (intros b Hb; apply Hsrc; now right).
  assert (Eout : out (write_elem t src sz s a0) = out s).
  { unfold out.
    change (write_elem t src sz s a0) with (write_all t src sz [a0] s).
    rewrite write_all_source; [reflexivity|].
    intros b [<-|[]]. apply Hsrc. now left. }
  destruct (in_dec Z.eq_dec a l) as [Hin|Hnin].
  - rewrite (IH _ Hap' Hsrc' a k Hin Hk). now rewrite Eout.
  - destruct Ha as [<-|Ha]; [|contradiction].
    rewrite write_all_frame.
    + now apply write_elem_inside.
    + intros b Hb.
      destruct (Hap a0 b (or_introl eq_refl) (or_intror Hb)) as [E|D].
      * subst b. contradiction.
      * now apply apart_outside.
Qed.

(** After the masked loop every visited slot holds the converted scalar
    if its mask byte was true, and what it held before if it was false. *)
Lemma masked_write_all_value (l : list (Z * Z)) :
  forall s,
    pairs_apart n l -> source_apart src sz n (map fst l) -> mask_apart n l ->
    forall p k, In p l -> (k < n)%nat ->
      fst (masked_write_all t src sz l s) (fst p + Z.of_nat k) =
      if npy_bool_true (fst s (snd p))
      then nth k (out s) x00
      else fst s (fst p + Z.of_nat k).
Proof using width.
  induction l as [|p0 l IH]; intros s Hap Hsrc Hmask p k Hp Hk; [contradiction|].
  simpl.
  assert (Hap' : pairs_apart n l)
    by (intros b b' Hb Hb'; apply Hap; now right).
  assert (Hsrc' : source_apart src sz n (map fst l))
    by (intros b Hb; apply Hsrc; now right).
  assert (Hmask' : mask_apart n l)
    by (intros b b' Hb Hb'; apply Hmask; now right).
  set (s1 := masked_write_elem t src sz s p0).
  assert (Eout : out s1 = out s).
  { unfold out.
    change s1 with (masked_write_all t src sz [p0] s).
    rewrite masked_write_all_source; [reflexivity|].
    intros b [<-|[]]. apply Hsrc. now left. }
  assert (Emask : forall q, In q (p0 :: l) -> fst s1 (snd q) = fst s (snd q)).
  { intros q Hq. unfold s1, masked_write_elem.
    destruct (npy_bool_true _); [|reflexivity].
    apply write_elem_frame. apply Hmask; [now left|assumption]. }
  assert (Hhead : forall q, q <> p0 -> In q (p0 :: l) -> forall j, (j < n)%nat ->
                    fst s1 (fst q + Z.of_nat j) = fst s (fst q + Z.of_nat j)).
  { intros q Hne Hq j Hj. unfold s1, masked_write_elem.
    destruct (npy_bool_true _); [|reflexivity].
    apply write_elem_frame.
    destruct (Hap q p0 Hq (or_introl eq_refl)) as [E|D]; [contradiction|].
    now apply apart_outside. }
  assert (Hdec : forall q q' : Z * Z, {q = q'} + {q <> q'})
    by (decide equality; apply Z.eq_dec).
  destruct (in_dec Hdec p l) as [Hin|Hnin].
  - rewrite (IH s1 Hap' Hsrc' Hmask' p k Hin Hk).
    rewrite (Emask p Hp), Eout.
    destruct (npy_bool_true (fst s (snd p))) eqn:Hb; [reflexivity|].
    destruct (Hdec p p0) as [->|Hne].
    + unfold s1, masked_write_elem. now rewrite Hb.
    + now apply Hhead.
  - destruct Hp as [<-|Hp]; [|contradiction].
    rewrite masked_write_all_frame.
    + unfold s1, masked_write_elem.
      destruct (npy_bool_true (fst s (snd p0))); [|reflexivity].
      now apply write_elem_inside.
    + intros b Hb. apply in_map_iff in Hb. destruct Hb as (q & <- & Hq).
      destruct (Hap p0 q (or_introl eq_refl) (or_intror Hq)) as [E|D].
      * subst q. contradiction.
      * now apply apart_outside.
Qed.

End Stores.


Lemma slot_dec (n : nat) (l : list Z) (x : Z) :
  (exists a k, In a l /\ (k < n)%nat /\ x = a + Z.of_nat k) \/
  outside_slots n l x.
Proof.
  drop_unused.
  induction l as [|a l [(a' & k & Ha & Hk & ->)|IH]].
  - right. intros a [].
  - left. exists a', k. simpl; auto.
  - destruct (Z_lt_dec x a) as [Hlt|Hge].
    + right. intros b [<-|Hb]; [left; lia | auto].
    + destruct (Z_le_dec (a + Z.of_nat n) x) as [Hle|Hgt].
      * right. intros b [<-|Hb]; [right; lia | auto].
      * left. exists a, (Z.to_nat (x - a)).
        split; [now left|]. split; lia.
Qed.

Lemma state_mem (w : World) (s : State) : state_of w = s -> mem w = fst s.
Proof. intros <-. reflexivity. Qed.

Lemma state_err (w : World) (s : State) : state_of w = s -> err w = snd s.
Proof. intros <-. reflexivity. Qed.

Section Loops.
Variables (t : Transfer) (src sz : Z) (n : nat).
Hypothesis width : fixed_width t sz n.

Let scalar_of (s : State) : list byte := load_bytes (fst s) src (Z.to_nat sz).

(** A conversion that raises nothing leaves the indicator alone. *)
Lemma write_all_err_quiet (l : list Z) :
  forall s,
    source_apart src sz n l ->
    snd (convert t (scalar_of s)) = None ->
    snd (write_all t src sz l s) = snd s.
Proof using width.
  induction l as [|a l IH]; intros s Hsrc Hq; simpl; [reflexivity|].
  assert (E : scalar_of (write_elem t src sz s a) = scalar_of s).
  { unfold scalar_of.
    change (write_elem t src sz s a) with (write_all t src sz [a] s).
    apply (write_all_source t src sz n width).
    intros b [<-|[]]. apply Hsrc. now left. }
  rewrite IH.
  - unfold write_elem; simpl. fold (scalar_of s). now rewrite Hq.
  - intros b Hb. apply Hsrc. now right.
  - now rewrite E.
Qed.

Lemma masked_write_all_err_quiet (l : list (Z * Z)) :
  forall s,
    source_apart src sz n (map fst l) ->
    snd (convert t (scalar_of s)) = None ->
    snd (masked_write_all t src sz l s) = snd s.
Proof using width.
  induction l as [|p l IH]; intros s Hsrc Hq; simpl; [reflexivity|].
  assert (E : scalar_of (masked_write_elem t src sz s p) = scalar_of s).
  { unfold scalar_of.
    change (masked_write_elem t src sz s p)
      with (masked_write_all t src sz [p] s).
    apply (masked_write_all_source t src sz n width).
    intros b [<-|[]]. apply Hsrc. now left. }
  rewrite IH.
  - unfold masked_write_elem.
    destruct (npy_bool_true _); [|reflexivity].
    unfold write_elem; simpl. fold (scalar_of s). now rewrite Hq.
  - intros b Hb. apply Hsrc. now right.
  - now rewrite E.
Qed.

(** What a visited slot holds after the loop, read back as bytes. *)
Lemma write_all_slot (l : list Z) (s : State) (a : Z) :
  slots_apart n l -> source_apart src sz n l -> In a l ->
  load_bytes (fst (write_all t src sz l s)) a n = fst (convert t (scalar_of s)).
Proof using width.
  intros Hap Hsrc Ha.
  assert (Hlen : List.length (fst (convert t (scalar_of s))) = n)
    by (apply width, load_bytes_length).
  rewrite <- Hlen at 1. apply load_bytes_nth. rewrite Hlen.
  intros k Hk. now apply (write_all_value t src sz n width).
Qed.

Lemma masked_write_all_slot (l : list (Z * Z)) (s : State) (p : Z * Z) :
  pairs_apart n l -> source_apart src sz n (map fst l) -> mask_apart n l ->
  In p l ->
  load_bytes (fst (masked_write_all t src sz l s)) (fst p) n =
  if npy_bool_true (fst s (snd p))
  then fst (convert t (scalar_of s))
  else load_bytes (fst s) (fst p) n.
Proof using width.
  intros Hap Hsrc Hmask Hp.
  assert (Hlen : List.length (fst (convert t (scalar_of s))) = n)
    by (apply width, load_bytes_length).
  pose proof (masked_write_all_value t src sz n width l s Hap Hsrc Hmask p)
    as Hv.
  destruct (npy_bool_true (fst s (snd p))).
  - rewrite <- Hlen at 1. apply load_bytes_nth. rewrite Hlen.
    intros k Hk. now apply Hv.
  - apply load_bytes_ext. intros k Hk. now apply Hv.
Qed.

(** A second pass over the same slots stores what is already there. *)
Lemma write_all_twice (l : list Z) (s : State) (x : Z) :
  slots_apart n l -> source_apart src sz n l ->
  fst (write_all t src sz l (write_all t src sz l s)) x =
  fst (write_all t src sz l s) x.
Proof using width.
  intros Hap Hsrc.
  destruct (slot_dec n l x) as [(a & k & Ha & Hk & ->)|Hout].
  - rewrite !(write_all_value t src sz n width l _ Hap Hsrc a k Ha Hk).
    now rewrite (write_all_source t src sz n width l s Hsrc).
  - now apply (write_all_frame t src sz n width).
Qed.

Lemma masked_write_all_twice (l : list (Z * Z)) (s : State) (x : Z) :
  pairs_apart n l -> source_apart src sz n (map fst l) -> mask_apart n l ->
  fst (masked_write_all t src sz l (masked_write_all t src sz l s)) x =
  fst (masked_write_all t src sz l s) x.
Proof using width.
  intros Hap Hsrc Hmask.
  destruct (slot_dec n (map fst l) x) as [(a & k & Ha & Hk & ->)|Hout].
  - apply in_map_iff in Ha. destruct Ha as (p & <- & Hp).
    rewrite (masked_write_all_value t src sz n width l _ Hap Hsrc Hmask p k Hp Hk).
    assert (Em : fst (masked_write_all t src sz l s) (snd p) = fst s (snd p)).
    { apply (masked_write_all_frame t src sz n width).
      intros b Hb. apply in_map_iff in Hb. destruct Hb as (q & <- & Hq).
      now apply Hmask. }
    rewrite Em.
    destruct (npy_bool_true (fst s (snd p))) eqn:Hb; [|reflexivity].
    rewrite (masked_write_all_value t src sz n width l s Hap Hsrc Hmask p k Hp Hk).
    rewrite Hb.
    now rewrite (masked_write_all_source t src sz n width l s Hsrc).
  - now apply (masked_write_all_frame t src sz n width).
Qed.

End Loops.


(* =================================================================== *)
(** *** Memory effect of the engines *)
(* =================================================================== *)

(** X1.  [raw_array_assign_scalar] stores nothing outside the destination:
    when the plan of the normaliser walks positions of the array only and
    the selected callback stores [n] bytes per element, a byte that lies
    in none of the [n]-byte slots of the destination array has on return
    the value it had on entry, whether the engine succeeds or fails. *)
Theorem X1_unmasked_engine_writes_only_destination_slots :
  forall ndim shape dst_dtype dst_data dst_strides src_dtype src_data w n x,
    let aligned :=
      check_alignment ndim dst_dtype dst_data dst_strides src_dtype src_data in
    (forall it,
        PyArray_PrepareOneRawArrayIter ndim shape dst_data dst_strides = inr it ->
        one_iter_sound ndim shape dst_data dst_strides it) ->
    (forall it t,
        PyArray_PrepareOneRawArrayIter ndim shape dst_data dst_strides = inr it ->
        PyArray_GetDTypeTransferFunction
          aligned 0 (nth 0 (it_strides it) 0) src_dtype dst_dtype false = inr t ->
        fixed_width t (elsize src_dtype) n) ->
    outside_slots n (array_addrs ndim shape dst_data dst_strides) x ->
    mem (snd (raw_array_assign_scalar ndim shape dst_dtype dst_data
                dst_strides src_dtype src_data w)) x = mem w x.
Proof.
  intros ndim shape dd dst_data dst_strides sd src_data w n x aligned
         Hsound Hwidth Hout.
  destruct (PyArray_PrepareOneRawArrayIter ndim shape dst_data dst_strides)
    as [e|it] eqn:HP.
  - rewrite (unmasked_prepare_fails _ _ dd _ _ sd src_data w _ HP). reflexivity.
  - destruct (PyArray_GetDTypeTransferFunction
                aligned 0 (nth 0 (it_strides it) 0) sd dd false)
      as [e|t] eqn:HG.
    + rewrite (unmasked_ctor_fails _ _ _ _ _ _ _ w _ _ HP HG). reflexivity.
    + destruct (unmasked_loop_runs _ _ _ _ _ _ _ w _ _ HP HG) as (Hs & _ & _).
      rewrite (state_mem _ _ Hs).
      apply (write_all_frame t src_data (elsize sd) n (Hwidth it t eq_refl HG)).
      intros a Ha. apply Hout. apply (Hsound it eq_refl). exact Ha.
Qed.

(** X2.  [raw_array_wheremasked_assign_scalar] stores nothing outside the
    destination either, whatever the mask holds: under the same two
    conditions a byte outside every [n]-byte slot of the destination array
    is unchanged on return, whether the engine succeeds or fails. *)
Theorem X2_masked_engine_writes_only_destination_slots :
  forall ndim shape dst_dtype dst_data dst_strides src_dtype src_data
         wheremask_dtype wheremask_data wheremask_strides w n x,
    let aligned :=
      check_alignment ndim dst_dtype dst_data dst_strides src_dtype src_data in
    (forall it,
        PyArray_PrepareTwoRawArrayIter ndim shape dst_data dst_strides
          wheremask_data wheremask_strides = inr it ->
        two_iter_sound ndim shape dst_data dst_strides
                       wheremask_data wheremask_strides it) ->
    (forall it t,
        PyArray_PrepareTwoRawArrayIter ndim shape dst_data dst_strides
          wheremask_data wheremask_strides = inr it ->
        PyArray_GetMaskedDTypeTransferFunction
          aligned 0 (nth 0 (it2_stridesA it) 0) (nth 0 (it2_stridesB it) 0)
          src_dtype dst_dtype wheremask_dtype false = inr t ->
        fixed_width t (elsize src_dtype) n) ->
    outside_slots n (array_addrs ndim shape dst_data dst_strides) x ->
    mem (snd (raw_array_wheremasked_assign_scalar ndim shape dst_dtype
                dst_data dst_strides src_dtype src_data wheremask_dtype
                wheremask_data wheremask_strides w)) x = mem w x.
Proof.
  intros ndim shape dd dst_data dst_strides sd src_data md mask_data
         mask_strides w n x aligned Hsound Hwidth Hout.
  destruct (PyArray_PrepareTwoRawArrayIter ndim shape dst_data dst_strides
                                           mask_data mask_strides)
    as [e|it] eqn:HP.
  - rewrite (masked_prepare_fails _ _ dd _ _ sd src_data md _ _ w _ HP).
    reflexivity.
  - destruct (PyArray_GetMaskedDTypeTransferFunction
                aligned 0 (nth 0 (it2_stridesA it) 0)
                (nth 0 (it2_stridesB it) 0) sd dd md false)
      as [e|t] eqn:HG.
    + rewrite (masked_ctor_fails _ _ _ _ _ _ _ _ _ _ w _ _ HP HG). reflexivity.
    + destruct (masked_loop_runs _ _ _ _ _ _ _ _ _ _ w _ _ HP HG)
        as (Hs & _ & _).
      rewrite (state_mem _ _ Hs).
      apply (masked_write_all_frame t src_data (elsize sd) n
               (Hwidth it t eq_refl HG)).
      intros a Ha. apply Hout.
      apply in_map_iff in Ha. destruct Ha as (p & <- & Hp).
      apply (Hsound it eq_refl) in Hp.
      unfold array_addr_pairs in Hp. apply in_map_iff in Hp.
      destruct Hp as (c & <- & Hc). simpl.
      unfold array_addrs. apply in_map_iff. now exists c.
Qed.


Lemma map_fst_array_addr_pairs (ndim : nat) (shape : list Z)
      (dataA : Z) (stridesA : list Z) (dataB : Z) (stridesB : list Z) :
  map fst (array_addr_pairs ndim shape dataA stridesA dataB stridesB) =
  array_addrs ndim shape dataA stridesA.
Proof.
  unfold array_addr_pairs, array_addrs. rewrite map_map. reflexivity.
Qed.

Lemma slots_apart_incl (n : nat) (l l' : list Z) :
  incl l l' -> slots_apart n l' -> slots_apart n l.
Proof. intros Hi Hap a a' Ha Ha'. apply Hap; apply Hi; assumption. Qed.

Lemma source_apart_incl (src sz : Z) (n : nat) (l l' : list Z) :
  incl l l' -> source_apart src sz n l' -> source_apart src sz n l.
Proof. intros Hi Hs a Ha. apply Hs, Hi, Ha. Qed.

Lemma pairs_apart_incl (n : nat) (l l' : list (Z * Z)) :
  incl l l' -> pairs_apart n l' -> pairs_apart n l.
Proof. intros Hi Hap p p' Hp Hp'. apply Hap; apply Hi; assumption. Qed.

Lemma mask_apart_incl (n : nat) (l l' : list (Z * Z)) :
  incl l l' -> mask_apart n l' -> mask_apart n l.
Proof. intros Hi Hap p p' Hp Hp'. apply Hap; apply Hi; assumption. Qed.

Lemma incl_map_fst (l l' : list (Z * Z)) :
  incl l l' -> incl (map fst l) (map fst l').
Proof.
  intros Hi a Ha. apply in_map_iff in Ha. destruct Ha as (p & <- & Hp).
  apply in_map, Hi, Hp.
Qed.

(** X3.  [raw_array_assign_scalar] assigns the scalar to every element:
    when the normaliser and the selector succeed, the plan walks exactly
    the positions of the destination array, the callback stores [n] bytes
    per element, distinct elements do not overlap and the scalar lies
    outside the destination, then on return every element of the
    destination holds the conversion of the scalar as it read on entry,
    and the scalar itself is unchanged.  If that conversion raises
    nothing, the error indicator is what it was on entry, and the engine
    returns 0 when it was clear. *)
Theorem X3_unmasked_engine_fills_every_element :
  forall ndim shape dst_dtype dst_data dst_strides src_dtype src_data w it t n,
    let aligned :=
      check_alignment ndim dst_dtype dst_data dst_strides src_dtype src_data in
    let addrs := array_addrs ndim shape dst_data dst_strides in
    let scalar := load_bytes (mem w) src_data (Z.to_nat (elsize src_dtype)) in
    let r := raw_array_assign_scalar ndim shape dst_dtype dst_data dst_strides
                                     src_dtype src_data w in
    PyArray_PrepareOneRawArrayIter ndim shape dst_data dst_strides = inr it ->
    PyArray_GetDTypeTransferFunction
      aligned 0 (nth 0 (it_strides it) 0) src_dtype dst_dtype false = inr t ->
    one_iter_sound ndim shape dst_data dst_strides it ->
    one_iter_complete ndim shape dst_data dst_strides it ->
    fixed_width t (elsize src_dtype) n ->
    slots_apart n addrs ->
    source_apart src_data (elsize src_dtype) n addrs ->
    (forall a, In a addrs ->
               load_bytes (mem (snd r)) a n = fst (convert t scalar)) /\
    load_bytes (mem (snd r)) src_data (Z.to_nat (elsize src_dtype)) = scalar /\
    (snd (convert t scalar) = None ->
     err (snd r) = err w /\ (err w = None -> fst r = 0)).
Proof.
  intros ndim shape dd dst_data dst_strides sd src_data w it t n
         aligned addrs scalar r HP HG Hsound Hcomplete Hwidth Hap Hsrc.
  destruct (unmasked_loop_runs _ _ _ _ _ _ _ w _ _ HP HG) as (Hs & _ & Hr).
  fold r in Hs, Hr.
  pose proof (slots_apart_incl _ _ _ Hsound Hap) as Hap'.
  pose proof (source_apart_incl _ _ _ _ _ Hsound Hsrc) as Hsrc'.
  rewrite (state_mem _ _ Hs).
  split; [|split].
  - intros a Ha.
    apply (write_all_slot t src_data (elsize sd) n Hwidth _ (state_of w) a
             Hap' Hsrc' (Hcomplete a Ha)).
  - apply (write_all_source t src_data (elsize sd) n Hwidth _ (state_of w) Hsrc').
  - intros Hq.
    assert (He : err (snd r) = err w).
    { rewrite (state_err _ _ Hs).
      apply (write_all_err_quiet t src_data (elsize sd) n Hwidth _ (state_of w)
               Hsrc' Hq). }
    split; [exact He|]. intros Hclear.
    rewrite Hr. unfold PyErr_Occurred. rewrite He, Hclear.
    now rewrite andb_false_r.
Qed.

(** X4.  [raw_array_wheremasked_assign_scalar] assigns the scalar where
    the mask is true and nowhere else: under the conditions of X3 for the
    (element, mask byte) pairs of the destination, and no mask byte lying
    inside a destination element, on return an element holds the
    conversion of the scalar if its mask byte was true on entry and what
    it held on entry if the mask byte was false; every mask byte and the
    scalar are unchanged.  If the conversion raises nothing, the error
    indicator is what it was on entry, and the engine returns 0 when it
    was clear. *)
Theorem X4_masked_engine_writes_exactly_where_mask_is_true :
  forall ndim shape dst_dtype dst_data dst_strides src_dtype src_data
         wheremask_dtype wheremask_data wheremask_strides w it t n,
    let aligned :=
      check_alignment ndim dst_dtype dst_data dst_strides src_dtype src_data in
    let pairs := array_addr_pairs ndim shape dst_data dst_strides
                                  wheremask_data wheremask_strides in
    let scalar := load_bytes (mem w) src_data (Z.to_nat (elsize src_dtype)) in
    let r := raw_array_wheremasked_assign_scalar ndim shape dst_dtype
               dst_data dst_strides src_dtype src_data wheremask_dtype
               wheremask_data wheremask_strides w in
    PyArray_PrepareTwoRawArrayIter ndim shape dst_data dst_strides
      wheremask_data wheremask_strides = inr it ->
    PyArray_GetMaskedDTypeTransferFunction
      aligned 0 (nth 0 (it2_stridesA it) 0) (nth 0 (it2_stridesB it) 0)
      src_dtype dst_dtype wheremask_dtype false = inr t ->
    two_iter_sound ndim shape dst_data dst_strides
                   wheremask_data wheremask_strides it ->
    two_iter_complete ndim shape dst_data dst_strides
                      wheremask_data wheremask_strides it ->
    fixed_width t (elsize src_dtype) n ->
    pairs_apart n pairs ->
    mask_apart n pairs ->
    source_apart src_data (elsize src_dtype) n (map fst pairs) ->
    (forall a m, In (a, m) pairs ->
                 load_bytes (mem (snd r)) a n =
                 if npy_bool_true (mem w m)
                 then fst (convert t scalar)
                 else load_bytes (mem w) a n) /\
    (forall a m, In (a, m) pairs -> mem (snd r) m = mem w m) /\
    load_bytes (mem (snd r)) src_data (Z.to_nat (elsize src_dtype)) = scalar /\
    (snd (convert t scalar) = None ->
     err (snd r) = err w /\ (err w = None -> fst r = 0)).
Proof.
  intros ndim shape dd dst_data dst_strides sd src_data md mask_data
         mask_strides w it t n aligned pairs scalar r
         HP HG Hsound Hcomplete Hwidth Hap Hmask Hsrc.
  destruct (masked_loop_runs _ _ _ _ _ _ _ _ _ _ w _ _ HP HG) as (Hs & _ & Hr).
  fold r in Hs, Hr.
  pose proof (pairs_apart_incl _ _ _ Hsound Hap) as Hap'.
  pose proof (mask_apart_incl _ _ _ Hsound Hmask) as Hmask'.
  pose proof (source_apart_incl _ _ _ _ _ (incl_map_fst _ _ Hsound) Hsrc)
    as Hsrc'.
  rewrite (state_mem _ _ Hs).
  split; [|split; [|split]].
  - intros a m Ha.
    apply (masked_write_all_slot t src_data (elsize sd) n Hwidth _ (state_of w)
             (a, m) Hap' Hsrc' Hmask' (Hcomplete _ Ha)).
  - intros a m Ha.
    apply (masked_write_all_frame t src_data (elsize sd) n Hwidth).
    intros b Hb. apply in_map_iff in Hb. destruct Hb as (q & <- & Hq).
    apply (Hmask' q (a, m) Hq (Hcomplete _ Ha)).
  - apply (masked_write_all_source t src_data (elsize sd) n Hwidth _
             (state_of w) Hsrc').
  - intros Hq.
    assert (He : err (snd r) = err w).
    { rewrite (state_err _ _ Hs).
      apply (masked_write_all_err_quiet t src_data (elsize sd) n Hwidth _
               (state_of w) Hsrc' Hq). }
    split; [exact He|]. intros Hclear.
    rewrite Hr. unfold PyErr_Occurred. rewrite He, Hclear.
    now rewrite andb_false_r.
Qed.

(** X5.  [raw_array_assign_scalar] is idempotent on memory: under the
    conditions of X1, distinct elements not overlapping and the scalar
    lying outside the destination, calling the engine a second time with
    the same arguments, on the world the first call returned, leaves every
    byte of memory as the first call left it. *)
Theorem X5_unmasked_engine_is_idempotent :
  forall ndim shape dst_dtype dst_data dst_strides src_dtype src_data w n x,
    let aligned :=
      check_alignment ndim dst_dtype dst_data dst_strides src_dtype src_data in
    let addrs := array_addrs ndim shape dst_data dst_strides in
    let run := raw_array_assign_scalar ndim shape dst_dtype dst_data
                                       dst_strides src_dtype src_data in
    (forall it,
        PyArray_PrepareOneRawArrayIter ndim shape dst_data dst_strides = inr it ->
        one_iter_sound ndim shape dst_data dst_strides it) ->
    (forall it t,
        PyArray_PrepareOneRawArrayIter ndim shape dst_data dst_strides = inr it ->
        PyArray_GetDTypeTransferFunction
          aligned 0 (nth 0 (it_strides it) 0) src_dtype dst_dtype false = inr t ->
        fixed_width t (elsize src_dtype) n) ->
    slots_apart n addrs ->
    source_apart src_data (elsize src_dtype) n addrs ->
    mem (snd (run (snd (run w)))) x = mem (snd (run w)) x.
Proof.
  intros ndim shape dd dst_data dst_strides sd src_data w n x aligned addrs
         run Hsound Hwidth Hap Hsrc. subst run.
  destruct (PyArray_PrepareOneRawArrayIter ndim shape dst_data dst_strides)
    as [e|it] eqn:HP.
  - rewrite !(unmasked_prepare_fails _ _ dd _ _ sd src_data _ _ HP).
    reflexivity.
  - destruct (PyArray_GetDTypeTransferFunction
                aligned 0 (nth 0 (it_strides it) 0) sd dd false)
      as [e|t] eqn:HG.
    + rewrite !(unmasked_ctor_fails _ _ _ _ _ _ _ _ _ _ HP HG). reflexivity.
    + destruct (unmasked_loop_runs _ _ _ _ _ _ _ w _ _ HP HG) as (Hs1 & _ & _).
      destruct (unmasked_loop_runs _ _ _ _ _ _ _
                  (snd (raw_array_assign_scalar ndim shape dd dst_data
                          dst_strides sd src_data w)) _ _ HP HG)
        as (Hs2 & _ & _).
      rewrite Hs1 in Hs2.
      rewrite (state_mem _ _ Hs2), (state_mem _ _ Hs1).
      apply (write_all_twice t src_data (elsize sd) n (Hwidth it t eq_refl HG)).
      * exact (slots_apart_incl _ _ _ (Hsound it eq_refl) Hap).
      * exact (source_apart_incl _ _ _ _ _ (Hsound it eq_refl) Hsrc).
Qed.

(** X6.  [raw_array_wheremasked_assign_scalar] is idempotent on memory
    under the conditions of X4: a second call with the same arguments, on
    the world the first call returned, leaves every byte of memory as the
    first call left it. *)
Theorem X6_masked_engine_is_idempotent :
  forall ndim shape dst_dtype dst_data dst_strides src_dtype src_data
         wheremask_dtype wheremask_data wheremask_strides w n x,
    let aligned :=
      check_alignment ndim dst_dtype dst_data dst_strides src_dtype src_data in
    let pairs := array_addr_pairs ndim shape dst_data dst_strides
                                  wheremask_data wheremask_strides in
    let run := raw_array_wheremasked_assign_scalar ndim shape dst_dtype
                 dst_data dst_strides src_dtype src_data wheremask_dtype
                 wheremask_data wheremask_strides in
    (forall it,
        PyArray_PrepareTwoRawArrayIter ndim shape dst_data dst_strides
          wheremask_data wheremask_strides = inr it ->
        two_iter_sound ndim shape dst_data dst_strides
                       wheremask_data wheremask_strides it) ->
    (forall it t,
        PyArray_PrepareTwoRawArrayIter ndim shape dst_data dst_strides
          wheremask_data wheremask_strides = inr it ->
        PyArray_GetMaskedDTypeTransferFunction
          aligned 0 (nth 0 (it2_stridesA it) 0) (nth 0 (it2_stridesB it) 0)
          src_dtype dst_dtype wheremask_dtype false = inr t ->
        fixed_width t (elsize src_dtype) n) ->
    pairs_apart n pairs ->
    mask_apart n pairs ->
    source_apart src_data (elsize src_dtype) n (map fst pairs) ->
    mem (snd (run (snd (run w)))) x = mem (snd (run w)) x.
Proof.
  intros ndim shape dd dst_data dst_strides sd src_data md mask_data
         mask_strides w n x aligned pairs run Hsound Hwidth Hap Hmask Hsrc.
  subst run.
  destruct (PyArray_PrepareTwoRawArrayIter ndim shape dst_data dst_strides
                                           mask_data mask_strides)
    as [e|it] eqn:HP.
  - rewrite !(masked_prepare_fails _ _ dd _ _ sd src_data md _ _ _ _ HP).
    reflexivity.
  - destruct (PyArray_GetMaskedDTypeTransferFunction
                aligned 0 (nth 0 (it2_stridesA it) 0)
                (nth 0 (it2_stridesB it) 0) sd dd md false)
      as [e|t] eqn:HG.
    + rewrite !(masked_ctor_fails _ _ _ _ _ _ _ _ _ _ _ _ _ HP HG).
      reflexivity.
    + destruct (masked_loop_runs _ _ _ _ _ _ _ _ _ _ w _ _ HP HG)
        as (Hs1 & _ & _).
      destruct (masked_loop_runs _ _ _ _ _ _ _ _ _ _
                  (snd (raw_array_wheremasked_assign_scalar ndim shape dd
                          dst_data dst_strides sd src_data md mask_data
                          mask_strides w)) _ _ HP HG)
        as (Hs2 & _ & _).
      rewrite Hs1 in Hs2.
      rewrite (state_mem _ _ Hs2), (state_mem _ _ Hs1).
      apply (masked_write_all_twice t src_data (elsize sd) n
               (Hwidth it t eq_refl HG)).
      * exact (pairs_apart_incl _ _ _ (Hsound it eq_refl) Hap).
      * exact (source_apart_incl _ _ _ _ _
                 (incl_map_fst _ _ (Hsound it eq_refl)) Hsrc).
      * exact (mask_apart_incl _ _ _ (Hsound it eq_refl) Hmask).
Qed.


(* =================================================================== *)
(** *** Failure reporting of the engines *)
(* =================================================================== *)

(** Return code and error indicator of [raw_array_assign_scalar], on
    every path. *)
Lemma unmasked_code (ndim : nat) (shape : list Z)
      (dst_dtype : PyArray_Descr) (dst_data : Z) (dst_strides : list Z)
      (src_dtype : PyArray_Descr) (src_data : Z) (w : World) :
  let r := raw_array_assign_scalar ndim shape dst_dtype dst_data dst_strides
                                   src_dtype src_data w in
  (fst r = 0 \/ fst r = -1) /\
  (fst r = -1 -> err (snd r) <> None) /\
  ((forall it t,
       PyArray_PrepareOneRawArrayIter ndim shape dst_data dst_strides = inr it ->
       PyArray_GetDTypeTransferFunction
         (check_alignment ndim dst_dtype dst_data dst_strides src_dtype src_data)
         0 (nth 0 (it_strides it) 0) src_dtype dst_dtype false = inr t ->
       unguarded_is_quiet t) ->
   err w = None -> fst r = 0 -> err (snd r) = None).
Proof.
  intros r. subst r.
  destruct (PyArray_PrepareOneRawArrayIter ndim shape dst_data dst_strides)
    as [e|it] eqn:HP.
  - rewrite (unmasked_prepare_fails _ _ dst_dtype _ _ src_dtype src_data w _ HP).
    simpl. repeat split; auto; intros; discriminate.
  - destruct (PyArray_GetDTypeTransferFunction
                (check_alignment ndim dst_dtype dst_data dst_strides
                                 src_dtype src_data)
                0 (nth 0 (it_strides it) 0) src_dtype dst_dtype false)
      as [e|t] eqn:HG.
    + rewrite (unmasked_ctor_fails _ _ _ _ _ _ _ w _ _ HP HG).
      simpl. repeat split; auto; intros; discriminate.
    + destruct (unmasked_loop_runs _ _ _ _ _ _ _ w _ _ HP HG) as (Hs & _ & Hr).
      apply state_err in Hs. unfold PyErr_Occurred in Hr.
      destruct (snd _) as [m' e' tr']. simpl in Hs, Hr. simpl snd. simpl err.
      rewrite Hr.
      split; [|split].
      * destruct (needs_api t), e'; simpl; auto.
      * destruct (needs_api t), e'; simpl; intros; discriminate.
      * intros Hquiet Hclear H0.
        destruct (needs_api t) eqn:Hn.
        -- destruct e'; simpl in H0; [discriminate|reflexivity].
        -- rewrite Hs.
           rewrite write_all_no_raise; [exact Hclear|].
           exact (Hquiet it t eq_refl HG Hn).
Qed.

(** Return code and error indicator of
    [raw_array_wheremasked_assign_scalar], on every path. *)
Lemma masked_code (ndim : nat) (shape : list Z)
      (dst_dtype : PyArray_Descr) (dst_data : Z) (dst_strides : list Z)
      (src_dtype : PyArray_Descr) (src_data : Z)
      (wheremask_dtype : PyArray_Descr) (wheremask_data : Z)
      (wheremask_strides : list Z) (w : World) :
  let r := raw_array_wheremasked_assign_scalar ndim shape dst_dtype dst_data
             dst_strides src_dtype src_data wheremask_dtype wheremask_data
             wheremask_strides w in
  (fst r = 0 \/ fst r = -1) /\
  (fst r = -1 -> err (snd r) <> None) /\
  ((forall it t,
       PyArray_PrepareTwoRawArrayIter ndim shape dst_data dst_strides
         wheremask_data wheremask_strides = inr it ->
       PyArray_GetMaskedDTypeTransferFunction
         (check_alignment ndim dst_dtype dst_data dst_strides src_dtype src_data)
         0 (nth 0 (it2_stridesA it) 0) (nth 0 (it2_stridesB it) 0)
         src_dtype dst_dtype wheremask_dtype false = inr t ->
       unguarded_is_quiet t) ->
   err w = None -> fst r = 0 -> err (snd r) = None).
Proof.
  intros r. subst r.
  destruct (PyArray_PrepareTwoRawArrayIter ndim shape dst_data dst_strides
                                           wheremask_data wheremask_strides)
    as [e|it] eqn:HP.
  - rewrite (masked_prepare_fails _ _ dst_dtype _ _ src_dtype src_data
               wheremask_dtype _ _ w _ HP).
    simpl. repeat split; auto; intros; discriminate.
  - destruct (PyArray_GetMaskedDTypeTransferFunction
                (check_alignment ndim dst_dtype dst_data dst_strides
                                 src_dtype src_data)
                0 (nth 0 (it2_stridesA it) 0) (nth 0 (it2_stridesB it) 0)
                src_dtype dst_dtype wheremask_dtype false)
      as [e|t] eqn:HG.
    + rewrite (masked_ctor_fails _ _ _ _ _ _ _ _ _ _ w _ _ HP HG).
      simpl. repeat split; auto; intros; discriminate.
    + destruct (masked_loop_runs _ _ _ _ _ _ _ _ _ _ w _ _ HP HG)
        as (Hs & _ & Hr).
      apply state_err in Hs. unfold PyErr_Occurred in Hr.
      destruct (snd _) as [m' e' tr']. simpl in Hs, Hr. simpl snd. simpl err.
      rewrite Hr.
      split; [|split].
      * destruct (needs_api t), e'; simpl; auto.
      * destruct (needs_api t), e'; simpl; intros; discriminate.
      * intros Hquiet Hclear H0.
        destruct (needs_api t) eqn:Hn.
        -- destruct e'; simpl in H0; [discriminate|reflexivity].
        -- rewrite Hs.
           rewrite masked_write_all_no_raise; [exact Hclear|].
           exact (Hquiet it t eq_refl HG Hn).
Qed.

(** X7.  In both engines, when the iteration normaliser reports failure
    the engine returns -1 at once: memory is what it was on entry, the
    normaliser's exception is the one pending, and the normaliser call is
    the only call the engine made - no transfer function is selected, no
    thread state is saved and nothing is written. *)
Theorem X7_normaliser_failure_aborts_before_selector :
  forall ndim shape dst_dtype dst_data dst_strides src_dtype src_data
         wheremask_dtype wheremask_data wheremask_strides w e,
    (PyArray_PrepareOneRawArrayIter ndim shape dst_data dst_strides = inl e ->
     let r := raw_array_assign_scalar ndim shape dst_dtype dst_data
                dst_strides src_dtype src_data w in
     fst r = -1 /\ mem (snd r) = mem w /\ err (snd r) = Some e /\
     trace (snd r) = trace w ++ [EvPrepareOneRawArrayIter false])
    /\
    (PyArray_PrepareTwoRawArrayIter ndim shape dst_data dst_strides
       wheremask_data wheremask_strides = inl e ->
     let r := raw_array_wheremasked_assign_scalar ndim shape dst_dtype
                dst_data dst_strides src_dtype src_data wheremask_dtype
                wheremask_data wheremask_strides w in
     fst r = -1 /\ mem (snd r) = mem w /\ err (snd r) = Some e /\
     trace (snd r) = trace w ++ [EvPrepareTwoRawArrayIter false]).
Proof.
  intros ndim shape dd dst_data dst_strides sd src_data md mask_data
         mask_strides w e.
  split; intros HP r; subst r.
  - rewrite (unmasked_prepare_fails _ _ dd _ _ sd src_data w _ HP).
    simpl. auto.
  - rewrite (masked_prepare_fails _ _ dd _ _ sd src_data md _ _ w _ HP).
    simpl. auto.
Qed.

(** X8.  Both engines keep the C-API convention for their result: they
    return 0 or -1, and never -1 without an exception pending.  Entered
    with a clear error indicator, and with a selected transfer function
    that raises only if it asked for guarded execution, they return 0
    only with the indicator still clear; so the result is 0 exactly when
    no exception is pending. *)
Theorem X8_engines_return_minus_one_exactly_with_exception_pending :
  forall ndim shape dst_dtype dst_data dst_strides src_dtype src_data
         wheremask_dtype wheremask_data wheremask_strides w,
    let aligned :=
      check_alignment ndim dst_dtype dst_data dst_strides src_dtype src_data in
    let ru := raw_array_assign_scalar ndim shape dst_dtype dst_data
                dst_strides src_dtype src_data w in
    let rm := raw_array_wheremasked_assign_scalar ndim shape dst_dtype
                dst_data dst_strides src_dtype src_data wheremask_dtype
                wheremask_data wheremask_strides w in
    ((fst ru = 0 \/ fst ru = -1) /\
     (fst ru = -1 -> err (snd ru) <> None) /\
     ((forall it t,
          PyArray_PrepareOneRawArrayIter ndim shape dst_data dst_strides
            = inr it ->
          PyArray_GetDTypeTransferFunction
            aligned 0 (nth 0 (it_strides it) 0) src_dtype dst_dtype false
            = inr t ->
          unguarded_is_quiet t) ->
      err w = None ->
      (fst ru = 0 <-> err (snd ru) = None)))
    /\
    ((fst rm = 0 \/ fst rm = -1) /\
     (fst rm = -1 -> err (snd rm) <> None) /\
     ((forall it t,
          PyArray_PrepareTwoRawArrayIter ndim shape dst_data dst_strides
            wheremask_data wheremask_strides = inr it ->
          PyArray_GetMaskedDTypeTransferFunction
            aligned 0 (nth 0 (it2_stridesA it) 0) (nth 0 (it2_stridesB it) 0)
            src_dtype dst_dtype wheremask_dtype false = inr t ->
          unguarded_is_quiet t) ->
      err w = None ->
      (fst rm = 0 <-> err (snd rm) = None))).
Proof.
  intros ndim shape dd dst_data dst_strides sd src_data md mask_data
         mask_strides w aligned ru rm.
  destruct (unmasked_code ndim shape dd dst_data dst_strides sd src_data w)
    as (U1 & U2 & U3).
  destruct (masked_code ndim shape dd dst_data dst_strides sd src_data
              md mask_data mask_strides w) as (M1 & M2 & M3).
  fold ru in U1, U2, U3. fold rm in M1, M2, M3.
  split; (split; [assumption|]; split; [assumption|]); intros Hq Hc; split.
  - now apply U3.
  - intros He. destruct U1 as [H|H]; [exact H|].
    apply U2 in H. contradiction.
  - now apply M3.
  - intros He. destruct M1 as [H|H]; [exact H|].
    apply M2 in H. contradiction.
Qed.


(* =================================================================== *)
(** *** The steps of [PyArray_AssignRawScalar] *)
(* =================================================================== *)

(** The iterate step without a mask: the result of the unconditional
    engine, then the release of an owned staging buffer. *)
Lemma assign_iterate_unmasked (dst : PyArrayObject) (al : bool)
      (sd : PyArray_Descr) (s : Z) (w : World) :
  let e := raw_array_assign_scalar (PyArray_NDIM dst) (PyArray_DIMS dst)
             (PyArray_DESCR dst) (PyArray_DATA dst) (PyArray_STRIDES dst)
             sd s w in
  let r := assign_iterate dst al sd s None w in
  fst r = (if fst e <? 0 then -1 else 0) /\
  state_of (snd r) = state_of (snd e) /\
  trace (snd r) = trace (snd e) ++ (if al then [EvFree s] else []).
Proof.
  intros e r. subst e r. unfold assign_iterate.
  destruct (raw_array_assign_scalar _ _ _ _ _ _ _ _) as [c w'].
  unfold exit_fail, exit_ok, PyArray_free.
  destruct (c <? 0) eqn:Hc, al; simpl; rewrite ?Hc, ?app_nil_r; auto.
Qed.

(** The iterate step with a mask whose strides broadcast. *)
Lemma assign_iterate_masked (dst wm : PyArrayObject) (al : bool)
      (sd : PyArray_Descr) (s : Z) (ws : list Z) (w : World) :
  broadcast_strides (PyArray_NDIM dst) (PyArray_DIMS dst)
                    (PyArray_NDIM wm) (PyArray_DIMS wm)
                    (PyArray_STRIDES wm) "where mask" = inr ws ->
  let e := raw_array_wheremasked_assign_scalar
             (PyArray_NDIM dst) (PyArray_DIMS dst)
             (PyArray_DESCR dst) (PyArray_DATA dst) (PyArray_STRIDES dst)
             sd s (PyArray_DESCR wm) (PyArray_DATA wm) ws
             (emit (EvBroadcastStrides true) w) in
  let r := assign_iterate dst al sd s (Some wm) w in
  fst r = (if fst e <? 0 then -1 else 0) /\
  state_of (snd r) = state_of (snd e) /\
  trace (snd r) = trace (snd e) ++ (if al then [EvFree s] else []).
Proof.
  intros Hb e r. subst e r. unfold assign_iterate. rewrite Hb.
  destruct (raw_array_wheremasked_assign_scalar _ _ _ _ _ _ _ _ _ _ _)
    as [c w'].
  unfold exit_fail, exit_ok, PyArray_free.
  destruct (c <? 0) eqn:Hc, al; simpl; rewrite ?Hc, ?app_nil_r; auto.
Qed.

(** The iterate step with a mask that does not broadcast. *)
Lemma assign_iterate_broadcast_fails (dst wm : PyArrayObject) (al : bool)
      (sd : PyArray_Descr) (s : Z) (e : PyErr) (w : World) :
  broadcast_strides (PyArray_NDIM dst) (PyArray_DIMS dst)
                    (PyArray_NDIM wm) (PyArray_DIMS wm)
                    (PyArray_STRIDES wm) "where mask" = inl e ->
  let r := assign_iterate dst al sd s (Some wm) w in
  fst r = -1 /\ mem (snd r) = mem w /\ err (snd r) = Some e /\
  trace (snd r) =
    trace w ++ [EvBroadcastStrides false] ++ (if al then [EvFree s] else []).
Proof.
  intros Hb r. subst r. unfold assign_iterate. rewrite Hb.
  unfold exit_fail, PyArray_free.
  destruct al; simpl; rewrite <- ?app_assoc; auto.
Qed.

(** A call either stops before the iterate step, with -1, an exception
    pending and nothing but set-up events in its trace, or it reaches the
    iterate step with the scalar it was given or with the staged one. *)
Lemma assign_cases (dst : PyArrayObject) (src_dtype : PyArray_Descr)
      (src_data : Z) (wheremask : option PyArrayObject)
      (casting : NPY_CASTING) (w : World) :
  let dd := PyArray_DESCR dst in
  let scalar := load_bytes (mem w) src_data (Z.to_nat (elsize src_dtype)) in
  let cast := PyArray_CastRawArrays 1 scalar 0 0 src_dtype dd false in
  let r := PyArray_AssignRawScalar dst src_dtype src_data wheremask casting w in
  (fst r = -1 /\ err (snd r) <> None /\
   (exists pre, trace (snd r) = trace w ++ pre /\
                Forall (fun e => setup_event e = true) pre) /\
   (mem (snd r) = mem w \/
    exists tmp al,
      needs_staging dst src_dtype src_data = true /\
      staging_target (elsize dd) tmp al /\
      mem (snd r) = store_bytes (mem w) tmp (fst cast)) /\
   (writeable dst = false \/
    can_cast_scalar_to src_dtype scalar dd casting = false \/
    needs_staging dst src_dtype src_data = true /\
    ((sizeof_scalarbuffer >=? to_size_t (elsize dd)) = false /\
     PyArray_malloc (to_size_t (elsize dd)) = None \/
     snd cast <> None)))
  \/
  (exists al sd' s' w1 pre,
      r = assign_iterate dst al sd' s' wheremask w1 /\
      trace w1 = trace w ++ pre /\
      Forall (fun e => setup_event e = true) pre /\
      err w1 = err w /\
      writeable dst = true /\
      can_cast_scalar_to src_dtype scalar dd casting = true /\
      ((needs_staging dst src_dtype src_data = false /\
        al = false /\ sd' = src_dtype /\ s' = src_data /\ mem w1 = mem w) \/
       (needs_staging dst src_dtype src_data = true /\
        staging_target (elsize dd) s' al /\ sd' = dd /\
        snd cast = None /\
        mem w1 = store_bytes (mem w) s' (fst cast)))).
Proof.
  intros dd scalar cast r.
  destruct (writeable dst) eqn:Hw.
  2:{ left. subst r. rewrite assign_not_writeable by assumption. simpl.
      split; [reflexivity|]. split; [discriminate|].
      split; [|split; [now left|now left]].
      eexists; split; [reflexivity|]. repeat constructor. }
  destruct (can_cast_scalar_to src_dtype scalar dd casting) eqn:Hc.
  2:{ left. subst r. rewrite assign_cast_rejected by assumption. simpl.
      split; [reflexivity|]. split; [discriminate|].
      split; [|split; [now left|right; now left]]. rewrite <- app_assoc.
      eexists; split; [reflexivity|]. repeat constructor. }
  subst r. rewrite assign_checked by assumption.
  fold dd scalar. rewrite Hc.
  set (w0 := emit _ (emit _ w)).
  assert (Hw0 : trace w0 = trace w ++
                  [EvFailUnlessWriteable true;
                   EvCanCastScalarTo src_dtype scalar dd casting true])
    by (unfold w0; simpl; now rewrite <- app_assoc).
  destruct (needs_staging dst src_dtype src_data) eqn:Hn.
  2:{ right. exists false, src_dtype, src_data, w0.
      eexists. split; [reflexivity|]. split; [exact Hw0|].
      split; [repeat constructor|]. split; [reflexivity|].
      split; [reflexivity|]. split; [reflexivity|]. left. auto. }
  unfold staging_buffer.
  destruct (sizeof_scalarbuffer >=? to_size_t (elsize dd)) eqn:Hfit.
  - unfold cast_scalar_into. cbn [mem emit w0]. fold scalar. fold cast.
    destruct (snd cast) as [e|] eqn:Hcast.
    + left. unfold exit_fail. simpl.
      split; [reflexivity|]. split; [discriminate|].
      split; [|split].
      * rewrite <- !app_assoc. eexists; split; [reflexivity|].
        repeat constructor.
      * right. exists scalarbuffer, false.
        split; [reflexivity|]. split; [left; auto|reflexivity].
      * right; right. split; [reflexivity|]. right. discriminate.
    + right. exists false, dd, scalarbuffer.
      eexists. eexists. split; [reflexivity|]. simpl.
      split; [rewrite <- !app_assoc; reflexivity|].
      split; [repeat constructor|]. split; [reflexivity|].
      split; [reflexivity|]. split; [reflexivity|].
      right. split; [reflexivity|]. split; [left; auto|]. auto.
  - destruct (PyArray_malloc (to_size_t (elsize dd))) as [p|] eqn:Hm.
    + unfold cast_scalar_into. cbn [mem emit w0]. fold scalar. fold cast.
      destruct (snd cast) as [e|] eqn:Hcast.
      * left. unfold exit_fail, PyArray_free. simpl.
        split; [reflexivity|]. split; [discriminate|].
        split; [|split].
        -- rewrite <- !app_assoc. eexists; split; [reflexivity|].
           repeat constructor.
        -- right. exists p, true.
           split; [reflexivity|]. split; [right; auto|reflexivity].
        -- right; right. split; [reflexivity|]. right. discriminate.
      * right. exists true, dd, p.
        eexists. eexists. split; [reflexivity|]. simpl.
        split; [rewrite <- !app_assoc; reflexivity|].
        split; [repeat constructor|]. split; [reflexivity|].
        split; [reflexivity|]. split; [reflexivity|].
        right. split; [reflexivity|]. split; [right; auto|]. auto.
    + left. unfold exit_fail. simpl.
      split; [reflexivity|]. split; [discriminate|].
      split; [|split; [now left|]].
      * rewrite <- !app_assoc. eexists; split; [reflexivity|].
        repeat constructor.
      * right; right. split; [reflexivity|]. left. auto.
Qed.


(** A run of [raw_array_assign_scalar] either fails before the loop, or
    performs the element writes of the plan. *)
Lemma unmasked_run_cases (ndim : nat) (shape : list Z)
      (dst_dtype : PyArray_Descr) (dst_data : Z) (dst_strides : list Z)
      (src_dtype : PyArray_Descr) (src_data : Z) (w : World) :
  let r := raw_array_assign_scalar ndim shape dst_dtype dst_data dst_strides
                                   src_dtype src_data w in
  (exists e, fst r = -1 /\ state_of (snd r) = (mem w, Some e)) \/
  (exists it t,
      PyArray_PrepareOneRawArrayIter ndim shape dst_data dst_strides = inr it /\
      PyArray_GetDTypeTransferFunction
        (check_alignment ndim dst_dtype dst_data dst_strides src_dtype src_data)
        0 (nth 0 (it_strides it) 0) src_dtype dst_dtype false = inr t /\
      state_of (snd r) =
        write_all t src_data (elsize src_dtype) (iter_one_addrs it) (state_of w) /\
      fst r = if needs_api t && PyErr_Occurred (snd r) then -1 else 0).
Proof.
  intros r. subst r.
  destruct (PyArray_PrepareOneRawArrayIter ndim shape dst_data dst_strides)
    as [e|it] eqn:HP.
  - left. exists e.
    rewrite (unmasked_prepare_fails _ _ dst_dtype _ _ src_dtype src_data w _ HP).
    auto.
  - destruct (PyArray_GetDTypeTransferFunction
                (check_alignment ndim dst_dtype dst_data dst_strides
                                 src_dtype src_data)
                0 (nth 0 (it_strides it) 0) src_dtype dst_dtype false)
      as [e|t] eqn:HG.
    + left. exists e.
      rewrite (unmasked_ctor_fails _ _ _ _ _ _ _ w _ _ HP HG). auto.
    + right. exists it, t.
      destruct (unmasked_loop_runs _ _ _ _ _ _ _ w _ _ HP HG) as (Hs & _ & Hr).
      auto.
Qed.

Lemma masked_run_cases (ndim : nat) (shape : list Z)
      (dst_dtype : PyArray_Descr) (dst_data : Z) (dst_strides : list Z)
      (src_dtype : PyArray_Descr) (src_data : Z)
      (wheremask_dtype : PyArray_Descr) (wheremask_data : Z)
      (wheremask_strides : list Z) (w : World) :
  let r := raw_array_wheremasked_assign_scalar ndim shape dst_dtype dst_data
             dst_strides src_dtype src_data wheremask_dtype wheremask_data
             wheremask_strides w in
  (exists e, fst r = -1 /\ state_of (snd r) = (mem w, Some e)) \/
  (exists it t,
      PyArray_PrepareTwoRawArrayIter ndim shape dst_data dst_strides
        wheremask_data wheremask_strides = inr it /\
      PyArray_GetMaskedDTypeTransferFunction
        (check_alignment ndim dst_dtype dst_data dst_strides src_dtype src_data)
        0 (nth 0 (it2_stridesA it) 0) (nth 0 (it2_stridesB it) 0)
        src_dtype dst_dtype wheremask_dtype false = inr t /\
      state_of (snd r) =
        masked_write_all t src_data (elsize src_dtype) (iter_two_addrs it)
                         (state_of w) /\
      fst r = if needs_api t && PyErr_Occurred (snd r) then -1 else 0).
Proof.
  intros r. subst r.
  destruct (PyArray_PrepareTwoRawArrayIter ndim shape dst_data dst_strides
                                           wheremask_data wheremask_strides)
    as [e|it] eqn:HP.
  - left. exists e.
    rewrite (masked_prepare_fails _ _ dst_dtype _ _ src_dtype src_data
               wheremask_dtype _ _ w _ HP).
    auto.
  - destruct (PyArray_GetMaskedDTypeTransferFunction
                (check_alignment ndim dst_dtype dst_data dst_strides
                                 src_dtype src_data)
                0 (nth 0 (it2_stridesA it) 0) (nth 0 (it2_stridesB it) 0)
                src_dtype dst_dtype wheremask_dtype false)
      as [e|t] eqn:HG.
    + left. exists e.
      rewrite (masked_ctor_fails _ _ _ _ _ _ _ _ _ _ w _ _ HP HG). auto.
    + right. exists it, t.
      destruct (masked_loop_runs _ _ _ _ _ _ _ _ _ _ w _ _ HP HG)
        as (Hs & _ & Hr).
      auto.
Qed.

(** The engines read memory and the error indicator of the world they
    are given, nothing else: worlds that agree on both give the same
    result, memory and indicator. *)
Lemma unmasked_state_indep (ndim : nat) (shape : list Z)
      (dst_dtype : PyArray_Descr) (dst_data : Z) (dst_strides : list Z)
      (src_dtype : PyArray_Descr) (src_data : Z) (w w' : World) :
  state_of w = state_of w' ->
  let run := raw_array_assign_scalar ndim shape dst_dtype dst_data dst_strides
                                     src_dtype src_data in
  fst (run w) = fst (run w') /\ state_of (snd (run w)) = state_of (snd (run w')).
Proof.
  intros E run. subst run.
  destruct (PyArray_PrepareOneRawArrayIter ndim shape dst_data dst_strides)
    as [e|it] eqn:HP.
  - rewrite !(unmasked_prepare_fails _ _ dst_dtype _ _ src_dtype src_data _ _ HP).
    simpl. split; [reflexivity|].
    unfold state_of in *. simpl. congruence.
  - destruct (PyArray_GetDTypeTransferFunction
                (check_alignment ndim dst_dtype dst_data dst_strides
                                 src_dtype src_data)
                0 (nth 0 (it_strides it) 0) src_dtype dst_dtype false)
      as [e|t] eqn:HG.
    + rewrite !(unmasked_ctor_fails _ _ _ _ _ _ _ _ _ _ HP HG).
      simpl. split; [reflexivity|].
      unfold state_of in *. simpl. congruence.
    + destruct (unmasked_loop_runs _ _ _ _ _ _ _ w _ _ HP HG) as (Hs & _ & Hr).
      destruct (unmasked_loop_runs _ _ _ _ _ _ _ w' _ _ HP HG)
        as (Hs' & _ & Hr').
      rewrite <- E in Hs'. rewrite <- Hs' in Hs.
      split; [|exact Hs].
      rewrite Hr, Hr'. now rewrite (PyErr_Occurred_state _ _ Hs).
Qed.

Lemma masked_state_indep (ndim : nat) (shape : list Z)
      (dst_dtype : PyArray_Descr) (dst_data : Z) (dst_strides : list Z)
      (src_dtype : PyArray_Descr) (src_data : Z)
      (wheremask_dtype : PyArray_Descr) (wheremask_data : Z)
      (wheremask_strides : list Z) (w w' : World) :
  state_of w = state_of w' ->
  let run := raw_array_wheremasked_assign_scalar ndim shape dst_dtype dst_data
               dst_strides src_dtype src_data wheremask_dtype wheremask_data
               wheremask_strides in
  fst (run w) = fst (run w') /\ state_of (snd (run w)) = state_of (snd (run w')).
Proof.
  intros E run. subst run.
  destruct (PyArray_PrepareTwoRawArrayIter ndim shape dst_data dst_strides
                                           wheremask_data wheremask_strides)
    as [e|it] eqn:HP.
  - rewrite !(masked_prepare_fails _ _ dst_dtype _ _ src_dtype src_data
                wheremask_dtype _ _ _ _ HP).
    simpl. split; [reflexivity|].
    unfold state_of in *. simpl. congruence.
  - destruct (PyArray_GetMaskedDTypeTransferFunction
                (check_alignment ndim dst_dtype dst_data dst_strides
                                 src_dtype src_data)
                0 (nth 0 (it2_stridesA it) 0) (nth 0 (it2_stridesB it) 0)
                src_dtype dst_dtype wheremask_dtype false)
      as [e|t] eqn:HG.
    + rewrite !(masked_ctor_fails _ _ _ _ _ _ _ _ _ _ _ _ _ HP HG).
      simpl. split; [reflexivity|].
      unfold state_of in *. simpl. congruence.
    + destruct (masked_loop_runs _ _ _ _ _ _ _ _ _ _ w _ _ HP HG)
        as (Hs & _ & Hr).
      destruct (masked_loop_runs _ _ _ _ _ _ _ _ _ _ w' _ _ HP HG)
        as (Hs' & _ & Hr').
      rewrite <- E in Hs'. rewrite <- Hs' in Hs.
      split; [|exact Hs].
      rewrite Hr, Hr'. now rewrite (PyErr_Occurred_state _ _ Hs).
Qed.

(** *** Counting and classifying the events of a run *)

Lemma save_count_app (l1 l2 : list Event) :
  save_count (l1 ++ l2) = (save_count l1 + save_count l2)%nat.
Proof. unfold save_count. now rewrite filter_app, length_app. Qed.

Lemma restore_count_app (l1 l2 : list Event) :
  restore_count (l1 ++ l2) = (restore_count l1 + restore_count l2)%nat.
Proof. unfold restore_count. now rewrite filter_app, length_app. Qed.

Lemma thread_counts_begin_end (b : bool) (n : Z) :
  save_count (begin_threads_events b n) = restore_count (end_threads_events b n) /\
  restore_count (begin_threads_events b n) = O /\
  save_count (end_threads_events b n) = O /\
  (save_count (begin_threads_events b n) <= 1)%nat.
Proof.
  unfold begin_threads_events, end_threads_events.
  destruct b; simpl; [auto|].
  destruct (n >? threads_threshold); simpl; auto.
Qed.

Lemma thread_counts_rows (rows : list Event) :
  Forall (fun r => thread_event r = false) rows ->
  save_count rows = O /\ restore_count rows = O.
Proof.
  induction 1 as [|r rows Hr _ [IH1 IH2]]; [auto|].
  unfold save_count, restore_count in *. simpl.
  destruct r; simpl in *; try discriminate; auto.
Qed.

Lemma thread_counts_loop (A B : Event) (rows : list Event) (b : bool) (n : Z) :
  thread_event A = false -> thread_event B = false ->
  Forall (fun r => thread_event r = false) rows ->
  let tr := [A; B] ++ begin_threads_events b n ++ rows ++
            end_threads_events b n ++ [EvAuxdataFree] in
  save_count tr = restore_count tr /\ (save_count tr <= 1)%nat.
Proof.
  intros HA HB Hrows tr. subst tr.
  destruct (thread_counts_begin_end b n) as (E1 & E2 & E3 & E4).
  destruct (thread_counts_rows rows Hrows) as (R1 & R2).
  destruct (thread_counts_rows [A; B]) as (P1 & P2);
    [repeat constructor; assumption|].
  rewrite !save_count_app, !restore_count_app.
  rewrite P1, P2, E2, E3, R1, R2, <- E1.
  change (save_count [EvAuxdataFree]) with O.
  change (restore_count [EvAuxdataFree]) with O.
  rewrite !Nat.add_0_r. auto.
Qed.

Lemma Forall_rows (P : Event -> bool) (f : list Z -> Event)
                  (cs : list (list Z)) :
  (forall c, P (f c) = false) ->
  Forall (fun r => P r = false) (map f cs).
Proof. intros H. induction cs; simpl; constructor; auto. Qed.

Lemma existsb_Forall_false (P : Event -> bool) (l : list Event) :
  Forall (fun r => P r = false) l -> existsb P l = false.
Proof.
  induction 1 as [|r l Hr _ IH]; [reflexivity|]. simpl. now rewrite Hr, IH.
Qed.

Lemma existsb_loop (P : Event -> bool) (A B : Event) (rows : list Event)
      (b : bool) (n : Z) :
  (forall m, P (EvBeginThreadsThresholded m) = false) ->
  P EvSaveThread = false -> P EvRestoreThread = false ->
  P EvAuxdataFree = false ->
  P A = false -> P B = false ->
  Forall (fun r => P r = false) rows ->
  existsb P ([A; B] ++ begin_threads_events b n ++ rows ++
             end_threads_events b n ++ [EvAuxdataFree]) = false.
Proof.
  intros Hb Hs Hr Hx HA HB Hrows.
  rewrite !existsb_app. simpl. rewrite HA, HB, Hx.
  rewrite (existsb_Forall_false P rows Hrows).
  unfold begin_threads_events, end_threads_events.
  destruct b; simpl; [reflexivity|].
  rewrite Hb. destruct (n >? threads_threshold); simpl; now rewrite ?Hs, ?Hr.
Qed.

(** The events of a run of the unconditional engine: none that belongs to
    the masked path, and as many lock reacquisitions as lock releases, at
    most one. *)
Lemma unmasked_trace_props (ndim : nat) (shape : list Z)
      (dst_dtype : PyArray_Descr) (dst_data : Z) (dst_strides : list Z)
      (src_dtype : PyArray_Descr) (src_data : Z) (w : World) (tr : list Event) :
  trace (snd (raw_array_assign_scalar ndim shape dst_dtype dst_data
                dst_strides src_dtype src_data w)) = trace w ++ tr ->
  existsb masked_only_event tr = false /\
  save_count tr = restore_count tr /\ (save_count tr <= 1)%nat.
Proof.
  intros H.
  destruct (PyArray_PrepareOneRawArrayIter ndim shape dst_data dst_strides)
    as [e|it] eqn:HP.
  - rewrite (unmasked_prepare_fails _ _ dst_dtype _ _ src_dtype src_data w _ HP)
      in H.
    simpl in H. apply app_inv_head in H. subst tr. simpl. auto.
  - destruct (PyArray_GetDTypeTransferFunction
                (check_alignment ndim dst_dtype dst_data dst_strides
                                 src_dtype src_data)
                0 (nth 0 (it_strides it) 0) src_dtype dst_dtype false)
      as [e|t] eqn:HG.
    + rewrite (unmasked_ctor_fails _ _ _ _ _ _ _ w _ _ HP HG) in H.
      simpl in H. rewrite <- app_assoc in H.
      apply app_inv_head in H. subst tr. simpl. auto.
    + destruct (unmasked_loop_runs _ _ _ _ _ _ _ w _ _ HP HG) as (_ & Ht & _).
      rewrite Ht in H. apply app_inv_head in H. subst tr.
      split.
      * apply existsb_loop; auto. now apply Forall_rows.
      * apply thread_counts_loop; auto. apply rows_one_not_thread.
Qed.

Lemma masked_trace_props (ndim : nat) (shape : list Z)
      (dst_dtype : PyArray_Descr) (dst_data : Z) (dst_strides : list Z)
      (src_dtype : PyArray_Descr) (src_data : Z)
      (wheremask_dtype : PyArray_Descr) (wheremask_data : Z)
      (wheremask_strides : list Z) (w : World) (tr : list Event) :
  trace (snd (raw_array_wheremasked_assign_scalar ndim shape dst_dtype
                dst_data dst_strides src_dtype src_data wheremask_dtype
                wheremask_data wheremask_strides w)) = trace w ++ tr ->
  existsb unmasked_only_event tr = false /\
  save_count tr = restore_count tr /\ (save_count tr <= 1)%nat.
Proof.
  intros H.
  destruct (PyArray_PrepareTwoRawArrayIter ndim shape dst_data dst_strides
                                           wheremask_data wheremask_strides)
    as [e|it] eqn:HP.
  - rewrite (masked_prepare_fails _ _ dst_dtype _ _ src_dtype src_data
               wheremask_dtype _ _ w _ HP) in H.
    simpl in H. apply app_inv_head in H. subst tr. simpl. auto.
  - destruct (PyArray_GetMaskedDTypeTransferFunction
                (check_alignment ndim dst_dtype dst_data dst_strides
                                 src_dtype src_data)
                0 (nth 0 (it2_stridesA it) 0) (nth 0 (it2_stridesB it) 0)
                src_dtype dst_dtype wheremask_dtype false)
      as [e|t] eqn:HG.
    + rewrite (masked_ctor_fails _ _ _ _ _ _ _ _ _ _ w _ _ HP HG) in H.
      simpl in H. rewrite <- app_assoc in H.
      apply app_inv_head in H. subst tr. simpl. auto.
    + destruct (masked_loop_runs _ _ _ _ _ _ _ _ _ _ w _ _ HP HG)
        as (_ & Ht & _).
      rewrite Ht in H. apply app_inv_head in H. subst tr.
      split.
      * apply existsb_loop; auto. now apply Forall_rows.
      * apply thread_counts_loop; auto. apply rows_two_not_thread.
Qed.

Lemma setup_events_props (pre : list Event) :
  Forall (fun e => setup_event e = true) pre ->
  save_count pre = O /\ restore_count pre = O /\
  existsb masked_only_event pre = false /\
  existsb unmasked_only_event pre = false /\
  existsb engine_call_event pre = false.
Proof.
  induction 1 as [|e pre He _ (I1 & I2 & I3 & I4 & I5)]; [simpl; auto|].
  unfold save_count, restore_count in *. simpl.
  rewrite I3, I4, I5.
  destruct e; simpl in *; try discriminate; auto.
Qed.


Lemma state_of_inv (w w' : World) :
  state_of w = state_of w' -> mem w = mem w' /\ err w = err w'.
Proof. unfold state_of. intros H. now inversion H. Qed.

(** Return code and error indicator of the iterate step. *)
Lemma assign_iterate_code (dst : PyArrayObject) (al : bool)
      (sd : PyArray_Descr) (s : Z) (wm : option PyArrayObject) (w : World) :
  let r := assign_iterate dst al sd s wm w in
  (fst r = 0 \/ fst r = -1) /\
  (fst r = -1 -> err (snd r) <> None) /\
  (selectors_well_behaved -> err w = None -> fst r = 0 -> err (snd r) = None).
Proof.
  intros r. subst r. destruct wm as [wm|].
  - destruct (broadcast_strides (PyArray_NDIM dst) (PyArray_DIMS dst)
                (PyArray_NDIM wm) (PyArray_DIMS wm) (PyArray_STRIDES wm)
                "where mask") as [e|ws] eqn:Hb.
    + destruct (assign_iterate_broadcast_fails dst wm al sd s e w Hb)
        as (H1 & _ & H3 & _).
      rewrite H1, H3. repeat split; auto; intros; discriminate.
    + destruct (assign_iterate_masked dst wm al sd s ws w Hb) as (H1 & H2 & _).
      apply state_of_inv in H2. destruct H2 as [_ H2].
      destruct (masked_code (PyArray_NDIM dst) (PyArray_DIMS dst)
                  (PyArray_DESCR dst) (PyArray_DATA dst) (PyArray_STRIDES dst)
                  sd s (PyArray_DESCR wm) (PyArray_DATA wm) ws
                  (emit (EvBroadcastStrides true) w)) as (M1 & M2 & M3).
      rewrite H1, H2.
      split; [|split].
      * destruct M1 as [E|E]; rewrite E; simpl; auto.
      * destruct M1 as [E|E]; rewrite E; simpl; [discriminate|].
        intros _. now apply M2.
      * intros [_ Hq] Hc.
        destruct M1 as [E|E]; rewrite E; simpl; [|discriminate].
        intros _. apply M3; auto.
        intros it t _ HG. exact (Hq _ _ _ _ _ _ _ _ _ HG).
  - destruct (assign_iterate_unmasked dst al sd s w) as (H1 & H2 & _).
    apply state_of_inv in H2. destruct H2 as [_ H2].
    destruct (unmasked_code (PyArray_NDIM dst) (PyArray_DIMS dst)
                (PyArray_DESCR dst) (PyArray_DATA dst) (PyArray_STRIDES dst)
                sd s w) as (M1 & M2 & M3).
    rewrite H1, H2.
    split; [|split].
    + destruct M1 as [E|E]; rewrite E; simpl; auto.
    + destruct M1 as [E|E]; rewrite E; simpl; [discriminate|].
      intros _. now apply M2.
    + intros [Hq _] Hc.
      destruct M1 as [E|E]; rewrite E; simpl; [|discriminate].
      intros _. apply M3; auto.
      intros it t _ HG. exact (Hq _ _ _ _ _ _ _ HG).
Qed.

(** The events of the iterate step, apart from the release of an owned
    staging buffer. *)
Lemma assign_iterate_trace_props (dst : PyArrayObject) (al : bool)
      (sd : PyArray_Descr) (s : Z) (wm : option PyArrayObject) (w : World) :
  exists tr,
    trace (snd (assign_iterate dst al sd s wm w)) =
      trace w ++ tr ++ (if al then [EvFree s] else []) /\
    save_count tr = restore_count tr /\ (save_count tr <= 1)%nat /\
    existsb (match wm with
             | None => masked_only_event
             | Some _ => unmasked_only_event
             end) tr = false /\
    (forall wm0 e,
        wm = Some wm0 ->
        broadcast_strides (PyArray_NDIM dst) (PyArray_DIMS dst)
                          (PyArray_NDIM wm0) (PyArray_DIMS wm0)
                          (PyArray_STRIDES wm0) "where mask" = inl e ->
        tr = [EvBroadcastStrides false]).
Proof.
  destruct wm as [wm|].
  - destruct (broadcast_strides (PyArray_NDIM dst) (PyArray_DIMS dst)
                (PyArray_NDIM wm) (PyArray_DIMS wm) (PyArray_STRIDES wm)
                "where mask") as [e|ws] eqn:Hb.
    + destruct (assign_iterate_broadcast_fails dst wm al sd s e w Hb)
        as (_ & _ & _ & Ht).
      exists [EvBroadcastStrides false]. split; [exact Ht|].
      repeat split; auto.
    + destruct (assign_iterate_masked dst wm al sd s ws w Hb) as (_ & _ & Ht).
      destruct (masked_events (PyArray_NDIM dst) (PyArray_DIMS dst)
                  (PyArray_DESCR dst) (PyArray_DATA dst) (PyArray_STRIDES dst)
                  sd s (PyArray_DESCR wm) (PyArray_DATA wm) ws
                  (emit (EvBroadcastStrides true) w)) as (tr & He & _).
      destruct (masked_trace_props _ _ _ _ _ _ _ _ _ _ _ _ He)
        as (P1 & P2 & P3).
      exists (EvBroadcastStrides true :: tr).
      split; [rewrite Ht, He; simpl; now rewrite <- !app_assoc|].
      split; [exact P2|]. split; [exact P3|]. split; [exact P1|].
      intros wm0 e Hw Hb'. injection Hw as <-. congruence.
  - destruct (assign_iterate_unmasked dst al sd s w) as (_ & _ & Ht).
    destruct (unmasked_events (PyArray_NDIM dst) (PyArray_DIMS dst)
                (PyArray_DESCR dst) (PyArray_DATA dst) (PyArray_STRIDES dst)
                sd s w) as (tr & He & _).
    destruct (unmasked_trace_props _ _ _ _ _ _ _ _ _ He) as (P1 & P2 & P3).
    exists tr.
    split; [rewrite Ht, He; now rewrite <- !app_assoc|].
    split; [exact P2|]. split; [exact P3|]. split; [exact P1|].
    intros wm0 e Hw. discriminate Hw.
Qed.

(** The trace of a call: set-up events, then the events of the iterate
    step, then at most the release of the staging buffer. *)
Lemma assign_trace_split (dst : PyArrayObject) (src_dtype : PyArray_Descr)
      (src_data : Z) (wheremask : option PyArrayObject)
      (casting : NPY_CASTING) (w : World) :
  exists pre mid post,
    trace (snd (PyArray_AssignRawScalar dst src_dtype src_data wheremask
                                        casting w)) =
      trace w ++ pre ++ mid ++ post /\
    Forall (fun e => setup_event e = true) pre /\
    Forall (fun e => setup_event e = true) post /\
    save_count mid = restore_count mid /\ (save_count mid <= 1)%nat /\
    existsb (match wheremask with
             | None => masked_only_event
             | Some _ => unmasked_only_event
             end) mid = false /\
    (forall wm e,
        wheremask = Some wm ->
        broadcast_strides (PyArray_NDIM dst) (PyArray_DIMS dst)
                          (PyArray_NDIM wm) (PyArray_DIMS wm)
                          (PyArray_STRIDES wm) "where mask" = inl e ->
        existsb engine_call_event mid = false).
Proof.
  destruct (assign_cases dst src_dtype src_data wheremask casting w)
    as [(_ & _ & (pre & Ht & Hpre) & _)
       |(al & sd' & s' & w1 & pre & Hr & Hw1 & Hpre & _)].
  - exists pre, [], []. rewrite Ht, !app_nil_r.
    split; [reflexivity|]. split; [exact Hpre|]. split; [constructor|].
    split; [reflexivity|]. split; [simpl; auto|].
    split; [destruct wheremask; reflexivity|]. reflexivity.
  - rewrite Hr.
    destruct (assign_iterate_trace_props dst al sd' s' wheremask w1)
      as (tr & Ht & P1 & P2 & P3 & P4).
    exists pre, tr, (if al then [EvFree s'] else []).
    split; [rewrite Ht, Hw1; now rewrite <- !app_assoc|].
    split; [exact Hpre|].
    split; [destruct al; repeat constructor|].
    split; [exact P1|]. split; [exact P2|]. split; [exact P3|].
    intros wm e Hwm Hb. rewrite (P4 wm e Hwm Hb). reflexivity.
Qed.

(* =================================================================== *)
(** *** Properties of [PyArray_AssignRawScalar] as a whole *)
(* =================================================================== *)

(** X9.  [PyArray_AssignRawScalar] keeps the C-API convention for its
    result on every exit: it returns 0 or -1, and never -1 without an
    exception pending - the not-writable error, the cast [TypeError], the
    [MemoryError] of a failed allocation, or whatever the conversion, the
    mask broadcasting or an engine raised.  Entered with a clear error
    indicator, and with selectors whose transfer functions raise only if
    they asked for guarded execution, it returns 0 exactly when no
    exception is pending on return. *)
Theorem X9_assign_returns_minus_one_exactly_with_exception_pending :
  forall dst src_dtype src_data wheremask casting w,
    let r := PyArray_AssignRawScalar dst src_dtype src_data wheremask
                                     casting w in
    (fst r = 0 \/ fst r = -1) /\
    (fst r = -1 -> err (snd r) <> None) /\
    (selectors_well_behaved -> err w = None ->
     (fst r = 0 <-> err (snd r) = None)).
Proof.
  intros dst src_dtype src_data wheremask casting w r.
  destruct (assign_cases dst src_dtype src_data wheremask casting w)
    as [(H1 & H2 & _)
       |(al & sd' & s' & w1 & pre & Hr & _ & _ & He & _)];
    fold r in H1, H2 || fold r in Hr.
  - rewrite H1. repeat split; auto; intros; try discriminate; contradiction.
  - rewrite Hr.
    destruct (assign_iterate_code dst al sd' s' wheremask w1) as (C1 & C2 & C3).
    split; [exact C1|]. split; [exact C2|].
    intros Hq Hc. rewrite <- He in Hc. split; [now apply C3|].
    intros Hnone. destruct C1 as [E|E]; [exact E|].
    apply C2 in E. contradiction.
Qed.

(** X10.  The mask argument alone selects the engine: a call without a
    mask makes no call of the masked path (no mask broadcasting, no
    two-array normaliser, no masked selector, no masked callback), and a
    call with a mask makes no call of the unconditional path (no
    one-array normaliser, no plain selector, no plain callback). *)
Theorem X10_mask_argument_selects_the_engine :
  forall dst src_dtype src_data wheremask casting w,
    exists tr,
      trace (snd (PyArray_AssignRawScalar dst src_dtype src_data wheremask
                                          casting w)) = trace w ++ tr /\
      existsb (match wheremask with
               | None => masked_only_event
               | Some _ => unmasked_only_event
               end) tr = false.
Proof.
  intros dst src_dtype src_data wheremask casting w.
  destruct (assign_trace_split dst src_dtype src_data wheremask casting w)
    as (pre & mid & post & Ht & Hpre & Hpost & _ & _ & Hmid & _).
  exists (pre ++ mid ++ post). split; [exact Ht|].
  destruct (setup_events_props pre Hpre) as (_ & _ & A1 & A2 & _).
  destruct (setup_events_props post Hpost) as (_ & _ & B1 & B2 & _).
  rewrite !existsb_app, Hmid.
  destruct wheremask; now rewrite ?A1, ?A2, ?B1, ?B2.
Qed.

(** X11.  A mask whose shape does not broadcast to the destination makes
    the call fail before any engine work: the call returns -1 with an
    exception pending, and neither a normaliser, nor a selector, nor a
    callback is called.  When both checks pass and no staging is needed,
    the exception pending is the one [broadcast_strides] raised, memory is
    what it was on entry, and the calls made are the two checks and the
    broadcasting attempt. *)
Theorem X11_mask_that_does_not_broadcast_fails_before_the_engines :
  forall dst src_dtype src_data wm casting w e,
    let scalar := load_bytes (mem w) src_data (Z.to_nat (elsize src_dtype)) in
    let r := PyArray_AssignRawScalar dst src_dtype src_data (Some wm)
                                     casting w in
    broadcast_strides (PyArray_NDIM dst) (PyArray_DIMS dst)
                      (PyArray_NDIM wm) (PyArray_DIMS wm)
                      (PyArray_STRIDES wm) "where mask" = inl e ->
    fst r = -1 /\ err (snd r) <> None /\
    (exists tr, trace (snd r) = trace w ++ tr /\
                existsb engine_call_event tr = false) /\
    (writeable dst = true ->
     can_cast_scalar_to src_dtype scalar (PyArray_DESCR dst) casting = true ->
     needs_staging dst src_dtype src_data = false ->
     err (snd r) = Some e /\ mem (snd r) = mem w /\
     trace (snd r) =
       trace w ++
       [EvFailUnlessWriteable true;
        EvCanCastScalarTo src_dtype scalar (PyArray_DESCR dst) casting true;
        EvBroadcastStrides false]).
Proof.
  intros dst src_dtype src_data wm casting w e scalar r Hb.
  split; [|split; [|split]].
  - destruct (assign_cases dst src_dtype src_data (Some wm) casting w)
      as [(H1 & _)|(al & sd' & s' & w1 & pre & Hr & _)];
      fold r in H1 || fold r in Hr.
    + exact H1.
    + rewrite Hr.
      now destruct (assign_iterate_broadcast_fails dst wm al sd' s' e w1 Hb).
  - destruct (assign_cases dst src_dtype src_data (Some wm) casting w)
      as [(_ & H2 & _)|(al & sd' & s' & w1 & pre & Hr & _)];
      fold r in H2 || fold r in Hr.
    + exact H2.
    + rewrite Hr.
      destruct (assign_iterate_broadcast_fails dst wm al sd' s' e w1 Hb)
        as (_ & _ & H3 & _).
      rewrite H3. discriminate.
  - destruct (assign_trace_split dst src_dtype src_data (Some wm) casting w)
      as (pre & mid & post & Ht & Hpre & Hpost & _ & _ & _ & Hmid).
    fold r in Ht.
    exists (pre ++ mid ++ post). split; [exact Ht|].
    destruct (setup_events_props pre Hpre) as (_ & _ & _ & _ & A).
    destruct (setup_events_props post Hpost) as (_ & _ & _ & _ & B).
    rewrite !existsb_app, A, B, (Hmid wm e eq_refl Hb). reflexivity.
  - intros Hw Hc Hn. subst r scalar.
    rewrite assign_checked by assumption. rewrite Hn.
    set (scalar := load_bytes (mem w) src_data (Z.to_nat (elsize src_dtype)))
      in *.
    destruct (assign_iterate_broadcast_fails dst wm false src_dtype src_data e
                (emit (EvCanCastScalarTo src_dtype scalar (PyArray_DESCR dst)
                                         casting
                                         (can_cast_scalar_to src_dtype scalar
                                            (PyArray_DESCR dst) casting))
                      (emit (EvFailUnlessWriteable true) w)) Hb)
      as (_ & H2 & H3 & H4).
    split; [exact H3|]. split; [exact H2|].
    rewrite H4. simpl. rewrite Hc, <- !app_assoc. reflexivity.
Qed.

(** X12.  Every release of the interpreter lock is matched by a
    reacquisition before the function returns: in the trace of any call
    of [PyArray_AssignRawScalar], of [raw_array_assign_scalar] and of
    [raw_array_wheremasked_assign_scalar], whatever the outcome, the
    number of thread-state saves equals the number of restores, and it is
    at most one. *)
Theorem X12_every_lock_release_is_matched_by_a_reacquisition :
  forall dst src_dtype src_data wheremask casting
         ndim shape dst_dtype dst_data dst_strides
         wheremask_dtype wheremask_data wheremask_strides w,
    (exists tr,
        trace (snd (PyArray_AssignRawScalar dst src_dtype src_data wheremask
                                            casting w)) = trace w ++ tr /\
        save_count tr = restore_count tr /\ (save_count tr <= 1)%nat) /\
    (exists tr,
        trace (snd (raw_array_assign_scalar ndim shape dst_dtype dst_data
                      dst_strides src_dtype src_data w)) = trace w ++ tr /\
        save_count tr = restore_count tr /\ (save_count tr <= 1)%nat) /\
    (exists tr,
        trace (snd (raw_array_wheremasked_assign_scalar ndim shape dst_dtype
                      dst_data dst_strides src_dtype src_data wheremask_dtype
                      wheremask_data wheremask_strides w)) = trace w ++ tr /\
        save_count tr = restore_count tr /\ (save_count tr <= 1)%nat).
Proof.
  intros dst src_dtype src_data wheremask casting ndim shape dd dst_data
         dst_strides md mask_data mask_strides w.
  split; [|split].
  - destruct (assign_trace_split dst src_dtype src_data wheremask casting w)
      as (pre & mid & post & Ht & Hpre & Hpost & P1 & P2 & _).
    exists (pre ++ mid ++ post). split; [exact Ht|].
    destruct (setup_events_props pre Hpre) as (A1 & A2 & _).
    destruct (setup_events_props post Hpost) as (B1 & B2 & _).
    rewrite !save_count_app, !restore_count_app, A1, A2, B1, B2, <- P1.
    rewrite !Nat.add_0_r. auto.
  - destruct (unmasked_events ndim shape dd dst_data dst_strides
                src_dtype src_data w) as (tr & He & _).
    exists tr. split; [exact He|].
    now destruct (unmasked_trace_props _ _ _ _ _ _ _ _ _ He) as (_ & ? & ?).
  - destruct (masked_events ndim shape dd dst_data dst_strides
                src_dtype src_data md mask_data mask_strides w)
      as (tr & He & _).
    exists tr. split; [exact He|].
    now destruct (masked_trace_props _ _ _ _ _ _ _ _ _ _ _ _ He) as (_ & ? & ?).
Qed.


Lemma two_iter_sound_fst (ndim : nat) (shape : list Z)
      (dataA : Z) (stridesA : list Z) (dataB : Z) (stridesB : list Z)
      (it : TwoRawArrayIter) :
  two_iter_sound ndim shape dataA stridesA dataB stridesB it ->
  incl (map fst (iter_two_addrs it)) (array_addrs ndim shape dataA stridesA).
Proof.
  intros Hs. apply incl_map_fst in Hs.
  now rewrite map_fst_array_addr_pairs in Hs.
Qed.

Lemma load_store_bytes (m : Z -> byte) (a : Z) (bs : list byte) :
  load_bytes (store_bytes m a bs) a (List.length bs) = bs.
Proof.
  apply load_bytes_nth. intros k Hk. now apply store_bytes_inside.
Qed.

Lemma staging_target_unique (sz tmp tmp' : Z) (al al' : bool) :
  staging_target sz tmp al -> staging_target sz tmp' al' ->
  tmp = tmp' /\ al = al'.
Proof.
  unfold staging_target.
  intros [(F & -> & ->)|(F & M & ->)] [(F' & -> & ->)|(F' & M' & ->)];
    split; congruence.
Qed.

(** The iterate step stores nothing outside the destination. *)
Lemma assign_iterate_frame (dst : PyArrayObject) (al : bool)
      (sd : PyArray_Descr) (s : Z) (wm : option PyArrayObject) (w : World)
      (n : nat) (x : Z) :
  match wm with
  | None =>
    (forall it,
        PyArray_PrepareOneRawArrayIter (PyArray_NDIM dst) (PyArray_DIMS dst)
          (PyArray_DATA dst) (PyArray_STRIDES dst) = inr it ->
        one_iter_sound (PyArray_NDIM dst) (PyArray_DIMS dst)
                       (PyArray_DATA dst) (PyArray_STRIDES dst) it) /\
    (forall a ds t,
        PyArray_GetDTypeTransferFunction a 0 ds sd (PyArray_DESCR dst) false
          = inr t ->
        fixed_width t (elsize sd) n)
  | Some m =>
    (forall ws it,
        PyArray_PrepareTwoRawArrayIter (PyArray_NDIM dst) (PyArray_DIMS dst)
          (PyArray_DATA dst) (PyArray_STRIDES dst) (PyArray_DATA m) ws
          = inr it ->
        two_iter_sound (PyArray_NDIM dst) (PyArray_DIMS dst)
                       (PyArray_DATA dst) (PyArray_STRIDES dst)
                       (PyArray_DATA m) ws it) /\
    (forall a ds ms t,
        PyArray_GetMaskedDTypeTransferFunction
          a 0 ds ms sd (PyArray_DESCR dst) (PyArray_DESCR m) false = inr t ->
        fixed_width t (elsize sd) n)
  end ->
  outside_slots n (array_addrs (PyArray_NDIM dst) (PyArray_DIMS dst)
                               (PyArray_DATA dst) (PyArray_STRIDES dst)) x ->
  mem (snd (assign_iterate dst al sd s wm w)) x = mem w x.
Proof.
  destruct wm as [m|]; intros [Hsound Hwidth] Hout.
  - destruct (broadcast_strides (PyArray_NDIM dst) (PyArray_DIMS dst)
                (PyArray_NDIM m) (PyArray_DIMS m) (PyArray_STRIDES m)
                "where mask") as [e|ws] eqn:Hb.
    + destruct (assign_iterate_broadcast_fails dst m al sd s e w Hb)
        as (_ & Hm & _).
      now rewrite Hm.
    + destruct (assign_iterate_masked dst m al sd s ws w Hb) as (_ & Hs & _).
      apply state_of_inv in Hs. destruct Hs as [Hm _]. rewrite Hm.
      destruct (masked_run_cases (PyArray_NDIM dst) (PyArray_DIMS dst)
                  (PyArray_DESCR dst) (PyArray_DATA dst) (PyArray_STRIDES dst)
                  sd s (PyArray_DESCR m) (PyArray_DATA m) ws
                  (emit (EvBroadcastStrides true) w))
        as [(e & _ & Hs)|(it & t & HP & HG & Hs & _)];
        rewrite (state_mem _ _ Hs); [reflexivity|].
      apply (masked_write_all_frame t s (elsize sd) n (Hwidth _ _ _ t HG)).
      intros a Ha. apply Hout.
      exact (two_iter_sound_fst _ _ _ _ _ _ _ (Hsound ws it HP) a Ha).
  - destruct (assign_iterate_unmasked dst al sd s w) as (_ & Hs & _).
    apply state_of_inv in Hs. destruct Hs as [Hm _]. rewrite Hm.
    destruct (unmasked_run_cases (PyArray_NDIM dst) (PyArray_DIMS dst)
                (PyArray_DESCR dst) (PyArray_DATA dst) (PyArray_STRIDES dst)
                sd s w)
      as [(e & _ & Hs)|(it & t & HP & HG & Hs & _)];
      rewrite (state_mem _ _ Hs); [reflexivity|].
    apply (write_all_frame t s (elsize sd) n (Hwidth _ _ t HG)).
    intros a Ha. apply Hout. exact (Hsound it HP a Ha).
Qed.

(** X13.  [PyArray_AssignRawScalar] writes to the destination array and
    to its staging buffer, and nowhere else: when the normaliser's plan
    walks positions of the destination only and the selected callback
    stores [n] bytes per element, a byte that lies in none of the
    [n]-byte slots of the destination and, if staging is needed, outside
    the bytes the conversion leaves in the staging buffer, has on return
    the value it had on entry - on every exit, successful or not. *)
Theorem X13_assign_writes_only_destination_and_staging_buffer :
  forall dst src_dtype src_data wheremask casting w n x,
    let dd := PyArray_DESCR dst in
    let scalar := load_bytes (mem w) src_data (Z.to_nat (elsize src_dtype)) in
    let staged := fst (PyArray_CastRawArrays 1 scalar 0 0 src_dtype dd false) in
    let sd := if needs_staging dst src_dtype src_data then dd else src_dtype in
    match wheremask with
    | None =>
      (forall it,
          PyArray_PrepareOneRawArrayIter (PyArray_NDIM dst) (PyArray_DIMS dst)
            (PyArray_DATA dst) (PyArray_STRIDES dst) = inr it ->
          one_iter_sound (PyArray_NDIM dst) (PyArray_DIMS dst)
                         (PyArray_DATA dst) (PyArray_STRIDES dst) it) /\
      (forall a ds t,
          PyArray_GetDTypeTransferFunction a 0 ds sd dd false = inr t ->
          fixed_width t (elsize sd) n)
    | Some m =>
      (forall ws it,
          PyArray_PrepareTwoRawArrayIter (PyArray_NDIM dst) (PyArray_DIMS dst)
            (PyArray_DATA dst) (PyArray_STRIDES dst) (PyArray_DATA m) ws
            = inr it ->
          two_iter_sound (PyArray_NDIM dst) (PyArray_DIMS dst)
                         (PyArray_DATA dst) (PyArray_STRIDES dst)
                         (PyArray_DATA m) ws it) /\
      (forall a ds ms t,
          PyArray_GetMaskedDTypeTransferFunction
            a 0 ds ms sd dd (PyArray_DESCR m) false = inr t ->
          fixed_width t (elsize sd) n)
    end ->
    outside_slots n (array_addrs (PyArray_NDIM dst) (PyArray_DIMS dst)
                                 (PyArray_DATA dst) (PyArray_STRIDES dst)) x ->
    (forall tmp al,
        needs_staging dst src_dtype src_data = true ->
        staging_target (elsize dd) tmp al ->
        outside_slot (List.length staged) tmp x) ->
    mem (snd (PyArray_AssignRawScalar dst src_dtype src_data wheremask
                                      casting w)) x = mem w x.
Proof.
  intros dst src_dtype src_data wheremask casting w n x dd scalar staged sd
         Hcollab Hout Hbuf.
  destruct (assign_cases dst src_dtype src_data wheremask casting w)
    as [(_ & _ & _ & Hm & _)
       |(al & sd' & s' & w1 & pre & Hr & _ & _ & _ & _ & _ & Hk)].
  - destruct Hm as [Hm|(tmp & al & Hn & Ht & Hm)]; rewrite Hm; [reflexivity|].
    apply store_bytes_outside_slot. exact (Hbuf tmp al Hn Ht).
  - rewrite Hr.
    assert (Hw1 : mem w1 x = mem w x /\ sd' = sd).
    { destruct Hk as [(Hn & _ & -> & _ & Hm)|(Hn & Ht & -> & _ & Hm)];
        unfold sd; rewrite Hn, Hm; split; auto.
      apply store_bytes_outside_slot. exact (Hbuf s' al Hn Ht). }
    destruct Hw1 as [Hw1 ->]. rewrite <- Hw1.
    apply (assign_iterate_frame dst al sd s' wheremask w1 n x); assumption.
Qed.

(** X14.  When both checks pass and no staging is needed, the call is the
    engine run on the caller's own scalar: without a mask, the result,
    the final memory and the final error indicator are those of
    [raw_array_assign_scalar] called on the destination's shape, type,
    data and strides with the caller's scalar type and pointer; with a
    mask whose strides broadcast, they are those of
    [raw_array_wheremasked_assign_scalar] called with the mask's type and
    data and the broadcast strides. *)
Theorem X14_assign_without_staging_is_the_engine_on_the_callers_scalar :
  forall dst src_dtype src_data wheremask casting w,
    let dd := PyArray_DESCR dst in
    let scalar := load_bytes (mem w) src_data (Z.to_nat (elsize src_dtype)) in
    let r := PyArray_AssignRawScalar dst src_dtype src_data wheremask
                                     casting w in
    writeable dst = true ->
    can_cast_scalar_to src_dtype scalar dd casting = true ->
    needs_staging dst src_dtype src_data = false ->
    match wheremask with
    | None =>
      let e := raw_array_assign_scalar (PyArray_NDIM dst) (PyArray_DIMS dst)
                 dd (PyArray_DATA dst) (PyArray_STRIDES dst)
                 src_dtype src_data w in
      fst r = fst e /\ mem (snd r) = mem (snd e) /\ err (snd r) = err (snd e)
    | Some m =>
      forall ws,
        broadcast_strides (PyArray_NDIM dst) (PyArray_DIMS dst)
                          (PyArray_NDIM m) (PyArray_DIMS m)
                          (PyArray_STRIDES m) "where mask" = inr ws ->
        let e := raw_array_wheremasked_assign_scalar
                   (PyArray_NDIM dst) (PyArray_DIMS dst)
                   dd (PyArray_DATA dst) (PyArray_STRIDES dst)
                   src_dtype src_data
                   (PyArray_DESCR m) (PyArray_DATA m) ws w in
        fst r = fst e /\ mem (snd r) = mem (snd e) /\ err (snd r) = err (snd e)
    end.
Proof.
  intros dst src_dtype src_data wheremask casting w dd scalar r Hw Hc Hn.
  subst r. rewrite assign_checked by assumption. rewrite Hn.
  set (w0 := emit _ (emit _ w)).
  assert (E0 : state_of w0 = state_of w) by reflexivity.
  destruct wheremask as [m|].
  - intros ws Hb e.
    destruct (assign_iterate_masked dst m false src_dtype src_data ws w0 Hb)
      as (H1 & H2 & _).
    destruct (masked_state_indep (PyArray_NDIM dst) (PyArray_DIMS dst)
                dd (PyArray_DATA dst) (PyArray_STRIDES dst) src_dtype src_data
                (PyArray_DESCR m) (PyArray_DATA m) ws
                (emit (EvBroadcastStrides true) w0) w E0) as (I1 & I2).
    destruct (masked_code (PyArray_NDIM dst) (PyArray_DIMS dst)
                dd (PyArray_DATA dst) (PyArray_STRIDES dst) src_dtype src_data
                (PyArray_DESCR m) (PyArray_DATA m) ws w) as (C1 & _).
    fold e in I1, I2, C1. fold dd in H1, H2.
    apply state_of_inv in H2. destruct H2 as [Hm2 He2].
    apply state_of_inv in I2. destruct I2 as [Hm He].
    rewrite H1, Hm2, He2, I1, Hm, He.
    split; [|split; reflexivity].
    destruct C1 as [E|E]; rewrite E; reflexivity.
  - intros e.
    destruct (assign_iterate_unmasked dst false src_dtype src_data w0)
      as (H1 & H2 & _).
    destruct (unmasked_state_indep (PyArray_NDIM dst) (PyArray_DIMS dst)
                dd (PyArray_DATA dst) (PyArray_STRIDES dst) src_dtype src_data
                w0 w E0) as (I1 & I2).
    destruct (unmasked_code (PyArray_NDIM dst) (PyArray_DIMS dst)
                dd (PyArray_DATA dst) (PyArray_STRIDES dst) src_dtype src_data
                w) as (C1 & _).
    fold e in I1, I2, C1. fold dd in H1, H2.
    apply state_of_inv in H2. destruct H2 as [Hm2 He2].
    apply state_of_inv in I2. destruct I2 as [Hm He].
    rewrite H1, Hm2, He2, I1, Hm, He.
    split; [|split; reflexivity].
    destruct C1 as [E|E]; rewrite E; reflexivity.
Qed.


(** A call that passes both checks and whose staging, if needed, succeeds
    reaches the iterate step; the world it reaches it with has the entry
    indicator, and the entry memory with the converted scalar stored in
    the staging buffer. *)
Lemma assign_reaches_iterate (dst : PyArrayObject) (src_dtype : PyArray_Descr)
      (src_data : Z) (wheremask : option PyArrayObject)
      (casting : NPY_CASTING) (w : World) (tmp : Z) (al : bool) :
  let dd := PyArray_DESCR dst in
  let scalar := load_bytes (mem w) src_data (Z.to_nat (elsize src_dtype)) in
  let cast := PyArray_CastRawArrays 1 scalar 0 0 src_dtype dd false in
  let staged := needs_staging dst src_dtype src_data in
  writeable dst = true ->
  can_cast_scalar_to src_dtype scalar dd casting = true ->
  (staged = true -> staging_target (elsize dd) tmp al /\ snd cast = None) ->
  exists w1,
    PyArray_AssignRawScalar dst src_dtype src_data wheremask casting w =
      assign_iterate dst (if staged then al else false)
                     (if staged then dd else src_dtype)
                     (if staged then tmp else src_data) wheremask w1 /\
    state_of w1 =
      ((if staged then store_bytes (mem w) tmp (fst cast) else mem w), err w).
Proof.
  intros dd scalar cast staged Hw Hc Hst.
  destruct (assign_cases dst src_dtype src_data wheremask casting w)
    as [(_ & _ & _ & _ & Hcause)
       |(al' & sd' & s' & w1 & pre & Hr & _ & _ & He & _ & _ & Hk)].
  - exfalso. fold dd scalar cast in Hcause.
    destruct Hcause as [H|[H|(Hn & H)]]; [congruence..|].
    destruct (Hst Hn) as (Ht & Hcast).
    destruct H as [(Hfit & Hm)|H]; [|contradiction].
    destruct Ht as [(Hfit' & _)|(_ & Hm' & _)]; congruence.
  - exists w1. fold dd scalar cast in Hk. fold staged in Hk. rewrite Hr.
    destruct Hk as [(Hn & -> & -> & -> & Hm)|(Hn & Ht & -> & Hcast & Hm)];
      rewrite Hn in *.
    + split; [reflexivity|]. unfold state_of. now rewrite Hm, He.
    + destruct (Hst eq_refl) as (Ht' & _).
      destruct (staging_target_unique _ _ _ _ _ Ht Ht') as [-> ->].
      split; [reflexivity|]. unfold state_of. now rewrite Hm, He.
Qed.

(** X15.  When staging is needed and succeeds, the call is the engine run
    on the staged scalar: the conversion's output is stored at the
    staging buffer (and reads back from it when it has the destination's
    element size), and the result, the final memory and the final error
    indicator are those of the engine - [raw_array_assign_scalar] without
    a mask, [raw_array_wheremasked_assign_scalar] with a mask whose
    strides broadcast - called with the destination's own type as scalar
    type and the staging buffer as scalar pointer, on the entry world so
    updated. *)
Theorem X15_assign_with_staging_is_the_engine_on_the_staged_scalar :
  forall dst src_dtype src_data wheremask casting w tmp al,
    let dd := PyArray_DESCR dst in
    let scalar := load_bytes (mem w) src_data (Z.to_nat (elsize src_dtype)) in
    let cast := PyArray_CastRawArrays 1 scalar 0 0 src_dtype dd false in
    let staged_world := set_mem (store_bytes (mem w) tmp (fst cast)) w in
    let r := PyArray_AssignRawScalar dst src_dtype src_data wheremask
                                     casting w in
    writeable dst = true ->
    can_cast_scalar_to src_dtype scalar dd casting = true ->
    needs_staging dst src_dtype src_data = true ->
    staging_target (elsize dd) tmp al ->
    snd cast = None ->
    (List.length (fst cast) = Z.to_nat (elsize dd) ->
     load_bytes (mem staged_world) tmp (Z.to_nat (elsize dd)) = fst cast) /\
    match wheremask with
    | None =>
      let e := raw_array_assign_scalar (PyArray_NDIM dst) (PyArray_DIMS dst)
                 dd (PyArray_DATA dst) (PyArray_STRIDES dst)
                 dd tmp staged_world in
      fst r = fst e /\ mem (snd r) = mem (snd e) /\ err (snd r) = err (snd e)
    | Some m =>
      forall ws,
        broadcast_strides (PyArray_NDIM dst) (PyArray_DIMS dst)
                          (PyArray_NDIM m) (PyArray_DIMS m)
                          (PyArray_STRIDES m) "where mask" = inr ws ->
        let e := raw_array_wheremasked_assign_scalar
                   (PyArray_NDIM dst) (PyArray_DIMS dst)
                   dd (PyArray_DATA dst) (PyArray_STRIDES dst)
                   dd tmp (PyArray_DESCR m) (PyArray_DATA m) ws
                   staged_world in
        fst r = fst e /\ mem (snd r) = mem (snd e) /\ err (snd r) = err (snd e)
    end.
Proof.
  intros dst src_dtype src_data wheremask casting w tmp al dd scalar cast
         staged_world r Hw Hc Hn Ht Hcast.
  split.
  { intros Hlen. rewrite <- Hlen. apply load_store_bytes. }
  destruct (assign_reaches_iterate dst src_dtype src_data wheremask casting w
              tmp al Hw Hc (fun _ => conj Ht Hcast)) as (w1 & Hr & E1).
  fold r in Hr. rewrite Hn in Hr, E1. fold dd scalar cast in E1.
  assert (E0 : state_of w1 = state_of staged_world) by exact E1.
  rewrite Hr. fold dd.
  destruct wheremask as [m|].
  - intros ws Hb e.
    destruct (assign_iterate_masked dst m al dd tmp ws w1 Hb) as (H1 & H2 & _).
    destruct (masked_state_indep (PyArray_NDIM dst) (PyArray_DIMS dst)
                dd (PyArray_DATA dst) (PyArray_STRIDES dst) dd tmp
                (PyArray_DESCR m) (PyArray_DATA m) ws
                (emit (EvBroadcastStrides true) w1) staged_world E0)
      as (I1 & I2).
    destruct (masked_code (PyArray_NDIM dst) (PyArray_DIMS dst)
                dd (PyArray_DATA dst) (PyArray_STRIDES dst) dd tmp
                (PyArray_DESCR m) (PyArray_DATA m) ws staged_world)
      as (C1 & _).
    fold e in I1, I2, C1. fold dd in H1, H2.
    apply state_of_inv in H2. destruct H2 as [Hm2 He2].
    apply state_of_inv in I2. destruct I2 as [Hm He].
    rewrite H1, Hm2, He2, I1, Hm, He.
    split; [|split; reflexivity].
    destruct C1 as [E|E]; rewrite E; reflexivity.
  - intros e.
    destruct (assign_iterate_unmasked dst al dd tmp w1) as (H1 & H2 & _).
    destruct (unmasked_state_indep (PyArray_NDIM dst) (PyArray_DIMS dst)
                dd (PyArray_DATA dst) (PyArray_STRIDES dst) dd tmp
                w1 staged_world E0) as (I1 & I2).
    destruct (unmasked_code (PyArray_NDIM dst) (PyArray_DIMS dst)
                dd (PyArray_DATA dst) (PyArray_STRIDES dst) dd tmp
                staged_world) as (C1 & _).
    fold e in I1, I2, C1. fold dd in H1, H2.
    apply state_of_inv in H2. destruct H2 as [Hm2 He2].
    apply state_of_inv in I2. destruct I2 as [Hm He].
    rewrite H1, Hm2, He2, I1, Hm, He.
    split; [|split; reflexivity].
    destruct C1 as [E|E]; rewrite E; reflexivity.
Qed.

(** X16.  A call without a mask assigns the scalar to every element of
    the destination.  Let the effective scalar be the caller's, or, when
    staging is needed, the conversion's output in the staging buffer
    (the conversion having succeeded and produced one destination
    element).  When both checks pass, the normaliser's plan walks exactly
    the positions of the destination, the selected callback stores [n]
    bytes per element, distinct elements do not overlap and the effective
    scalar lies outside the destination, then on return every element of
    the destination holds the callback's conversion of the effective
    scalar.  If that conversion raises nothing, the error indicator is
    what it was on entry, and the call returns 0 when it was clear. *)
Theorem X16_assign_without_mask_fills_every_element :
  forall dst src_dtype src_data casting w tmp al it t n,
    let dd := PyArray_DESCR dst in
    let scalar := load_bytes (mem w) src_data (Z.to_nat (elsize src_dtype)) in
    let cast := PyArray_CastRawArrays 1 scalar 0 0 src_dtype dd false in
    let staged := needs_staging dst src_dtype src_data in
    let sd := if staged then dd else src_dtype in
    let s := if staged then tmp else src_data in
    let bytes := if staged then fst cast else scalar in
    let addrs := array_addrs (PyArray_NDIM dst) (PyArray_DIMS dst)
                             (PyArray_DATA dst) (PyArray_STRIDES dst) in
    let r := PyArray_AssignRawScalar dst src_dtype src_data None casting w in
    writeable dst = true ->
    can_cast_scalar_to src_dtype scalar dd casting = true ->
    (staged = true ->
     staging_target (elsize dd) tmp al /\ snd cast = None /\
     List.length (fst cast) = Z.to_nat (elsize dd)) ->
    PyArray_PrepareOneRawArrayIter (PyArray_NDIM dst) (PyArray_DIMS dst)
      (PyArray_DATA dst) (PyArray_STRIDES dst) = inr it ->
    PyArray_GetDTypeTransferFunction
      (check_alignment (PyArray_NDIM dst) dd (PyArray_DATA dst)
                       (PyArray_STRIDES dst) sd s)
      0 (nth 0 (it_strides it) 0) sd dd false = inr t ->
    one_iter_sound (PyArray_NDIM dst) (PyArray_DIMS dst)
                   (PyArray_DATA dst) (PyArray_STRIDES dst) it ->
    one_iter_complete (PyArray_NDIM dst) (PyArray_DIMS dst)
                      (PyArray_DATA dst) (PyArray_STRIDES dst) it ->
    fixed_width t (elsize sd) n ->
    slots_apart n addrs ->
    source_apart s (elsize sd) n addrs ->
    (forall a, In a addrs ->
               load_bytes (mem (snd r)) a n = fst (convert t bytes)) /\
    (snd (convert t bytes) = None ->
     err (snd r) = err w /\ (err w = None -> fst r = 0)).
Proof.
  intros dst src_dtype src_data casting w tmp al it t n dd scalar cast staged
         sd s bytes addrs r Hw Hc Hst HP HG Hsound Hcomplete Hwidth Hap Hsrc.
  destruct (assign_reaches_iterate dst src_dtype src_data None casting w
              tmp al Hw Hc
              (fun H => match Hst H with conj A (conj B _) => conj A B end))
    as (w1 & Hr & E1).
  fold r in Hr. fold dd scalar cast staged in Hr, E1. fold sd s in Hr.
  destruct (assign_iterate_unmasked dst (if staged then al else false) sd s w1)
    as (H1 & H2 & _).
  rewrite <- Hr in H1, H2. fold dd in H1, H2.
  destruct (unmasked_loop_runs _ _ _ _ _ _ _ w1 _ _ HP HG) as (Hs & _ & Hc1).
  rewrite Hs in H2.
  assert (Hbytes : load_bytes (fst (state_of w1)) s (Z.to_nat (elsize sd))
                   = bytes).
  { rewrite E1. cbn [fst]. unfold s, sd, bytes.
    destruct staged.
    - destruct (Hst eq_refl) as (_ & _ & Hlen).
      rewrite <- Hlen. apply load_store_bytes.
    - reflexivity. }
  pose proof (slots_apart_incl _ _ _ Hsound Hap) as Hap'.
  pose proof (source_apart_incl _ _ _ _ _ Hsound Hsrc) as Hsrc'.
  split.
  - intros a Ha. rewrite (state_mem _ _ H2), <- Hbytes.
    apply (write_all_slot t s (elsize sd) n Hwidth _ (state_of w1) a
             Hap' Hsrc' (Hcomplete a Ha)).
  - intros Hq. rewrite <- Hbytes in Hq.
    pose proof (write_all_err_quiet t s (elsize sd) n Hwidth _ (state_of w1)
                  Hsrc' Hq) as He.
    rewrite <- Hs in He.
    assert (He1 : err w1 = err w) by (apply state_err in E1; exact E1).
    assert (Her : err (snd r) = err w).
    { rewrite (state_err _ _ H2), <- Hs. change (snd (state_of ?x)) with (err x) in He.
      rewrite <- He1. exact He. }
    split; [exact Her|]. intros Hclear.
    rewrite H1, Hc1. unfold PyErr_Occurred.
    change (snd (state_of ?x)) with (err x) in He.
    rewrite He, He1, Hclear, andb_false_r. reflexivity.
Qed.


(** X17.  A call with a mask assigns the scalar where the mask is true
    and nowhere else.  With the effective scalar of X16, a mask whose
    strides broadcast, and the conditions of X16 read for the (element,
    mask byte) pairs of the destination - no mask byte lying inside a
    destination element nor, when staging is needed, inside the staging
    buffer - on return an element of the destination holds the callback's
    conversion of the effective scalar if its mask byte was true on
    entry, and what it held on entry if the mask byte was false.  If the
    conversion raises nothing, the error indicator is what it was on
    entry, and the call returns 0 when it was clear. *)
Theorem X17_assign_with_mask_writes_exactly_where_mask_is_true :
  forall dst src_dtype src_data m casting w tmp al ws it t n,
    let dd := PyArray_DESCR dst in
    let scalar := load_bytes (mem w) src_data (Z.to_nat (elsize src_dtype)) in
    let cast := PyArray_CastRawArrays 1 scalar 0 0 src_dtype dd false in
    let staged := needs_staging dst src_dtype src_data in
    let sd := if staged then dd else src_dtype in
    let s := if staged then tmp else src_data in
    let bytes := if staged then fst cast else scalar in
    let pairs := array_addr_pairs (PyArray_NDIM dst) (PyArray_DIMS dst)
                   (PyArray_DATA dst) (PyArray_STRIDES dst)
                   (PyArray_DATA m) ws in
    let r := PyArray_AssignRawScalar dst src_dtype src_data (Some m)
                                     casting w in
    writeable dst = true ->
    can_cast_scalar_to src_dtype scalar dd casting = true ->
    (staged = true ->
     staging_target (elsize dd) tmp al /\ snd cast = None /\
     List.length (fst cast) = Z.to_nat (elsize dd)) ->
    (staged = true ->
     forall p, In p pairs -> outside_slot (Z.to_nat (elsize dd)) tmp (snd p)) ->
    broadcast_strides (PyArray_NDIM dst) (PyArray_DIMS dst)
                      (PyArray_NDIM m) (PyArray_DIMS m)
                      (PyArray_STRIDES m) "where mask" = inr ws ->
    PyArray_PrepareTwoRawArrayIter (PyArray_NDIM dst) (PyArray_DIMS dst)
      (PyArray_DATA dst) (PyArray_STRIDES dst) (PyArray_DATA m) ws = inr it ->
    PyArray_GetMaskedDTypeTransferFunction
      (check_alignment (PyArray_NDIM dst) dd (PyArray_DATA dst)
                       (PyArray_STRIDES dst) sd s)
      0 (nth 0 (it2_stridesA it) 0) (nth 0 (it2_stridesB it) 0)
      sd dd (PyArray_DESCR m) false = inr t ->
    two_iter_sound (PyArray_NDIM dst) (PyArray_DIMS dst)
                   (PyArray_DATA dst) (PyArray_STRIDES dst)
                   (PyArray_DATA m) ws it ->
    two_iter_complete (PyArray_NDIM dst) (PyArray_DIMS dst)
                      (PyArray_DATA dst) (PyArray_STRIDES dst)
                      (PyArray_DATA m) ws it ->
    fixed_width t (elsize sd) n ->
    pairs_apart n pairs ->
    mask_apart n pairs ->
    source_apart s (elsize sd) n (map fst pairs) ->
    (forall a k, In (a, k) pairs ->
                 load_bytes (mem (snd r)) a n =
                 if npy_bool_true (mem w k)
                 then fst (convert t bytes)
                 else load_bytes (mem w) a n) /\
    (snd (convert t bytes) = None ->
     err (snd r) = err w /\ (err w = None -> fst r = 0)).
Proof.
  intros dst src_dtype src_data m casting w tmp al ws it t n dd scalar cast
         staged sd s bytes pairs r Hw Hc Hst Hmbuf Hb HP HG Hsound Hcomplete
         Hwidth Hap Hmask Hsrc.
  destruct (assign_reaches_iterate dst src_dtype src_data (Some m) casting w
              tmp al Hw Hc
              (fun H => match Hst H with conj A (conj B _) => conj A B end))
    as (w1 & Hr & E1).
  fold r in Hr. fold dd scalar cast staged in Hr, E1. fold sd s in Hr.
  destruct (assign_iterate_masked dst m (if staged then al else false) sd s
              ws w1 Hb) as (H1 & H2 & _).
  rewrite <- Hr in H1, H2. fold dd in H1, H2.
  destruct (masked_loop_runs _ _ _ _ _ _ _ _ _ _
              (emit (EvBroadcastStrides true) w1) _ _ HP HG)
    as (Hs & _ & Hc1).
  rewrite state_of_emit in Hs. rewrite Hs in H2.
  assert (Hbytes : load_bytes (fst (state_of w1)) s (Z.to_nat (elsize sd))
                   = bytes).
  { rewrite E1. cbn [fst]. unfold s, sd, bytes.
    destruct staged.
    - destruct (Hst eq_refl) as (_ & _ & Hlen).
      rewrite <- Hlen. apply load_store_bytes.
    - reflexivity. }
  pose proof (pairs_apart_incl _ _ _ Hsound Hap) as Hap'.
  pose proof (mask_apart_incl _ _ _ Hsound Hmask) as Hmask'.
  pose proof (source_apart_incl _ _ _ _ _ (incl_map_fst _ _ Hsound) Hsrc)
    as Hsrc'.
  split.
  - intros a k Ha. rewrite (state_mem _ _ H2), <- Hbytes.
    pose proof (masked_write_all_slot t s (elsize sd) n Hwidth _ (state_of w1)
                  (a, k) Hap' Hsrc' Hmask' (Hcomplete _ Ha)) as Hv.
    cbn [fst snd] in Hv. rewrite Hv. rewrite E1. cbn [fst].
    unfold s, sd in Hsrc. destruct staged eqn:Est; [|reflexivity].
    destruct (Hst eq_refl) as (_ & _ & Hlen).
    rewrite store_bytes_outside_slot
      by (rewrite Hlen; exact (Hmbuf eq_refl (a, k) Ha)).
    destruct (npy_bool_true (mem w k)); [reflexivity|].
    apply load_bytes_ext. intros j Hj.
    apply store_bytes_outside_slot. rewrite Hlen.
    assert (Hin : In a (map fst pairs)) by (apply (in_map fst _ _ Ha)).
    specialize (Hsrc a Hin). unfold outside_slot. lia.
  - intros Hq. rewrite <- Hbytes in Hq.
    pose proof (masked_write_all_err_quiet t s (elsize sd) n Hwidth _
                  (state_of w1) Hsrc' Hq) as He.
    rewrite <- Hs in He.
    change (snd (state_of ?x)) with (err x) in He.
    assert (He1 : err w1 = err w) by (apply state_err in E1; exact E1).
    assert (Her : err (snd r) = err w).
    { rewrite (state_err _ _ H2), <- Hs.
      change (snd (state_of ?x)) with (err x).
      rewrite <- He1. exact He. }
    split; [exact Her|]. intros Hclear.
    rewrite H1, Hc1. unfold PyErr_Occurred.
    rewrite He, He1, Hclear, andb_false_r. reflexivity.
Qed.



End ArrayAssignScalar.

(* ===================================================================== *)
(** ** Concrete runs *)
(* ===================================================================== *)

#[local] Set Warnings "-notation-for-abbreviation".

Local Notation demo_assign :=
  (PyArray_AssignRawScalar
     demo_prepare_one demo_prepare_two demo_get_transfer
     demo_get_masked_transfer demo_threshold demo_can_cast demo_equiv_types
     demo_repr demo_casting_to_string demo_malloc demo_scalarbuffer
     demo_cast_raw demo_broadcast_strides).

Local Notation demo_assign_with get getm malloc cast :=
  (PyArray_AssignRawScalar
     demo_prepare_one demo_prepare_two get getm demo_threshold demo_can_cast
     demo_equiv_types demo_repr demo_casting_to_string malloc
     demo_scalarbuffer cast demo_broadcast_strides).

Local Notation demo_unmasked :=
  (raw_array_assign_scalar demo_prepare_one demo_get_transfer demo_threshold).

Local Notation demo_masked :=
  (raw_array_wheremasked_assign_scalar
     demo_prepare_two demo_get_masked_transfer demo_threshold).

(** C1, as stated, fails on a read-only destination: the scalar -1 (int8)
    is rejected by the cast-safety predicate for a uint8 destination under
    [safe], yet the call fails with the not-writable error, not with a
    type error. *)
Lemma C1_counterexample_read_only_destination :
  let dst := demo_array demo_uint8 3 300 false in
  let w := demo_world xff [x00; x00] in
  let r := demo_assign dst demo_int8 100 None NPY_SAFE_CASTING w in
  demo_can_cast demo_int8
    (load_bytes (mem w) 100 (Z.to_nat (elsize demo_int8)))
    (PyArray_DESCR dst) NPY_SAFE_CASTING = false /\
  fst r = -1 /\
  err (snd r) = Some (NotWriteableError "assignment destination") /\
  (forall msg, err (snd r) <> Some (PyExc_TypeError msg)).
Proof.
  vm_compute. repeat split; intros; discriminate.
Qed.

(** The same call on a writable destination: the scenario of the spec
    (uint8 destination, negative scalar, [safe]). *)
Lemma C1_witness_negative_scalar_to_uint8 :
  let dst := demo_array demo_uint8 3 300 true in
  let w := demo_world xff [x00; x00] in
  let r := demo_assign dst demo_int8 100 None NPY_SAFE_CASTING w in
  fst r = -1 /\
  mem (snd r) = mem w /\
  err (snd r) =
    Some (PyExc_TypeError
            "Cannot cast scalar from dtype('int8') to dtype('uint8') according to the rule 'safe'") /\
  trace (snd r) =
    [EvFailUnlessWriteable true;
     EvCanCastScalarTo demo_int8 [xff] demo_uint8 NPY_SAFE_CASTING false].
Proof.
  intros dst w r.
  destruct (C1_rejected_cast_fails_and_writes_nothing
              demo_prepare_one demo_prepare_two demo_get_transfer
              demo_get_masked_transfer demo_threshold demo_can_cast
              demo_equiv_types demo_repr demo_casting_to_string demo_malloc
              demo_scalarbuffer demo_cast_raw demo_broadcast_strides
              dst demo_int8 100 None NPY_SAFE_CASTING w eq_refl)
    as (Hret & Hmem & Hwr & _).
  destruct (Hwr eq_refl) as (Herr & Htr).
  split; [exact Hret|]. split; [exact Hmem|].
  split; [exact Herr|exact Htr].
Defined.

(** C2, as stated, fails on a read-only destination: the staging
    condition holds (int8 scalar, int16 destination of 3 elements, not
    reference-counted) and nothing is staged. *)
Lemma C2_counterexample_read_only_destination :
  let dst := demo_array demo_int16 3 300 false in
  let w := demo_world x05 [x00; x00] in
  let r := demo_assign dst demo_int8 100 None NPY_SAFE_CASTING w in
  (demo_equiv_types (PyArray_DESCR dst) demo_int8 = false /\
   PyArray_SIZE dst > 1 /\
   PyDataType_REFCHK (PyArray_DESCR dst) = false) /\
  needs_staging demo_equiv_types dst demo_int8 100 = true /\
  trace (snd r) = [EvFailUnlessWriteable false] /\
  existsb staging_event (trace (snd r)) = false.
Proof.
  vm_compute. repeat split; intros; discriminate.
Qed.

(** The same call on a writable destination is staged in the local
    array. *)
Lemma C2_witness_int8_into_int16 :
  let dst := demo_array demo_int16 3 300 true in
  let w := demo_world x05 [x00; x00] in
  let r := demo_assign dst demo_int8 100 None NPY_SAFE_CASTING w in
  needs_staging demo_equiv_types dst demo_int8 100 = true /\
  exists tr_it,
    Forall (iterate_event demo_int16 demo_scalarbuffer) tr_it /\
    exists ok,
      trace (snd r) =
        [EvFailUnlessWriteable true;
         EvCanCastScalarTo demo_int8 [x05] demo_int16 NPY_SAFE_CASTING true;
         EvCastRawArrays 100 demo_scalarbuffer demo_int8 demo_int16 ok] ++
        tr_it.
Proof.
  intros dst w r.
  destruct (C2_staging_exactly_when_needed_after_checks
              demo_prepare_one demo_prepare_two demo_get_transfer
              demo_get_masked_transfer demo_threshold demo_can_cast
              demo_equiv_types demo_repr demo_casting_to_string demo_malloc
              demo_scalarbuffer demo_cast_raw demo_broadcast_strides
              dst demo_int8 100 None NPY_SAFE_CASTING w)
    as (_ & tr & Ht & _ & _ & Hchecked).
  destruct (Hchecked eq_refl eq_refl) as (tr' & E & _ & Hfit & _).
  destruct (Hfit eq_refl eq_refl) as (ok & tr_it & E' & F & _).
  split; [reflexivity|].
  exists tr_it. split; [exact F|].
  exists ok. fold r in Ht. rewrite Ht, E, E'. reflexivity.
Defined.

(** The run itself: every slot of the int16 destination holds 5. *)
Example demo_staged_run :
  let dst := demo_array demo_int16 3 300 true in
  let r := demo_assign dst demo_int8 100 None NPY_SAFE_CASTING
                       (demo_world x05 [x00; x00]) in
  fst r = 0 /\
  map (mem (snd r)) [300; 301; 302; 303; 304; 305] =
    [x05; x00; x05; x00; x05; x00].
Proof. vm_compute. split; reflexivity. Qed.

(** The spec's unmasked scenario, with two-byte elements: a 3 x 4
    destination, the scalar 5 as int8, [safe] casting; each of the 12
    slots ends up holding 5. *)
Example demo_staged_run_3x4 :
  let dst := mkArray 2 [3; 4] [8; 2] 300 demo_int16 true in
  let r := demo_assign dst demo_int8 100 None NPY_SAFE_CASTING
                       (demo_world x05 []) in
  fst r = 0 /\
  map (fun i => (mem (snd r) (300 + 2 * i), mem (snd r) (300 + 2 * i + 1)))
      (Zrange 12) = repeat (x05, x00) 12.
Proof. vm_compute. split; reflexivity. Qed.

(** A 40-byte destination element does not fit the local array: the
    buffer comes from the allocator and is released once. *)
Lemma C3_witness_heap_buffer :
  let dst := demo_array demo_void40 2 300 true in
  let r := demo_assign dst demo_int8 100 None NPY_UNSAFE_CASTING
                       (demo_world x05 [x00; x00]) in
  exists tr,
    trace (snd r) = tr /\ heap_allocs tr = [4096] /\ frees tr = [4096] /\
    exists tr', tr = tr' ++ [EvFree 4096].
Proof.
  intros dst r.
  destruct (C3_heap_staging_buffer_freed_exactly_once
              demo_prepare_one demo_prepare_two demo_get_transfer
              demo_get_masked_transfer demo_threshold demo_can_cast
              demo_equiv_types demo_repr demo_casting_to_string demo_malloc
              demo_scalarbuffer demo_cast_raw demo_broadcast_strides
              dst demo_int8 100 None NPY_UNSAFE_CASTING
              (demo_world x05 [x00; x00]))
    as (tr & Ht & Hf & Ha & Hlast).
  assert (E : heap_allocs tr = [4096]) by exact Ha.
  exists tr. split; [exact Ht|]. split; [exact E|].
  split; [rewrite Hf; exact E|].
  apply Hlast. rewrite E. left; reflexivity.
Defined.

(** The heap buffer on each exit: success, failed conversion, failed
    unconditional iteration, failed mask broadcast, failed masked
    iteration; and a failed allocation, after which there is nothing to
    release. *)
Example demo_heap_buffer_on_every_exit :
  let dst := demo_array demo_void40 2 300 true in
  let w := demo_world x05 [x01; x01] in
  let mask := demo_array demo_bool 2 200 true in
  let mask2d := mkArray 2 [2; 1] [1; 1] 200 demo_bool true in
  let no_get := fun (_ : bool) (_ _ : Z) (_ _ : PyArray_Descr) (_ : bool) =>
                  inl (ExternalError 8) : PyErr + Transfer in
  let no_getm := fun (_ : bool) (_ _ _ : Z) (_ _ _ : PyArray_Descr) (_ : bool) =>
                   inl (ExternalError 7) : PyErr + Transfer in
  let no_cast := fun (_ : Z) (_ : list byte) (_ _ : Z) (_ _ : PyArray_Descr)
                     (_ : bool) => ([] : list byte, Some (ExternalError 9)) in
  let outcome r := (fst r, err (snd r), heap_allocs (trace (snd r)),
                    frees (trace (snd r))) in
  outcome (demo_assign_with demo_get_transfer demo_get_masked_transfer
             demo_malloc demo_cast_raw
             dst demo_int8 100 None NPY_UNSAFE_CASTING w)
    = (0, None, [4096], [4096]) /\
  outcome (demo_assign_with demo_get_transfer demo_get_masked_transfer
             demo_malloc no_cast
             dst demo_int8 100 None NPY_UNSAFE_CASTING w)
    = (-1, Some (ExternalError 9), [4096], [4096]) /\
  outcome (demo_assign_with no_get demo_get_masked_transfer
             demo_malloc demo_cast_raw
             dst demo_int8 100 None NPY_UNSAFE_CASTING w)
    = (-1, Some (ExternalError 8), [4096], [4096]) /\
  outcome (demo_assign_with demo_get_transfer demo_get_masked_transfer
             demo_malloc demo_cast_raw
             dst demo_int8 100 (Some mask2d) NPY_UNSAFE_CASTING w)
    = (-1, Some (ExternalError 3), [4096], [4096]) /\
  outcome (demo_assign_with demo_get_transfer no_getm
             demo_malloc demo_cast_raw
             dst demo_int8 100 (Some mask) NPY_UNSAFE_CASTING w)
    = (-1, Some (ExternalError 7), [4096], [4096]) /\
  outcome (demo_assign_with demo_get_transfer demo_get_masked_transfer
             demo_malloc_null demo_cast_raw
             dst demo_int8 100 None NPY_UNSAFE_CASTING w)
    = (-1, Some PyExc_MemoryError, [], []).
Proof. vm_compute. repeat split. Qed.

(** C4, as stated, fails when the mask overlaps the destination.  The
    mask is true at every position when the call is made; writing the
    scalar 0 into the destination's first row clears the mask's second
    row, so the masked engine leaves the destination's second row alone
    while the unconditional engine overwrites it.  The collaborators are
    as the amended statement wants them: same traversal, plan within the
    arrays, same transfer. *)
Lemma C4_counterexample_mask_overlaps_destination :
  let w := demo_overlap_world in
  let rm := demo_masked 2%nat [2; 2] demo_int8 300 [1; 2] demo_int8 100
                        demo_bool 200 [1; 100] w in
  let ru := demo_unmasked 2%nat [2; 2] demo_int8 300 [1; 2] demo_int8 100 w in
  mask_everywhere true (mem w) 2 [2; 2] 200 [1; 100] /\
  (exists it1 it2,
      demo_prepare_one 2 [2; 2] 300 [1; 2] = inr it1 /\
      demo_prepare_two 2 [2; 2] 300 [1; 2] 200 [1; 100] = inr it2 /\
      iter_one_addrs it1 = map fst (iter_two_addrs it2) /\
      two_iter_sound 2 [2; 2] 300 [1; 2] 200 [1; 100] it2) /\
  fst rm = 0 /\ fst ru = 0 /\
  map (mem (snd rm)) [300; 301; 302; 303] = [x00; x00; x09; x09] /\
  map (mem (snd ru)) [300; 301; 302; 303] = [x00; x00; x00; x00] /\
  mem (snd rm) <> mem (snd ru).
Proof.
  intros w rm ru.
  split.
  { intros a H. vm_compute in H.
    destruct H as [<-|[<-|[<-|[<-|[]]]]]; reflexivity. }
  split.
  { eexists; eexists. split; [reflexivity|]. split; [reflexivity|].
    split; [reflexivity|].
    intros am H. vm_compute in H. vm_compute.
    destruct H as [<-|[<-|[<-|[<-|[]]]]]; auto 6. }
  split; [reflexivity|]. split; [reflexivity|].
  split; [reflexivity|]. split; [reflexivity|].
  intros E. apply (f_equal (fun m => m 302)) in E.
  vm_compute in E. discriminate E.
Qed.

(** An int8 destination of two elements at 300, a mask of two true bytes
    at 200, the scalar 7 at 100. *)
Lemma C4_witness_two_true_mask_bytes :
  let w := demo_world x07 [x01; x01] in
  let rm := demo_masked 1%nat [2] demo_int8 300 [1] demo_int8 100
                        demo_bool 200 [1] w in
  let ru := demo_unmasked 1%nat [2] demo_int8 300 [1] demo_int8 100 w in
  mem (snd rm) = mem (snd ru) /\
  err (snd rm) = err (snd ru) /\
  fst rm = fst ru.
Proof.
  intros w rm ru.
  apply (C4_all_true_mask_equals_unconditional
           demo_prepare_one demo_prepare_two demo_get_transfer
           demo_get_masked_transfer demo_threshold
           1%nat [2] demo_int8 300 [1] demo_int8 100 demo_bool 200 [1] w
           (mkOneIter 1 [2] 300 [1]) (mkTwoIter 1 [2] 300 [1] 200 [1])).
  - reflexivity.
  - reflexivity.
  - reflexivity.
  - intros am H. exact H.
  - reflexivity.
  - intros a H. vm_compute in H.
    destruct H as [<-|[<-|[]]]; reflexivity.
  - intros t Ht. injection Ht as <-.
    intros a m bs k Ha Hm Hb Hk. vm_compute in Ha, Hm.
    simpl in Hk.
    destruct Ha as [<-|[<-|[]]]; destruct Hm as [<-|[<-|[]]]; lia.
Defined.

(** The run of the spec's masked scenario in one dimension: only the slot
    under the true mask byte is written. *)
Example demo_masked_run :
  let r := demo_masked 1%nat [2] demo_int8 300 [1] demo_int8 100
                       demo_bool 200 [1] (demo_world x07 [x01; x00]) in
  fst r = 0 /\ map (mem (snd r)) [300; 301] = [x07; x00].
Proof. vm_compute. split; reflexivity. Qed.

(** The spec's masked scenario: a 2 x 2 destination under the mask
    [[true, false], [false, true]]. *)
Example demo_masked_run_2x2 :
  let r := demo_masked 2%nat [2; 2] demo_int8 300 [2; 1] demo_int8 100
                       demo_bool 200 [2; 1]
                       (demo_world x01 [x01; x00; x00; x01]) in
  fst r = 0 /\
  map (mem (snd r)) [300; 301; 302; 303] = [x01; x00; x00; x01].
Proof. vm_compute. split; reflexivity. Qed.

(** The same destination under a mask of two false bytes. *)
Lemma C5_witness_two_false_mask_bytes :
  let w := demo_world x07 [x00; x00] in
  let r := demo_masked 1%nat [2] demo_int8 300 [1] demo_int8 100
                       demo_bool 200 [1] w in
  fst r = 0 /\ mem (snd r) = mem w.
Proof.
  intros w r. split; [reflexivity|].
  apply (C5_all_false_mask_leaves_memory_unchanged
           demo_prepare_two demo_get_masked_transfer demo_threshold
           1%nat [2] demo_int8 300 [1] demo_int8 100 demo_bool 200 [1] w).
  - intros it Hit. injection Hit as <-. intros am H. exact H.
  - intros a H. vm_compute in H.
    destruct H as [<-|[<-|[]]]; reflexivity.
Defined.

(** No transfer function exists from the record type to int8: both
    engines stop at the constructor. *)
Lemma C6_witness_no_transfer_from_record :
  let w := demo_world x07 [x01; x01] in
  let ru := demo_unmasked 1%nat [2] demo_int8 300 [1] demo_void40 100 w in
  let rm := demo_masked 1%nat [2] demo_int8 300 [1] demo_void40 100
                        demo_bool 200 [1] w in
  (fst ru = -1 /\ mem (snd ru) = mem w /\
   err (snd ru) = Some (ExternalError 1) /\
   trace (snd ru) =
     [EvPrepareOneRawArrayIter true;
      EvGetDTypeTransferFunction true 0 1 demo_void40 demo_int8 false false])
  /\
  (fst rm = -1 /\ mem (snd rm) = mem w /\
   err (snd rm) = Some (ExternalError 1) /\
   trace (snd rm) =
     [EvPrepareTwoRawArrayIter true;
      EvGetMaskedDTypeTransferFunction true 0 1 1 demo_void40 demo_int8
                                       demo_bool false false]).
Proof.
  intros w ru rm.
  destruct (C6_constructor_failure_aborts_before_any_write
              demo_prepare_one demo_prepare_two demo_get_transfer
              demo_get_masked_transfer demo_threshold
              1%nat [2] demo_int8 300 [1] demo_void40 100 demo_bool 200 [1] w
              (ExternalError 1)) as [Hu Hm].
  split.
  - exact (Hu (mkOneIter 1 [2] 300 [1]) eq_refl eq_refl).
  - exact (Hm (mkTwoIter 1 [2] 300 [1] 200 [1]) eq_refl eq_refl).
Defined.

(** C7, as stated, fails in both directions.  An object destination, the
    ordinary guarded object copy (which raises nothing), and an exception
    already pending on entry: no write raises, yet the engine returns -1.
    An int8 destination and a transfer that did not ask for guarded
    execution but raises: both writes raise, the engine is entered with a
    clear indicator, yet it returns 0, with the exception left pending. *)
Lemma C7_counterexample_pending_on_entry_and_unguarded_raise :
  let plan := mkOneIter 1 [2] 300 [8] in
  let w1 := mkWorld (demo_mem x07 [x01; x01]) (Some (ExternalError 9)) [] in
  let r1 := raw_array_assign_scalar demo_prepare_one
              (fun _ _ _ _ _ _ => inr demo_object_copy) demo_threshold
              1%nat [2] demo_object 300 [8] demo_object 100 w1 in
  let w2 := demo_world x07 [x01; x01] in
  let r2 := raw_array_assign_scalar demo_prepare_one
              (fun _ _ _ _ _ _ => inr demo_unguarded_raising) demo_threshold
              1%nat [2] demo_int8 300 [1] demo_int8 100 w2 in
  (demo_prepare_one 1 [2] 300 [8] = inr plan /\
   needs_api demo_object_copy = true /\
   fst r1 = -1 /\
   ~ raised_in_loop demo_object_copy 100 8 (iter_one_addrs plan)
                    (state_of w1)) /\
  (demo_prepare_one 1 [2] 300 [1] = inr (mkOneIter 1 [2] 300 [1]) /\
   needs_api demo_unguarded_raising = false /\
   err w2 = None /\
   raised_in_loop demo_unguarded_raising 100 1
                  (iter_one_addrs (mkOneIter 1 [2] 300 [1])) (state_of w2) /\
   fst r2 = 0 /\
   err (snd r2) = Some (ExternalError 4)).
Proof.
  intros plan w1 r1 w2 r2. split.
  - split; [reflexivity|]. split; [reflexivity|]. split; [vm_compute; reflexivity|].
    intros (l1 & a & l2 & _ & H). apply H. reflexivity.
  - split; [reflexivity|]. split; [reflexivity|]. split; [reflexivity|].
    split; [|split; vm_compute; reflexivity].
    exists [], 300, [301]. split; [reflexivity|]. simpl. discriminate.
Qed.

(** Two object slots, entered with a clear indicator: the guarded
    transfer stores its marker in both and raises; the engine reports the
    failure after the loop, and would have returned 0 only if no write
    had raised. *)
Lemma C7_witness_guarded_transfer_raises :
  let w := demo_world x07 [x01; x01] in
  let r := demo_unmasked 1%nat [2] demo_object 300 [8] demo_object 100 w in
  fst r = -1 /\
  err (snd r) = Some (ExternalError 2) /\
  mem (snd r) 300 = x2a /\ mem (snd r) 308 = x2a /\
  (fst r = 0 <->
   ~ raised_in_loop demo_guarded 100 8
       (iter_one_addrs (mkOneIter 1 [2] 300 [8])) (state_of w)) /\
  exists tr,
    trace (snd r) = tr /\
    filter write_event tr = [EvStransfer 300 8 100 0 2 8].
Proof.
  intros w r.
  destruct (C7_loop_completes_then_reports_pending_error
              demo_prepare_one demo_prepare_two demo_get_transfer
              demo_get_masked_transfer demo_threshold
              1%nat [2] demo_object 300 [8] demo_object 100 demo_bool 200 [1] w)
    as [Hu _].
  destruct (Hu (mkOneIter 1 [2] 300 [8]) demo_guarded eq_refl eq_refl)
    as ((tr & Ht & Hrows) & Hstate & Hmem & _ & _ & _ & Hfail & Hok & _).
  fold r in Hstate, Hmem, Hfail, Hok.
  assert (He : err (snd r) = Some (ExternalError 2)).
  { change (err (snd r)) with (snd (state_of (snd r))).
    rewrite Hstate. reflexivity. }
  split.
  { apply (Hfail eq_refl). split; [reflexivity|].
    exists [], 300, [308]. split; [reflexivity|]. simpl. discriminate. }
  split; [exact He|].
  split; [rewrite Hmem; reflexivity|].
  split; [rewrite Hmem; reflexivity|].
  split.
  { apply (Hok eq_refl). intros Hn. discriminate Hn. }
  exists tr. split; [exact Ht|exact Hrows].
Defined.

(** An int16 destination at an odd address is not aligned, and the
    selector is told so. *)
Lemma C8_witness_odd_destination_address :
  let w := demo_world x07 [x01; x01] in
  let r := demo_unmasked 1%nat [2] demo_int16 301 [2] demo_int8 100 w in
  check_alignment 1 demo_int16 301 [2] demo_int8 100 = false /\
  ~ is_multiple (alignment demo_int16) 301 /\
  exists ok,
    In (EvGetDTypeTransferFunction false 0 2 demo_int8 demo_int16 false ok)
       (trace (snd r)).
Proof.
  intros w r.
  destruct (C8_alignment_flag_passed_to_selector
              demo_prepare_one demo_prepare_two demo_get_transfer
              demo_get_masked_transfer demo_threshold
              1%nat [2] demo_int16 301 [2] demo_int8 100 demo_bool 200 [1] w)
    as (Hiff & (tr & Ht & _ & Hcall) & _).
  split; [reflexivity|].
  split.
  - intros Hm. assert (false = true) as X; [|discriminate X].
    apply Hiff. split; [split; [exact Hm|]|reflexivity].
    repeat constructor.
  - destruct (Hcall (mkOneIter 1 [2] 301 [2]) eq_refl) as (ok & Hin).
    exists ok. fold r in Ht. rewrite Ht. exact Hin.
Defined.

(** A 30 x 20 int8 destination: no extent exceeds the threshold of 500,
    their product, 600, does, and the lock is released around the twenty
    row transfers of 30 elements each. *)
Lemma C9_witness_six_hundred_elements :
  let w := demo_world x07 [x01; x01] in
  let r := demo_unmasked 2%nat [30; 20] demo_int8 300 [1; 30] demo_int8 100 w in
  let plan := mkOneIter 2 [30; 20] 300 [1; 30] in
  (exists rows,
      List.length rows = 20%nat /\
      trace (snd r) =
        [EvPrepareOneRawArrayIter true;
         EvGetDTypeTransferFunction true 0 1 demo_int8 demo_int8 false true;
         EvBeginThreadsThresholded 600;
         EvSaveThread] ++ rows ++ [EvRestoreThread; EvAuxdataFree]) /\
  In EvSaveThread (trace (snd r)) /\
  600 = Z.of_nat (List.length (iter_one_addrs plan)).
Proof.
  intros w r plan.
  destruct (C9_lock_released_only_around_large_unguarded_loops
              demo_prepare_one demo_prepare_two demo_get_transfer
              demo_get_masked_transfer demo_threshold
              2%nat [30; 20] demo_int8 300 [1; 30] demo_int8 100
              demo_bool 200 [1; 30] w)
    as ((tr & Ht & Hshape & _) & _).
  destruct (Hshape plan demo_copy1 eq_refl eq_refl) as (Htr & Hsave & Hcount).
  fold r in Ht. rewrite Ht.
  split; [|split].
  - rewrite Htr. eexists. split; [|reflexivity]. reflexivity.
  - apply Hsave. split; reflexivity.
  - apply Hcount.
    + apply le_S, le_n.
    + discriminate.
    + repeat constructor; discriminate.
Defined.

(** A destination of shape [0]. *)
Lemma C10_witness_empty_destination :
  let dst := demo_array demo_int16 0 300 true in
  let w := demo_world x05 [x00; x00] in
  let r := demo_assign dst demo_int8 100 None NPY_SAFE_CASTING w in
  PyArray_SIZE dst = 0 /\
  mem (snd r) = mem w /\
  fst r = 0 /\
  existsb staging_event (trace (snd r)) = false.
Proof.
  intros dst w r.
  destruct (C10_zero_size_destination_checked_not_staged_not_written
              demo_prepare_one demo_prepare_two demo_get_transfer
              demo_get_masked_transfer demo_threshold demo_can_cast
              demo_equiv_types demo_repr demo_casting_to_string demo_malloc
              demo_scalarbuffer demo_cast_raw demo_broadcast_strides
              dst demo_int8 100 None NPY_SAFE_CASTING w)
    as (Hsize & Hmem & tr & Ht & Hst & _ & _ & Hok).
  - left; reflexivity.
  - intros it Hit. injection Hit as <-. intros a H. exact H.
  - intros mask_data mask_strides it Hit. injection Hit as <-.
    intros a H. exact H.
  - split; [exact Hsize|]. split; [exact Hmem|].
    destruct (Hok eq_refl eq_refl) as (tr_it & E & _ & H0).
    fold r in Ht. split.
    + apply H0; [|reflexivity].
      assert (Etr : tr_it = skipn 2 (trace (snd r)))
        by (rewrite Ht, E; reflexivity).
      rewrite Etr. reflexivity.
    + rewrite Ht. exact Hst.
Defined.

(* ===================================================================== *)
(** ** Concrete runs of the memory and failure properties *)
(* ===================================================================== *)

(** The byte that follows a two-element int8 destination at 300 is not
    touched by the unconditional engine. *)
Lemma X1_witness_byte_after_the_destination :
  let w := demo_world x07 [x01; x01] in
  let r := demo_unmasked 1%nat [2] demo_int8 300 [1] demo_int8 100 w in
  mem (snd r) 302 = mem w 302.
Proof.
  intros w r.
  apply (X1_unmasked_engine_writes_only_destination_slots
           demo_prepare_one demo_get_transfer demo_threshold
           1%nat [2] demo_int8 300 [1] demo_int8 100 w 1%nat 302).
  - intros it Hit. injection Hit as <-. intros a H. exact H.
  - intros it t _ Ht. injection Ht as <-. intros bs _. reflexivity.
  - intros a Ha. vm_compute in Ha.
    destruct Ha as [<-|[<-|[]]]; unfold outside_slot; lia.
Defined.

(** The same byte under the masked engine. *)
Lemma X2_witness_byte_after_the_destination :
  let w := demo_world x07 [x01; x01] in
  let r := demo_masked 1%nat [2] demo_int8 300 [1] demo_int8 100
                       demo_bool 200 [1] w in
  mem (snd r) 302 = mem w 302.
Proof.
  intros w r.
  apply (X2_masked_engine_writes_only_destination_slots
           demo_prepare_two demo_get_masked_transfer demo_threshold
           1%nat [2] demo_int8 300 [1] demo_int8 100 demo_bool 200 [1]
           w 1%nat 302).
  - intros it Hit. injection Hit as <-. intros a H. exact H.
  - intros it t _ Ht. injection Ht as <-. intros bs _. reflexivity.
  - intros a Ha. vm_compute in Ha.
    destruct Ha as [<-|[<-|[]]]; unfold outside_slot; lia.
Defined.

(** The scalar 7 assigned to a two-element int8 destination. *)
Lemma X3_witness_two_int8_elements :
  let w := demo_world x07 [x01; x01] in
  let r := demo_unmasked 1%nat [2] demo_int8 300 [1] demo_int8 100 w in
  load_bytes (mem (snd r)) 300 1 = [x07] /\
  load_bytes (mem (snd r)) 301 1 = [x07] /\
  load_bytes (mem (snd r)) 100 1 = [x07] /\
  err (snd r) = None /\ fst r = 0.
Proof.
  intros w r.
  destruct (X3_unmasked_engine_fills_every_element
              demo_prepare_one demo_get_transfer demo_threshold
              1%nat [2] demo_int8 300 [1] demo_int8 100 w
              (mkOneIter 1 [2] 300 [1]) demo_copy1 1%nat)
    as (Hv & Hs & Hq).
  - reflexivity.
  - reflexivity.
  - intros a H. exact H.
  - intros a H. exact H.
  - intros bs _. reflexivity.
  - intros a a' Ha Ha'. vm_compute in Ha, Ha'.
    destruct Ha as [<-|[<-|[]]]; destruct Ha' as [<-|[<-|[]]]; lia.
  - intros a Ha. vm_compute in Ha.
    destruct Ha as [<-|[<-|[]]]; simpl; lia.
  - destruct (Hq eq_refl) as (He & H0).
    split; [apply Hv; vm_compute; auto|].
    split; [apply Hv; vm_compute; auto|].
    split; [exact Hs|]. split; [exact He|]. exact (H0 eq_refl).
Defined.

(** The same destination under the mask [true, false]: the first element
    is written, the second keeps its value. *)
Lemma X4_witness_mask_true_false :
  let w := demo_world x07 [x01; x00] in
  let r := demo_masked 1%nat [2] demo_int8 300 [1] demo_int8 100
                       demo_bool 200 [1] w in
  load_bytes (mem (snd r)) 300 1 = [x07] /\
  load_bytes (mem (snd r)) 301 1 = load_bytes (mem w) 301 1 /\
  mem (snd r) 200 = mem w 200 /\
  err (snd r) = None /\ fst r = 0.
Proof.
  intros w r.
  destruct (X4_masked_engine_writes_exactly_where_mask_is_true
              demo_prepare_two demo_get_masked_transfer demo_threshold
              1%nat [2] demo_int8 300 [1] demo_int8 100 demo_bool 200 [1] w
              (mkTwoIter 1 [2] 300 [1] 200 [1]) demo_copy1 1%nat)
    as (Hv & Hm & Hs & Hq).
  - reflexivity.
  - reflexivity.
  - intros a H. exact H.
  - intros a H. exact H.
  - intros bs _. reflexivity.
  - intros p p' Hp Hp'. vm_compute in Hp, Hp'.
    destruct Hp as [<-|[<-|[]]]; destruct Hp' as [<-|[<-|[]]];
      try (left; reflexivity); right; simpl; lia.
  - intros p p' Hp Hp'. vm_compute in Hp, Hp'.
    destruct Hp as [<-|[<-|[]]]; destruct Hp' as [<-|[<-|[]]];
      unfold outside_slot; simpl; lia.
  - intros a Ha. vm_compute in Ha.
    destruct Ha as [<-|[<-|[]]]; simpl; lia.
  - destruct (Hq eq_refl) as (He & H0).
    split; [apply (Hv 300 200); vm_compute; auto|].
    split; [apply (Hv 301 201); vm_compute; auto|].
    split; [apply (Hm 300 200); vm_compute; auto|].
    split; [exact He|]. exact (H0 eq_refl).
Defined.

(** Assigning 7 twice to the same destination: the second call changes
    nothing. *)
Lemma X5_witness_second_call_changes_nothing :
  let w := demo_world x07 [x01; x01] in
  let run := demo_unmasked 1%nat [2] demo_int8 300 [1] demo_int8 100 in
  mem (snd (run (snd (run w)))) 300 = mem (snd (run w)) 300.
Proof.
  intros w run.
  apply (X5_unmasked_engine_is_idempotent
           demo_prepare_one demo_get_transfer demo_threshold
           1%nat [2] demo_int8 300 [1] demo_int8 100 w 1%nat 300).
  - intros it Hit. injection Hit as <-. intros a H. exact H.
  - intros it t _ Ht. injection Ht as <-. intros bs _. reflexivity.
  - intros a a' Ha Ha'. vm_compute in Ha, Ha'.
    destruct Ha as [<-|[<-|[]]]; destruct Ha' as [<-|[<-|[]]]; lia.
  - intros a Ha. vm_compute in Ha.
    destruct Ha as [<-|[<-|[]]]; simpl; lia.
Defined.

Lemma X6_witness_second_masked_call_changes_nothing :
  let w := demo_world x07 [x01; x00] in
  let run := demo_masked 1%nat [2] demo_int8 300 [1] demo_int8 100
                         demo_bool 200 [1] in
  mem (snd (run (snd (run w)))) 300 = mem (snd (run w)) 300.
Proof.
  intros w run.
  apply (X6_masked_engine_is_idempotent
           demo_prepare_two demo_get_masked_transfer demo_threshold
           1%nat [2] demo_int8 300 [1] demo_int8 100 demo_bool 200 [1]
           w 1%nat 300).
  - intros it Hit. injection Hit as <-. intros a H. exact H.
  - intros it t _ Ht. injection Ht as <-. intros bs _. reflexivity.
  - intros p p' Hp Hp'. vm_compute in Hp, Hp'.
    destruct Hp as [<-|[<-|[]]]; destruct Hp' as [<-|[<-|[]]];
      try (left; reflexivity); right; simpl; lia.
  - intros p p' Hp Hp'. vm_compute in Hp, Hp'.
    destruct Hp as [<-|[<-|[]]]; destruct Hp' as [<-|[<-|[]]];
      unfold outside_slot; simpl; lia.
  - intros a Ha. vm_compute in Ha.
    destruct Ha as [<-|[<-|[]]]; simpl; lia.
Defined.

(** Normalisers that refuse every array. *)
Lemma X7_witness_failing_normalisers :
  let w := demo_world x07 [x01; x01] in
  let r1 := raw_array_assign_scalar
              (fun _ _ _ _ => inl (ExternalError 7))
              demo_get_transfer demo_threshold
              1%nat [2] demo_int8 300 [1] demo_int8 100 w in
  let r2 := raw_array_wheremasked_assign_scalar
              (fun _ _ _ _ _ _ => inl (ExternalError 7))
              demo_get_masked_transfer demo_threshold
              1%nat [2] demo_int8 300 [1] demo_int8 100 demo_bool 200 [1] w in
  (fst r1 = -1 /\ mem (snd r1) = mem w /\
   err (snd r1) = Some (ExternalError 7) /\
   trace (snd r1) = trace w ++ [EvPrepareOneRawArrayIter false]) /\
  (fst r2 = -1 /\ mem (snd r2) = mem w /\
   err (snd r2) = Some (ExternalError 7) /\
   trace (snd r2) = trace w ++ [EvPrepareTwoRawArrayIter false]).
Proof.
  intros w r1 r2.
  destruct (X7_normaliser_failure_aborts_before_selector
              (fun _ _ _ _ => inl (ExternalError 7))
              (fun _ _ _ _ _ _ => inl (ExternalError 7))
              demo_get_transfer demo_get_masked_transfer demo_threshold
              1%nat [2] demo_int8 300 [1] demo_int8 100 demo_bool 200 [1] w
              (ExternalError 7)) as (H1 & H2).
  split; [exact (H1 eq_refl)|exact (H2 eq_refl)].
Defined.

(** Both engines on the two-element int8 destination. *)
Lemma X8_witness_result_follows_indicator :
  let w := demo_world x07 [x01; x01] in
  let ru := demo_unmasked 1%nat [2] demo_int8 300 [1] demo_int8 100 w in
  let rm := demo_masked 1%nat [2] demo_int8 300 [1] demo_int8 100
                        demo_bool 200 [1] w in
  (fst ru = 0 <-> err (snd ru) = None) /\
  (fst rm = 0 <-> err (snd rm) = None).
Proof.
  intros w ru rm.
  destruct (X8_engines_return_minus_one_exactly_with_exception_pending
              demo_prepare_one demo_prepare_two
              demo_get_transfer demo_get_masked_transfer demo_threshold
              1%nat [2] demo_int8 300 [1] demo_int8 100 demo_bool 200 [1] w)
    as ((_ & _ & U) & (_ & _ & M)).
  split.
  - apply U; [|reflexivity].
    intros it t _ Ht. injection Ht as <-. intros _ bs. reflexivity.
  - apply M; [|reflexivity].
    intros it t _ Ht. injection Ht as <-. intros _ bs. reflexivity.
Defined.

(** The demonstration selectors raise only through the guarded transfer. *)
Lemma X9_witness_int8_into_int8 :
  let dst := demo_array demo_int8 2 300 true in
  let w := demo_world x07 [x01; x01] in
  let r := demo_assign dst demo_int8 100 None NPY_SAFE_CASTING w in
  (fst r = 0 \/ fst r = -1) /\
  (fst r = 0 <-> err (snd r) = None).
Proof.
  intros dst w r.
  destruct (X9_assign_returns_minus_one_exactly_with_exception_pending
              demo_prepare_one demo_prepare_two demo_get_transfer
              demo_get_masked_transfer demo_threshold demo_can_cast
              demo_equiv_types demo_repr demo_casting_to_string demo_malloc
              demo_scalarbuffer demo_cast_raw demo_broadcast_strides
              dst demo_int8 100 None NPY_SAFE_CASTING w)
    as (H1 & _ & H3).
  split; [exact H1|]. apply H3; [|reflexivity].
  split.
  - intros al ss ds sd dd mv t H. unfold demo_get_transfer in H.
    repeat match type of H with
           | context [if ?c then _ else _] => destruct c
           end;
      try discriminate H; injection H as <-; intros Hn bs;
      try discriminate Hn; reflexivity.
  - intros al ss ds ms sd dd md mv t H.
    unfold demo_get_masked_transfer, demo_get_transfer in H.
    repeat match type of H with
           | context [if ?c then _ else _] => destruct c
           end;
      try discriminate H; injection H as <-; intros Hn bs;
      try discriminate Hn; reflexivity.
Defined.

(** A two-dimensional mask offered for a one-dimensional destination. *)
Lemma X11_witness_mask_of_another_rank :
  let dst := demo_array demo_int8 2 300 true in
  let wm := mkArray 2 [2; 2] [2; 1] 200 demo_bool true in
  let w := demo_world x07 [x01; x01; x01; x01] in
  let r := demo_assign dst demo_int8 100 (Some wm) NPY_SAFE_CASTING w in
  fst r = -1 /\ err (snd r) = Some (ExternalError 3) /\
  mem (snd r) = mem w /\
  existsb engine_call_event (trace (snd r)) = false.
Proof.
  intros dst wm w r.
  destruct (X11_mask_that_does_not_broadcast_fails_before_the_engines
              demo_prepare_one demo_prepare_two demo_get_transfer
              demo_get_masked_transfer demo_threshold demo_can_cast
              demo_equiv_types demo_repr demo_casting_to_string demo_malloc
              demo_scalarbuffer demo_cast_raw demo_broadcast_strides
              dst demo_int8 100 wm NPY_SAFE_CASTING w (ExternalError 3))
    as (H1 & _ & (tr & Ht & Hno) & H4).
  - reflexivity.
  - destruct (H4 eq_refl eq_refl eq_refl) as (He & Hm & _).
    split; [exact H1|]. split; [exact He|]. split; [exact Hm|].
    fold r in Ht. rewrite Ht. exact Hno.
Defined.

(** An int8 scalar staged for an int16 destination: the scalar itself,
    at 100, lies outside the destination and outside the local array. *)
Lemma X13_witness_scalar_survives_staged_assignment :
  let dst := demo_array demo_int16 2 300 true in
  let w := demo_world x05 [x01; x01] in
  let r := demo_assign dst demo_int8 100 None NPY_SAFE_CASTING w in
  mem (snd r) 100 = mem w 100.
Proof.
  intros dst w r.
  apply (X13_assign_writes_only_destination_and_staging_buffer
           demo_prepare_one demo_prepare_two demo_get_transfer
           demo_get_masked_transfer demo_threshold demo_can_cast
           demo_equiv_types demo_repr demo_casting_to_string demo_malloc
           demo_scalarbuffer demo_cast_raw demo_broadcast_strides
           dst demo_int8 100 None NPY_SAFE_CASTING w 2%nat 100).
  - split.
    + intros it Hit. injection Hit as <-. intros a H. exact H.
    + intros a ds t Ht. injection Ht as <-. intros bs _. reflexivity.
  - intros a Ha. vm_compute in Ha.
    destruct Ha as [<-|[<-|[]]]; unfold outside_slot; lia.
  - intros tmp al _ [(_ & -> & _)|(Hfit & _)].
    + unfold outside_slot. left. reflexivity.
    + discriminate Hfit.
Defined.

(** Without staging the call is the unconditional engine. *)
Lemma X14_witness_int8_into_int8 :
  let dst := demo_array demo_int8 2 300 true in
  let w := demo_world x07 [x01; x01] in
  let r := demo_assign dst demo_int8 100 None NPY_SAFE_CASTING w in
  let e := demo_unmasked 1%nat [2] demo_int8 300 [1] demo_int8 100 w in
  fst r = fst e /\ mem (snd r) = mem (snd e) /\ err (snd r) = err (snd e).
Proof.
  intros dst w r e.
  exact (X14_assign_without_staging_is_the_engine_on_the_callers_scalar
           demo_prepare_one demo_prepare_two demo_get_transfer
           demo_get_masked_transfer demo_threshold demo_can_cast
           demo_equiv_types demo_repr demo_casting_to_string demo_malloc
           demo_scalarbuffer demo_cast_raw demo_broadcast_strides
           dst demo_int8 100 None NPY_SAFE_CASTING w
           eq_refl eq_refl eq_refl).
Defined.

(** With staging it is the engine on the two bytes left in the local
    array. *)
Lemma X15_witness_int8_into_int16 :
  let dst := demo_array demo_int16 2 300 true in
  let w := demo_world x05 [x01; x01] in
  let r := demo_assign dst demo_int8 100 None NPY_SAFE_CASTING w in
  let staged_world := set_mem (store_bytes (mem w) 8192 [x05; x00]) w in
  let e := demo_unmasked 1%nat [2] demo_int16 300 [2] demo_int16 8192
                         staged_world in
  load_bytes (mem staged_world) 8192 2 = [x05; x00] /\
  fst r = fst e /\ mem (snd r) = mem (snd e) /\ err (snd r) = err (snd e).
Proof.
  intros dst w r staged_world e.
  destruct (X15_assign_with_staging_is_the_engine_on_the_staged_scalar
              demo_prepare_one demo_prepare_two demo_get_transfer
              demo_get_masked_transfer demo_threshold demo_can_cast
              demo_equiv_types demo_repr demo_casting_to_string demo_malloc
              demo_scalarbuffer demo_cast_raw demo_broadcast_strides
              dst demo_int8 100 None NPY_SAFE_CASTING w 8192 false
              eq_refl eq_refl eq_refl
              (or_introl (conj eq_refl (conj eq_refl eq_refl))) eq_refl)
    as (Hl & He).
  split; [exact (Hl eq_refl)|exact He].
Defined.

(** The scalar 5 (int8) assigned to two int16 elements. *)
Lemma X16_witness_int8_into_int16 :
  let dst := demo_array demo_int16 2 300 true in
  let w := demo_world x05 [x01; x01] in
  let r := demo_assign dst demo_int8 100 None NPY_SAFE_CASTING w in
  load_bytes (mem (snd r)) 300 2 = [x05; x00] /\
  load_bytes (mem (snd r)) 302 2 = [x05; x00] /\
  err (snd r) = None /\ fst r = 0.
Proof.
  intros dst w r.
  destruct (X16_assign_without_mask_fills_every_element
              demo_prepare_one demo_prepare_two demo_get_transfer
              demo_get_masked_transfer demo_threshold demo_can_cast
              demo_equiv_types demo_repr demo_casting_to_string demo_malloc
              demo_scalarbuffer demo_cast_raw demo_broadcast_strides
              dst demo_int8 100 NPY_SAFE_CASTING w 8192 false
              (mkOneIter 1 [2] 300 [2]) demo_copy2 2%nat)
    as (Hv & Hq).
  - reflexivity.
  - reflexivity.
  - intros _. split; [left; repeat split|split; reflexivity].
  - reflexivity.
  - reflexivity.
  - intros a H. exact H.
  - intros a H. exact H.
  - intros bs _. reflexivity.
  - intros a a' Ha Ha'. vm_compute in Ha, Ha'.
    destruct Ha as [<-|[<-|[]]]; destruct Ha' as [<-|[<-|[]]]; lia.
  - intros a Ha. vm_compute in Ha.
    destruct Ha as [<-|[<-|[]]]; simpl; lia.
  - destruct (Hq eq_refl) as (He & H0).
    split; [apply Hv; vm_compute; auto|].
    split; [apply Hv; vm_compute; auto|].
    split; [exact He|]. exact (H0 eq_refl).
Defined.

(** The same assignment under the mask [true, false]. *)
Lemma X17_witness_int8_into_int16_under_mask :
  let dst := demo_array demo_int16 2 300 true in
  let wm := demo_array demo_bool 2 200 true in
  let w := demo_world x05 [x01; x00] in
  let r := demo_assign dst demo_int8 100 (Some wm) NPY_SAFE_CASTING w in
  load_bytes (mem (snd r)) 300 2 = [x05; x00] /\
  load_bytes (mem (snd r)) 302 2 = load_bytes (mem w) 302 2 /\
  err (snd r) = None /\ fst r = 0.
Proof.
  intros dst wm w r.
  destruct (X17_assign_with_mask_writes_exactly_where_mask_is_true
              demo_prepare_one demo_prepare_two demo_get_transfer
              demo_get_masked_transfer demo_threshold demo_can_cast
              demo_equiv_types demo_repr demo_casting_to_string demo_malloc
              demo_scalarbuffer demo_cast_raw demo_broadcast_strides
              dst demo_int8 100 wm NPY_SAFE_CASTING w 8192 false [1]
              (mkTwoIter 1 [2] 300 [2] 200 [1]) demo_copy2 2%nat)
    as (Hv & Hq).
  - reflexivity.
  - reflexivity.
  - intros _. split; [left; repeat split|split; reflexivity].
  - intros _ p Hp. vm_compute in Hp.
    destruct Hp as [<-|[<-|[]]]; unfold outside_slot; simpl; lia.
  - reflexivity.
  - reflexivity.
  - reflexivity.
  - intros a H. exact H.
  - intros a H. exact H.
  - intros bs _. reflexivity.
  - intros p p' Hp Hp'. vm_compute in Hp, Hp'.
    destruct Hp as [<-|[<-|[]]]; destruct Hp' as [<-|[<-|[]]];
      try (left; reflexivity); right; simpl; lia.
  - intros p p' Hp Hp'. vm_compute in Hp, Hp'.
    destruct Hp as [<-|[<-|[]]]; destruct Hp' as [<-|[<-|[]]];
      unfold outside_slot; simpl; lia.
  - intros a Ha. vm_compute in Ha.
    destruct Ha as [<-|[<-|[]]]; simpl; lia.
  - destruct (Hq eq_refl) as (He & H0).
    split; [apply (Hv 300 200); vm_compute; auto|].
    split; [apply (Hv 302 201); vm_compute; auto|].
    split; [exact He|]. exact (H0 eq_refl).
Defined.

